(** * error-to-md: the report engine of [src/index.js]

    A shallow embedding of the report-generation engine (redaction and
    truncation of request data, the error fingerprint, theme and severity
    lookup, and the report builder) together with the JavaScript built-ins
    it calls, of the Express middleware and the wrapper built on it, and of
    the command line of [src/cli.js], followed by the properties proved
    about them.

    Conventions of the embedding.
    - A JavaScript string is a Rocq [string].  On ASCII text every string
      operation below is the JavaScript one; outside ASCII the length, the
      cut of a string and the case mappings are those of the bytes, not of
      JavaScript.  The icons of the themes are kept as the bytes of their
      UTF-8 encoding and are only concatenated.
    - A JavaScript value is a tree of type [value]: [undefined], [null],
      booleans, integers that JavaScript writes in decimal (of magnitude
      below ten to the 21), strings, arrays and plain objects.  An object
      is the list of its own enumerable properties in the order in which
      JavaScript enumerates them; its keys are distinct.  A property holds
      a value of this type, hence never a function.  Trees have no cycles.
    - Code that can throw returns a [result]; reads of the clock and of the
      process are taken from an explicit [Env]. *)

From Stdlib Require Import ZArith Ascii Bool Lia DecimalString.
From Stdlib Require String.
From stdpp Require Import base option list gmap strings.

Local Open Scope Z_scope.

(** ** Strings *)

Definition LF : string := Eval cbv in String (ascii_of_nat 10) EmptyString.
Definition DQUOTE : string := Eval cbv in String (ascii_of_nat 34) EmptyString.
Definition BACKSLASH : string := Eval cbv in String (ascii_of_nat 92) EmptyString.

Definition charCode (c : ascii) : Z := Z.of_N (N_of_ascii c).
Definition fromCharCode (n : Z) : ascii := ascii_of_N (Z.to_N n).

(** [String.prototype.toLowerCase], letter by letter. *)
Definition lowerChar (c : ascii) : ascii :=
  let n := charCode c in
  if (65 <=? n) && (n <=? 90) then fromCharCode (n + 32) else c.

Fixpoint toLowerCase (s : string) : string :=
  match s with
  | EmptyString => EmptyString
  | String c s' => String (lowerChar c) (toLowerCase s')
  end.

(** [String.prototype.toUpperCase], letter by letter. *)
Definition upperChar (c : ascii) : ascii :=
  let n := charCode c in
  if (97 <=? n) && (n <=? 122) then fromCharCode (n - 32) else c.

Fixpoint toUpperCase (s : string) : string :=
  match s with
  | EmptyString => EmptyString
  | String c s' => String (upperChar c) (toUpperCase s')
  end.

(** [s.includes(sub)]: [sub] occurs in [s] at some offset. *)
Fixpoint includes (s sub : string) : bool :=
  String.prefix sub s ||
  match s with
  | EmptyString => false
  | String _ s' => includes s' sub
  end.

(** [s.split(sep)] for a one-character separator: never empty. *)
Fixpoint split (s : string) (sep : ascii) : list string :=
  match s with
  | EmptyString => [EmptyString]
  | String c s' =>
      if Ascii.eqb c sep then EmptyString :: split s' sep
      else match split s' sep with
           | h :: t => String c h :: t
           | [] => [String c EmptyString]
           end
  end.

(** [parts.join(sep)] on an array of strings. *)
Definition join (parts : list string) (sep : string) : string :=
  String.concat sep parts.

(** [s.substring(0, n)]: a negative [n] is clamped to 0, a large one to the
    length. *)
Definition substring0 (s : string) (n : Z) : string :=
  String.substring 0 (Z.to_nat n) s.

(** [arr.slice(0, n)]: a negative [n] counts from the end. *)
Definition slice0 {A : Type} (l : list A) (n : Z) : list A :=
  if n <? 0 then take (Z.to_nat (Z.of_nat (length l) + n)) l
  else take (Z.to_nat n) l.

Definition strlen (s : string) : Z := Z.of_nat (String.length s).

(** Decimal rendering of an integer and of an array index. *)
Definition numberToString (n : Z) : string :=
  NilZero.string_of_int (Z.to_int n).

Definition indexToString (i : nat) : string :=
  NilZero.string_of_uint (Nat.to_uint i).

(** ** Values *)

Unset Elimination Schemes.
Inductive value : Type :=
| VUndef
| VNull
| VBool (b : bool)
| VNum (n : Z)
| VStr (s : string)
| VArr (items : list value)
| VObj (props : list (string * value)).
Set Elimination Schemes.

(** Completion of a computation that may throw. *)
Inductive result (A : Type) : Type :=
| Ok (a : A)
| Throw (what : string).
Arguments Ok {A} a.
Arguments Throw {A} what.

Definition bind {A B : Type} (r : result A) (k : A -> result B) : result B :=
  match r with
  | Ok a => k a
  | Throw e => Throw e
  end.

Notation "'let!' x ':=' r 'in' k" := (bind r (fun x => k))
  (at level 10, x name, r at level 100, k at level 200).

Definition TypeError : string := "TypeError".

(** [if (v)], [!v], [v || w], [v && w]. *)
Definition truthy (v : value) : bool :=
  match v with
  | VUndef | VNull => false
  | VBool b => b
  | VNum n => negb (n =? 0)
  | VStr s => negb (String.eqb s EmptyString)
  | VArr _ | VObj _ => true
  end.

Definition or_else (v w : value) : value := if truthy v then v else w.

(** [typeof v === 'object'] ([null] included, as in JavaScript). *)
Definition typeof_object (v : value) : bool :=
  match v with
  | VNull | VArr _ | VObj _ => true
  | _ => false
  end.

Definition nullish (v : value) : bool :=
  match v with
  | VUndef | VNull => true
  | _ => false
  end.

(** Own property of an object literal, first binding. *)
Fixpoint assoc {A : Type} (k : string) (l : list (string * A)) : option A :=
  match l with
  | [] => None
  | (k', a) :: l' => if String.eqb k k' then Some a else assoc k l'
  end.

(** [o.k] for the property names the engine reads ([message], [stack],
    [name], [code], [method], [url], [headers], ...): none of them is
    defined on a built-in prototype, so a primitive or an array yields
    [undefined], and [null] or [undefined] throw. *)
Definition getProp (o : value) (k : string) : result value :=
  match o with
  | VUndef | VNull => Throw TypeError
  | VObj props => Ok (default VUndef (assoc k props))
  | _ => Ok VUndef
  end.

(** [o?.k] *)
Definition getPropOpt (o : value) (k : string) : value :=
  match o with
  | VObj props => default VUndef (assoc k props)
  | _ => VUndef
  end.

(** [String(v)], the conversion of template literals and of
    [new Error(v)].  An object is converted through its [toString]: the
    inherited one gives [[object Object]]; a member of its own under that
    name is not a function, and the conversion throws (the inherited
    [valueOf] returns the object itself).  An array joins the strings of
    its elements, [null] and [undefined] giving the empty string. *)
Fixpoint toStr (v : value) : result string :=
  match v with
  | VUndef => Ok "undefined"
  | VNull => Ok "null"
  | VBool true => Ok "true"
  | VBool false => Ok "false"
  | VNum n => Ok (numberToString n)
  | VStr s => Ok s
  | VArr items =>
      let! parts :=
        (fix each (l : list value) : result (list string) :=
           match l with
           | [] => Ok []
           | x :: l' =>
               let! text := if nullish x then Ok EmptyString else toStr x in
               let! rest := each l' in
               Ok (text :: rest)
           end) items in
      Ok (join parts ",")
  | VObj props =>
      match assoc "toString" props with
      | Some _ => Throw TypeError
      | None => Ok "[object Object]"
      end
  end.

(** [Object.keys(v).length] *)
Definition keysLength (v : value) : Z :=
  match v with
  | VStr s => strlen s
  | VArr items => Z.of_nat (length items)
  | VObj props => Z.of_nat (length props)
  | _ => 0
  end.

(** ** JSON.stringify *)

Definition hexDigit (n : Z) : ascii :=
  if n <? 10 then fromCharCode (48 + n) else fromCharCode (87 + n).

(** One code unit of a quoted JSON string. *)
Definition quoteChar (c : ascii) : string :=
  let n := charCode c in
  if n =? 34 then BACKSLASH +:+ DQUOTE
  else if n =? 92 then BACKSLASH +:+ BACKSLASH
  else if n =? 8 then BACKSLASH +:+ "b"
  else if n =? 9 then BACKSLASH +:+ "t"
  else if n =? 10 then BACKSLASH +:+ "n"
  else if n =? 12 then BACKSLASH +:+ "f"
  else if n =? 13 then BACKSLASH +:+ "r"
  else if n <? 32 then
    BACKSLASH +:+ "u00" +:+ String (hexDigit (n / 16)) (String (hexDigit (n mod 16)) EmptyString)
  else String c EmptyString.

Fixpoint quoteBody (s : string) : string :=
  match s with
  | EmptyString => EmptyString
  | String c s' => quoteChar c +:+ quoteBody s'
  end.

Definition quoteJSONString (s : string) : string :=
  DQUOTE +:+ quoteBody s +:+ DQUOTE.

Definition isEmpty (s : string) : bool := String.eqb s EmptyString.

(** The text of an array or of an object from the texts of its parts
    ([SerializeJSONArray] and [SerializeJSONObject] of the language
    definition): [gap] is the indentation unit, [stepback] the current
    indentation. *)
Definition wrapParts (opening closing gap stepback : string) (parts : list string) : string :=
  match parts with
  | [] => opening +:+ closing
  | _ =>
      if isEmpty gap then opening +:+ join parts "," +:+ closing
      else
        let indent := stepback +:+ gap in
        opening +:+ LF +:+ indent +:+ join parts ("," +:+ LF +:+ indent)
          +:+ LF +:+ stepback +:+ closing
  end.

Definition member (gap key text : string) : string :=
  quoteJSONString key +:+ ":" +:+ (if isEmpty gap then EmptyString else " ") +:+ text.

(** [SerializeJSONProperty] without a replacer: [None] is [undefined]. *)
Fixpoint serialize (gap stepback : string) (v : value) : option string :=
  match v with
  | VUndef => None
  | VNull => Some "null"
  | VBool true => Some "true"
  | VBool false => Some "false"
  | VNum n => Some (numberToString n)
  | VStr s => Some (quoteJSONString s)
  | VArr items =>
      let indent := stepback +:+ gap in
      Some (wrapParts "[" "]" gap stepback
              (List.map (fun x => default "null" (serialize gap indent x)) items))
  | VObj props =>
      let indent := stepback +:+ gap in
      Some (wrapParts "{" "}" gap stepback
              ((fix members (l : list (string * value)) : list string :=
                  match l with
                  | [] => []
                  | (k, x) :: l' =>
                      match serialize gap indent x with
                      | Some text => member gap k text :: members l'
                      | None => members l'
                      end
                  end) props))
  end.

(** [JSON.stringify(v)] and [JSON.stringify(v, null, 2)]. *)
Definition JSON_stringify (v : value) : option string :=
  serialize EmptyString EmptyString v.

Definition JSON_stringify_pretty (v : value) : option string :=
  serialize "  " EmptyString v.

(** ** MD5, the digest behind [createHash('md5')] (RFC 1321) *)

Module Md5.

Definition T : list Z :=
  [ 0xd76aa478; 0xe8c7b756; 0x242070db; 0xc1bdceee;
    0xf57c0faf; 0x4787c62a; 0xa8304613; 0xfd469501;
    0x698098d8; 0x8b44f7af; 0xffff5bb1; 0x895cd7be;
    0x6b901122; 0xfd987193; 0xa679438e; 0x49b40821;
    0xf61e2562; 0xc040b340; 0x265e5a51; 0xe9b6c7aa;
    0xd62f105d; 0x02441453; 0xd8a1e681; 0xe7d3fbc8;
    0x21e1cde6; 0xc33707d6; 0xf4d50d87; 0x455a14ed;
    0xa9e3e905; 0xfcefa3f8; 0x676f02d9; 0x8d2a4c8a;
    0xfffa3942; 0x8771f681; 0x6d9d6122; 0xfde5380c;
    0xa4beea44; 0x4bdecfa9; 0xf6bb4b60; 0xbebfbc70;
    0x289b7ec6; 0xeaa127fa; 0xd4ef3085; 0x04881d05;
    0xd9d4d039; 0xe6db99e5; 0x1fa27cf8; 0xc4ac5665;
    0xf4292244; 0x432aff97; 0xab9423a7; 0xfc93a039;
    0x655b59c3; 0x8f0ccc92; 0xffeff47d; 0x85845dd1;
    0x6fa87e4f; 0xfe2ce6e0; 0xa3014314; 0x4e0811a1;
    0xf7537e82; 0xbd3af235; 0x2ad7d2bb; 0xeb86d391 ].

Definition S : list Z :=
  [ 7; 12; 17; 22; 7; 12; 17; 22; 7; 12; 17; 22; 7; 12; 17; 22;
    5; 9; 14; 20; 5; 9; 14; 20; 5; 9; 14; 20; 5; 9; 14; 20;
    4; 11; 16; 23; 4; 11; 16; 23; 4; 11; 16; 23; 4; 11; 16; 23;
    6; 10; 15; 21; 6; 10; 15; 21; 6; 10; 15; 21; 6; 10; 15; 21 ].

Definition wrap32 (x : Z) : Z := x mod 2 ^ 32.
Definition not32 (x : Z) : Z := Z.lxor x 0xffffffff.
Definition rotl32 (x c : Z) : Z :=
  wrap32 (Z.lor (Z.shiftl x c) (Z.shiftr x (32 - c))).

Definition at_ (l : list Z) (i : nat) : Z := default 0 (l !! i).

(** The message followed by the bit [1], zeros up to 56 modulo 64, and
    the bit length on eight bytes, least significant first. *)
Definition le_bytes (count : nat) (x : Z) : list Z :=
  List.map (fun i => Z.shiftr x (8 * Z.of_nat i) mod 256) (seq 0 count).

Definition pad (msg : list Z) : list Z :=
  let len := Z.of_nat (length msg) in
  msg ++ [128] ++ replicate (Z.to_nat ((55 - len) mod 64)) 0 ++ le_bytes 8 (8 * len).

Definition word_at (bytes : list Z) (j : nat) : Z :=
  at_ bytes (4 * j) + 256 * at_ bytes (4 * j + 1)
  + 65536 * at_ bytes (4 * j + 2) + 16777216 * at_ bytes (4 * j + 3).

Record state := State { sa : Z; sb : Z; sc : Z; sd : Z }.

Definition init : state :=
  State 0x67452301 0xefcdab89 0x98badcfe 0x10325476.

Definition step (M : list Z) (st : state) (i : nat) : state :=
  let '(State a b c d) := st in
  let '(f, g) :=
    if (i <? 16)%nat then (Z.lor (Z.land b c) (Z.land (not32 b) d), i)
    else if (i <? 32)%nat then
      (Z.lor (Z.land d b) (Z.land (not32 d) c), ((5 * i + 1) mod 16)%nat)
    else if (i <? 48)%nat then (Z.lxor (Z.lxor b c) d, ((3 * i + 5) mod 16)%nat)
    else (Z.lxor c (Z.lor b (not32 d)), ((7 * i) mod 16)%nat) in
  let f' := wrap32 (f + a + at_ T i + at_ M g) in
  State d (wrap32 (b + rotl32 f' (at_ S i))) b c.

Definition block (bytes : list Z) (st : state) (k : nat) : state :=
  let M := List.map (fun j => word_at bytes (16 * k + j)) (seq 0 16) in
  let '(State a b c d) := foldl (step M) st (seq 0 64) in
  State (wrap32 (sa st + a)) (wrap32 (sb st + b))
        (wrap32 (sc st + c)) (wrap32 (sd st + d)).

Definition digest (msg : list Z) : list Z :=
  let bytes := pad msg in
  let '(State a b c d) := foldl (block bytes) init (seq 0 (length bytes / 64)) in
  le_bytes 4 a ++ le_bytes 4 b ++ le_bytes 4 c ++ le_bytes 4 d.

Fixpoint hex (bytes : list Z) : string :=
  match bytes with
  | [] => EmptyString
  | b :: rest => String (hexDigit (b / 16)) (String (hexDigit (b mod 16)) (hex rest))
  end.

(** [createHash('md5').update(s).digest('hex')] *)
Definition md5_hex (s : string) : string :=
  hex (digest (List.map charCode (String.list_ascii_of_string s))).

End Md5.

(** ** Configuration ([defaultOptions] and the caller's [options]) *)

(** The caller's options: a field is absent or holds a value of its
    declared type ([src/types.d.ts], [ErrorToMdOptions]). *)
Module Options.
Record t := Make {
  redact : option (list string);
  includeEnvironment : option bool;
  includeTimestamp : option bool;
  includePerformance : option bool;
  theme : option string;
  maxStackLines : option Z;
  maxBodySize : option Z;
  includeUserAgent : option bool;
  includeMemoryUsage : option bool;
  generateErrorId : option bool;
  severity : option string;
  appVersion : option string
}.

(** [{}] *)
Definition empty : t :=
  Make None None None None None None None None None None None None.
End Options.

Module Config.
Record t := Make {
  redact : list string;
  includeEnvironment : bool;
  includeTimestamp : bool;
  includePerformance : bool;
  theme : string;
  maxStackLines : Z;
  maxBodySize : Z;
  includeUserAgent : bool;
  includeMemoryUsage : bool;
  generateErrorId : bool;
  severity : string;
  appVersion : option string
}.
End Config.

Definition defaultOptions : Config.t :=
  Config.Make
    ["password"; "token"; "key"; "secret"; "auth"; "authorization"; "cookie"]
    true true true "github" 50 1000 true true true "error" None.

(** [{ ...defaultOptions, ...options }] *)
Definition mergeOptions (d : Config.t) (o : Options.t) : Config.t :=
  Config.Make
    (default (Config.redact d) (Options.redact o))
    (default (Config.includeEnvironment d) (Options.includeEnvironment o))
    (default (Config.includeTimestamp d) (Options.includeTimestamp o))
    (default (Config.includePerformance d) (Options.includePerformance o))
    (default (Config.theme d) (Options.theme o))
    (default (Config.maxStackLines d) (Options.maxStackLines o))
    (default (Config.maxBodySize d) (Options.maxBodySize o))
    (default (Config.includeUserAgent d) (Options.includeUserAgent o))
    (default (Config.includeMemoryUsage d) (Options.includeMemoryUsage o))
    (default (Config.generateErrorId d) (Options.generateErrorId o))
    (default (Config.severity d) (Options.severity o))
    (match Options.appVersion o with
     | Some v => Some v
     | None => Config.appVersion d
     end).

(** ** Lookup in an object literal used as a table

    [table[name]] finds an own property first and then walks to
    [Object.prototype], whose members every object literal inherits. *)

Definition Object_prototype : list string :=
  [ "constructor"; "__defineGetter__"; "__defineSetter__"; "hasOwnProperty";
    "__lookupGetter__"; "__lookupSetter__"; "isPrototypeOf";
    "propertyIsEnumerable"; "toString"; "valueOf"; "__proto__";
    "toLocaleString" ].

Inductive slot (A : Type) : Type :=
| Own (a : A)
| Inherited (name : string)
| Absent.
Arguments Own {A} a.
Arguments Inherited {A} name.
Arguments Absent {A}.

Definition inb (k : string) (l : list string) : bool :=
  existsb (String.eqb k) l.

Definition tableGet {A : Type} (table : list (string * A)) (name : string) : slot A :=
  match assoc name table with
  | Some a => Own a
  | None => if inb name Object_prototype then Inherited name else Absent
  end.

(** [table[name] || fallback]: entries and inherited members are truthy. *)
Definition tableGetOr {A : Type} (table : list (string * A)) (name : string)
    (fallback : A) : slot A :=
  match tableGet table name with
  | Absent => Own fallback
  | found => found
  end.

(** [String(x)] of an inherited member: a native function, or
    [Object.prototype] itself under [__proto__]. *)
Definition nativeToString (name : string) : string :=
  if String.eqb name "__proto__" then "[object Object]"
  else if String.eqb name "constructor" then "function Object() { [native code] }"
  else "function " +:+ name +:+ "() { [native code] }".

(** ** Themes *)

Record Theme := MkTheme {
  title : string;
  errorIcon : string;
  stackIcon : string;
  requestIcon : string;
  envIcon : string;
  separator : string
}.

Definition github : Theme :=
  MkTheme "## 🐛 Bug Report" "❌" "📋" "🌐" "💻" "---".

Definition slack : Theme :=
  MkTheme "*🐛 Bug Report*" ":x:" ":clipboard:" ":globe_with_meridians:"
          ":computer:" "```".

Definition discord : Theme :=
  MkTheme "## 🐛 Bug Report" "❌" "📋" "🌐" "💻" "```diff".

Definition themes : list (string * Theme) :=
  [("github", github); ("slack", slack); ("discord", discord)].

(** [themes[config.theme] || themes.github] *)
Definition resolveTheme (name : string) : slot Theme :=
  tableGetOr themes name github.

(** [theme.title], [theme.errorIcon], ...: [None] is [undefined]. *)
Definition token (field : Theme -> string) (theme : slot Theme) : option string :=
  match theme with
  | Own t => Some (field t)
  | _ => None
  end.

(** An optional string inside a template literal. *)
Definition show (s : option string) : string := default "undefined" s.

(** ** Severity *)

Definition severityMap : list (string * string) :=
  [ ("info", "💡 INFO"); ("warning", "⚠️ WARNING");
    ("error", "❌ ERROR"); ("critical", "🚨 CRITICAL") ].

(** [severityMap[severity] || severityMap.error] *)
Definition formatSeverity (severity : string) : slot string :=
  tableGetOr severityMap severity "❌ ERROR".

Definition showSlot (s : slot string) : string :=
  match s with
  | Own text => text
  | Inherited name => nativeToString name
  | Absent => "undefined"
  end.

(** ** Fingerprint *)

(** [err.stack?.split('\n')[0] || ''] *)
Definition firstStackLine (stack : value) : result value :=
  match stack with
  | VUndef | VNull => Ok (VStr EmptyString)
  | VStr s => Ok (or_else (VStr (hd EmptyString (split s "010"%char))) (VStr EmptyString))
  | _ => Throw TypeError
  end.

Definition errorData (err req : value) : result value :=
  let! message := getProp err "message" in
  let! stack := getProp err "stack" in
  let! line := firstStackLine stack in
  Ok (VObj [ ("message", message);
             ("stack", line);
             ("url", or_else (or_else (getPropOpt req "originalUrl") (getPropOpt req "url"))
                             (VStr EmptyString));
             ("method", or_else (getPropOpt req "method") (VStr EmptyString)) ]).

Definition generateErrorId (err req : value) : result string :=
  let! data := errorData err req in
  match JSON_stringify data with
  | Some text =>
      let hash := Md5.md5_hex text in
      Ok ("ERR-" +:+ toUpperCase (substring0 hash 8))
  | None => Throw TypeError
  end.

(** ** Redaction *)

Definition REDACTED : string := "[REDACTED]".
Definition TRUNCATED : string := "... [TRUNCATED]".

(** The test of the replacer:
    [redactKeys.some(redactKey => key.toLowerCase().includes(redactKey.toLowerCase()))] *)
Definition isRedacted (redactKeys : list string) (key : string) : bool :=
  existsb (fun redactKey => includes (toLowerCase key) (toLowerCase redactKey)) redactKeys.

(** The replacer that [cleanObject] hands to [JSON.stringify]. *)
Definition replacer (redactKeys : list string) (key : string) (v : value) : value :=
  if isRedacted redactKeys key then VStr REDACTED else v.

(** [JSON.parse(JSON.stringify(obj, replacer))] on a tree.  The serializer
    hands every property to the replacer under its key (the root under the
    empty key, an array element under its index), descends into what the
    replacer returned, drops a property whose value is [undefined] and writes
    [null] for such an array element; parsing the text rebuilds the tree
    that was written.  The result is [VUndef] when nothing is written.
    The test of [replacer] is written out in the recursion, which descends
    into [v] only where [replacer] returns [v] itself
    ([redactProperty_replacer] below). *)
Fixpoint redactProperty (redactKeys : list string) (key : string) (v : value) : value :=
  if isRedacted redactKeys key then VStr REDACTED
  else
    match v with
    | VArr items =>
        VArr ((fix elements (i : nat) (l : list value) : list value :=
                 match l with
                 | [] => []
                 | x :: l' =>
                     match redactProperty redactKeys (indexToString i) x with
                     | VUndef => VNull
                     | w => w
                     end :: elements (S i) l'
                 end) 0%nat items)
    | VObj props =>
        VObj ((fix members (l : list (string * value)) : list (string * value) :=
                 match l with
                 | [] => []
                 | (k, x) :: l' =>
                     match redactProperty redactKeys k x with
                     | VUndef => members l'
                     | w => (k, w) :: members l'
                     end
                 end) props)
    | _ => v
    end.

Definition cleanObject (obj : value) (redactKeys : list string) (maxSize : Z) : result value :=
  if negb (truthy obj) || negb (typeof_object obj) then Ok obj
  else
    let cleaned := redactProperty redactKeys EmptyString obj in
    match JSON_stringify_pretty cleaned with
    | Some jsonString =>
        if strlen jsonString >? maxSize then
          match JSON_stringify cleaned with
          | Some compact => Ok (VStr (substring0 compact maxSize +:+ TRUNCATED))
          | None => Throw TypeError
          end
        else Ok cleaned
    | None => Throw TypeError
    end.

(** The defaults of [cleanObject]'s parameters. *)
Definition cleanObject_maxSize_default : Z := 1000.

(** ** The process and the clock *)

Record Env := MkEnv {
  now_iso : string;          (* new Date().toISOString() *)
  elapsed_us : Z;            (* second performance.now() minus the first, in microseconds *)
  node_version : string;     (* process.version *)
  platform : string;         (* process.platform *)
  arch : string;             (* process.arch *)
  NODE_ENV : option string;  (* process.env.NODE_ENV *)
  rss : Z;                   (* process.memoryUsage(), bytes *)
  heapUsed : Z;
  heapTotal : Z;
  external : Z;
  cpu_user : Z;              (* process.cpuUsage(), microseconds *)
  cpu_system : Z;
  uptime_ms : Z              (* process.uptime(), in milliseconds *)
}.

(** [Math.round(n / d)] for integers [n] and [d > 0]: halves go up. *)
Definition roundDiv (n d : Z) : Z := (2 * n + d) / (2 * d).

Record Metrics := MkMetrics {
  m_rss : string;
  m_heapUsed : string;
  m_heapTotal : string;
  m_external : string;
  m_user : string;
  m_system : string;
  m_uptime : string
}.

Definition getPerformanceMetrics (env : Env) : Metrics :=
  let mb (n : Z) := numberToString (roundDiv n (1024 * 1024)) +:+ "MB" in
  let ms (n : Z) := numberToString (roundDiv n 1000) +:+ "ms" in
  MkMetrics (mb (rss env)) (mb (heapUsed env)) (mb (heapTotal env)) (mb (external env))
            (ms (cpu_user env)) (ms (cpu_system env))
            (numberToString (roundDiv (uptime_ms env) 1000) +:+ "s").

(** [x.toFixed(2)] for [x] milliseconds given in microseconds. *)
Definition toFixed2 (us : Z) : string :=
  let h := roundDiv (Z.abs us) 10 in
  let frac := h mod 100 in
  (if us <? 0 then "-" else EmptyString)
    +:+ numberToString (h / 100) +:+ "."
    +:+ (if frac <? 10 then "0" else EmptyString) +:+ numberToString frac.

(** ** The report builder *)

(** An element of the array [md]: a string, or [undefined]. *)
Definition line := option string.

(** [md.join(sep)]: [undefined] elements are written as the empty string. *)
Definition joinLines (md : list line) (sep : string) : string :=
  join (List.map (default EmptyString) md) sep.

Definition when (b : bool) (lines : list line) : list line :=
  if b then lines else [].

Definition BT : string := "`".
Definition FENCE : string := "```".

(** Title and Error ID *)
Definition titleLines (theme : slot Theme) (errorId timestamp : option string) : list line :=
  [token title theme]
  ++ match errorId with
     | Some id => when (negb (isEmpty id)) [Some ("**Error ID:** `" +:+ id +:+ BT)]
     | None => []
     end
  ++ match timestamp with
     | Some ts => when (negb (isEmpty ts)) [Some ("**Timestamp:** `" +:+ ts +:+ BT)]
     | None => []
     end
  ++ [Some EmptyString].

(** Severity *)
Definition severityLines (config : Config.t) : list line :=
  [ Some ("**Severity:** " +:+ showSlot (formatSeverity (Config.severity config)));
    Some EmptyString ].

(** Error Message *)
Definition messageLines (theme : slot Theme) (message : value) : result (list line) :=
  let! text := toStr (or_else message (VStr "Unknown Error")) in
  Ok [ Some (show (token errorIcon theme) +:+ " **Error Message:**");
       Some (FENCE +:+ LF +:+ text +:+ LF +:+ FENCE);
       Some EmptyString ].

(** Error Type *)
Definition typeLines (name : value) : result (list line) :=
  if truthy name && negb (match name with VStr s => String.eqb s "Error" | _ => false end)
  then
    let! text := toStr name in
    Ok [ Some ("**Error Type:** `" +:+ text +:+ BT); Some EmptyString ]
  else Ok [].

(** Error Code (for system errors) *)
Definition codeLines (code : value) : result (list line) :=
  if truthy code then
    let! text := toStr code in
    Ok [ Some ("**Error Code:** `" +:+ text +:+ BT); Some EmptyString ]
  else Ok [].

(** [s.split('\n')] on a value: only a string has the method. *)
Definition splitValue (v : value) : result (list string) :=
  match v with
  | VStr s => Ok (split s "010"%char)
  | _ => Throw TypeError
  end.

(** Stack Trace: the lines between the two fences, fences included. *)
Definition stackBlock (stack : value) (maxStackLines : Z) : result (list line) :=
  let! all := splitValue (or_else stack (VStr "No stack trace available")) in
  let stackLines := slice0 all maxStackLines in
  let! truncated :=
    if truthy stack then
      let! lines := splitValue stack in
      Ok (Z.of_nat (length lines) >? maxStackLines)
    else Ok false in
  Ok ([Some FENCE; Some (join stackLines LF)]
      ++ when truncated [Some TRUNCATED]
      ++ [Some FENCE]).

Definition stackLines_ (theme : slot Theme) (stack : value) (maxStackLines : Z)
    : result (list line) :=
  let! block := stackBlock stack maxStackLines in
  Ok ([Some (show (token stackIcon theme) +:+ " **Stack Trace:**")]
      ++ block ++ [Some EmptyString]).

(** One fenced JSON block of the request section. *)
Definition jsonBlock (heading : string) (text : option string) : list line :=
  [ Some heading; Some "```json"; text; Some FENCE ].

(** Request Details *)
Definition requestLines (theme : slot Theme) (config : Config.t) (req : value)
    : result (list line) :=
  if negb (truthy req) then Ok []
  else
    let method := getPropOpt req "method" in
    let url := or_else (getPropOpt req "originalUrl") (getPropOpt req "url") in
    let ip := or_else (or_else (getPropOpt req "ip")
                               (getPropOpt (getPropOpt req "connection") "remoteAddress"))
                      (VStr "unknown") in
    let headers := getPropOpt req "headers" in
    let userAgent := getPropOpt headers "user-agent" in
    let body := getPropOpt req "body" in
    let query := getPropOpt req "query" in
    let params := getPropOpt req "params" in
    let! methodText := toStr method in
    let! urlText := toStr url in
    let! ipText := toStr ip in
    let! agentLines :=
      if Config.includeUserAgent config && truthy userAgent then
        let! agentText := toStr userAgent in
        Ok [Some ("- **User Agent:** `" +:+ agentText +:+ BT)]
      else Ok [] in
    let! bodyLines :=
      if truthy body && (keysLength body >? 0) then
        let! cleaned := cleanObject body (Config.redact config) (Config.maxBodySize config) in
        Ok (jsonBlock "- **Body:**" (JSON_stringify_pretty cleaned))
      else Ok [] in
    let! queryLines :=
      if truthy query && (keysLength query >? 0) then
        let! cleaned := cleanObject query (Config.redact config) cleanObject_maxSize_default in
        Ok (jsonBlock "- **Query Parameters:**" (JSON_stringify_pretty cleaned))
      else Ok [] in
    let paramsLines :=
      when (truthy params && (keysLength params >? 0))
        (jsonBlock "- **Route Parameters:**" (JSON_stringify_pretty params)) in
    let! cleanedHeaders := cleanObject headers (Config.redact config) cleanObject_maxSize_default in
    Ok ([ Some (show (token requestIcon theme) +:+ " **Request Details:**");
          Some ("- **Method:** `" +:+ methodText +:+ BT);
          Some ("- **URL:** `" +:+ urlText +:+ BT);
          Some ("- **IP:** `" +:+ ipText +:+ BT) ]
        ++ agentLines
        ++ bodyLines ++ queryLines ++ paramsLines
        ++ jsonBlock "- **Headers:**" (JSON_stringify_pretty cleanedHeaders)
        ++ [Some EmptyString]).

(** Environment Information *)
Definition environmentLines (theme : slot Theme) (config : Config.t) (env : Env) : list line :=
  when (Config.includeEnvironment config)
    ([ Some (show (token envIcon theme) +:+ " **Environment:**");
       Some ("- **Node.js Version:** `" +:+ node_version env +:+ BT);
       Some ("- **Platform:** `" +:+ platform env +:+ " " +:+ arch env +:+ BT);
       Some ("- **Environment:** `"
             +:+ (match NODE_ENV env with
                  | Some e => if isEmpty e then "development" else e
                  | None => "development"
                  end) +:+ BT) ]
     ++ match Config.appVersion config with
        | Some v => when (negb (isEmpty v)) [Some ("- **App Version:** `" +:+ v +:+ BT)]
        | None => []
        end
     ++ when (Config.includeMemoryUsage config)
          (let perf := getPerformanceMetrics env in
           [ Some ("- **Memory Usage:** RSS: `" +:+ m_rss perf +:+ "`, Heap: `"
                   +:+ m_heapUsed perf +:+ "/" +:+ m_heapTotal perf +:+ BT);
             Some ("- **CPU Usage:** User: `" +:+ m_user perf +:+ "`, System: `"
                   +:+ m_system perf +:+ BT);
             Some ("- **Process Uptime:** `" +:+ m_uptime perf +:+ BT) ])
     ++ [Some EmptyString]).

(** Performance *)
Definition performanceLines (config : Config.t) (env : Env) : list line :=
  when (Config.includePerformance config)
    [ Some ("⚡ **Report Generation Time:** `" +:+ toFixed2 (elapsed_us env) +:+ "ms`");
      Some EmptyString ].

(** Footer *)
Definition footerLines (theme : slot Theme) : list line :=
  [ token separator theme;
    Some "*Generated by [error-to-md](https://github.com/imankii01/error-to-md) 🚀*" ].

(** The array [md] just before it is joined. *)
Definition reportLines (env : Env) (err req : value) (options : Options.t)
    : result (list line) :=
  let config := mergeOptions defaultOptions options in
  let theme := resolveTheme (Config.theme config) in
  let! errorId :=
    if Config.generateErrorId config then
      let! id := generateErrorId err req in Ok (Some id)
    else Ok None in
  let timestamp := if Config.includeTimestamp config then Some (now_iso env) else None in
  let! message := getProp err "message" in
  let! messagePart := messageLines theme message in
  let! name := getProp err "name" in
  let! typePart := typeLines name in
  let! code := getProp err "code" in
  let! codePart := codeLines code in
  let! stack := getProp err "stack" in
  let! stackPart := stackLines_ theme stack (Config.maxStackLines config) in
  let! requestPart := requestLines theme config req in
  Ok (titleLines theme errorId timestamp
      ++ severityLines config
      ++ messagePart
      ++ typePart
      ++ codePart
      ++ stackPart
      ++ requestPart
      ++ environmentLines theme config env
      ++ performanceLines config env
      ++ footerLines theme).

Definition errorToMarkdown (env : Env) (err req : value) (options : Options.t)
    : result string :=
  let! md := reportLines env err req options in
  Ok (joinLines md LF).

(** The tree-level [cleanObject], under a name that the store's
    [cleanObject] does not shadow. *)
Definition cleanTree : value -> list string -> Z -> result value := cleanObject.

(** ** The store: arrays and objects with identity

    What a caller passes to [cleanObject] is a reference into a store of
    mutable arrays and objects.  [JSON.stringify] reads the cells it can
    reach; [JSON.parse] builds its result out of new cells. *)

Module Store.

Abbreviation loc := positive (only parsing).

(** A value as a variable or a property holds it. *)
Inductive ref : Type :=
| RUndef
| RNull
| RBool (b : bool)
| RNum (n : Z)
| RStr (s : string)
| RObj (l : loc).

Inductive cell : Type :=
| CArr (items : list ref)
| CObj (props : list (string * ref)).

Abbreviation heap := (gmap positive cell) (only parsing).

Definition locOf (r : ref) : option loc :=
  match r with
  | RObj l => Some l
  | _ => None
  end.

(** The cells a cell points to. *)
Definition refsOf (c : cell) : list loc :=
  match c with
  | CArr items => omap locOf items
  | CObj props => omap (fun kr => locOf kr.2) props
  end.

Inductive reachable (h : heap) : loc -> loc -> Prop :=
| reach_here (l : loc) : reachable h l l
| reach_step (l l1 l2 : loc) (c : cell) :
    h !! l = Some c -> l1 ∈ refsOf c -> reachable h l1 l2 -> reachable h l l2.

Definition truthy (r : ref) : bool :=
  match r with
  | RUndef | RNull => false
  | RBool b => b
  | RNum n => negb (n =? 0)
  | RStr s => negb (String.eqb s EmptyString)
  | RObj _ => true
  end.

Definition typeof_object (r : ref) : bool :=
  match r with
  | RNull | RObj _ => true
  | _ => false
  end.

(** The tree under a reference, as the serializer walks it.  The fuel
    bounds the depth of the walk: it runs out only on a cycle, where
    [JSON.stringify] throws. *)
Fixpoint load (fuel : nat) (h : heap) (r : ref) : option value :=
  match r with
  | RUndef => Some VUndef
  | RNull => Some VNull
  | RBool b => Some (VBool b)
  | RNum n => Some (VNum n)
  | RStr s => Some (VStr s)
  | RObj l =>
      match fuel with
      | O => None
      | S fuel' =>
          match h !! l with
          | Some (CArr items) => VArr <$> mapM (load fuel' h) items
          | Some (CObj props) =>
              VObj <$> mapM (fun kr => pair kr.1 <$> load fuel' h kr.2) props
          | None => None
          end
      end
  end.

(** A new cell, at a location the store does not use. *)
Definition alloc (c : cell) (h : heap) : heap * ref :=
  let l := fresh (dom h) in (<[l := c]> h, RObj l).

Definition storeList (f : value -> heap -> heap * ref)
    : list value -> heap -> heap * list ref :=
  fix go (l : list value) (h : heap) : heap * list ref :=
    match l with
    | [] => (h, [])
    | x :: l' =>
        let '(h1, r) := f x h in
        let '(h2, rs) := go l' h1 in
        (h2, r :: rs)
    end.

Definition storeProps (f : value -> heap -> heap * ref)
    : list (string * value) -> heap -> heap * list (string * ref) :=
  fix go (l : list (string * value)) (h : heap) : heap * list (string * ref) :=
    match l with
    | [] => (h, [])
    | (k, x) :: l' =>
        let '(h1, r) := f x h in
        let '(h2, rs) := go l' h1 in
        (h2, (k, r) :: rs)
    end.

(** The tree built in the store, as [JSON.parse] builds its result: every
    array and object of the tree in a new cell. *)
Fixpoint store (t : value) (h : heap) : heap * ref :=
  match t with
  | VUndef => (h, RUndef)
  | VNull => (h, RNull)
  | VBool b => (h, RBool b)
  | VNum n => (h, RNum n)
  | VStr s => (h, RStr s)
  | VArr items => let '(h1, rs) := storeList store items h in alloc (CArr rs) h1
  | VObj props => let '(h1, rs) := storeProps store props h in alloc (CObj rs) h1
  end.

(** [cleanObject] on the store.  A primitive is returned as it is.  For a
    reference to an array or object, [JSON.stringify] with the replacer
    reads the tree ([fuel] bounds the depth of that walk), [JSON.parse]
    builds the redacted tree in new cells, and the result is either the
    reference to that new tree or the truncated text. *)
Definition cleanObject (fuel : nat) (h : heap) (obj : ref) (redactKeys : list string)
    (maxSize : Z) : result (heap * ref) :=
  if negb (truthy obj) || negb (typeof_object obj) then Ok (h, obj)
  else
    match load fuel h obj with
    | None => Throw TypeError
    | Some tree =>
        let '(h', cleaned) := store (redactProperty redactKeys EmptyString tree) h in
        let! out := cleanTree tree redactKeys maxSize in
        Ok (h', match out with
                | VArr _ | VObj _ => cleaned
                | VUndef => RUndef
                | VNull => RNull
                | VBool b => RBool b
                | VNum n => RNum n
                | VStr s => RStr s
                end)
    end.

End Store.

(** The depth of a tree: the fuel its walk needs. *)
Fixpoint depth (t : value) : nat :=
  match t with
  | VArr items => S (list_max (List.map depth items))
  | VObj props => S (list_max (List.map (fun kv => depth kv.2) props))
  | _ => 0
  end.

(** A reference that the store [h] has no cell for. *)
Definition freshRef (h : Store.heap) (r : Store.ref) : Prop :=
  forall l, r = Store.RObj l -> h !! l = None.

(** The cells that [h'] has and [h] has not point to no cell of [h]. *)
Definition newRegionClosed (h h' : Store.heap) : Prop :=
  forall l c, h' !! l = Some c -> h !! l = None ->
    forall l', l' ∈ Store.refsOf c -> h !! l' = None.

(** Reading [r] gives [t], in every larger store and with any fuel the
    depth of [t] allows. *)
Definition holds (h : Store.heap) (r : Store.ref) (t : value) : Prop :=
  forall fuel h'', (depth t <= fuel)%nat -> h ⊆ h'' -> Store.load fuel h'' r = Some t.

(** What building a tree does to the store. *)
Definition built (h : Store.heap) (t : value) (h' : Store.heap) (r : Store.ref) : Prop :=
  h ⊆ h' /\ freshRef h r /\ newRegionClosed h h' /\ holds h' r t
  /\ (size h + depth t <= size h')%nat.

(** ** The parts of a serialization and of a redaction, by name *)

(** The texts of the elements of an array. *)
Definition elementTexts (gap indent : string) (items : list value) : list string :=
  List.map (fun x => default "null" (serialize gap indent x)) items.

(** The texts of the members of an object. *)
Fixpoint memberTexts (gap indent : string) (props : list (string * value)) : list string :=
  match props with
  | [] => []
  | (k, x) :: l' =>
      match serialize gap indent x with
      | Some text => member gap k text :: memberTexts gap indent l'
      | None => memberTexts gap indent l'
      end
  end.

(** An array element after redaction: [undefined] is written as [null]. *)
Definition redactElement (redactKeys : list string) (i : nat) (x : value) : value :=
  match redactProperty redactKeys (indexToString i) x with
  | VUndef => VNull
  | w => w
  end.

Fixpoint redactElements (redactKeys : list string) (i : nat) (l : list value) : list value :=
  match l with
  | [] => []
  | x :: l' => redactElement redactKeys i x :: redactElements redactKeys (S i) l'
  end.

Fixpoint redactMembers (redactKeys : list string) (l : list (string * value))
    : list (string * value) :=
  match l with
  | [] => []
  | (k, x) :: l' =>
      match redactProperty redactKeys k x with
      | VUndef => redactMembers redactKeys l'
      | w => (k, w) :: redactMembers redactKeys l'
      end
  end.

(** ** Paths into a tree *)

Inductive step : Type :=
| Key (k : string)
| Index (i : nat).

(** The key under which the serializer hands a property to the replacer. *)
Definition stepKey (s : step) : string :=
  match s with
  | Key k => k
  | Index i => indexToString i
  end.

Fixpoint lookupPath (v : value) (p : list step) : option value :=
  match p with
  | [] => Some v
  | Key k :: p' =>
      match v with
      | VObj props => x ← assoc k props; lookupPath x p'
      | _ => None
      end
  | Index i :: p' =>
      match v with
      | VArr items => x ← items !! i; lookupPath x p'
      | _ => None
      end
  end.

(** Replace the first binding of [k]. *)
Fixpoint updateAssoc {A : Type} (k : string) (f : A -> A) (l : list (string * A))
    : list (string * A) :=
  match l with
  | [] => []
  | (k', a) :: l' =>
      if String.eqb k k' then (k', f a) :: l' else (k', a) :: updateAssoc k f l'
  end.

(** The tree with the value at path [p] replaced by [w]; unchanged when
    the path leads nowhere. *)
Fixpoint updatePath (p : list step) (w : value) (v : value) : value :=
  match p with
  | [] => w
  | Key k :: p' =>
      match v with
      | VObj props => VObj (updateAssoc k (updatePath p' w) props)
      | _ => v
      end
  | Index i :: p' =>
      match v with
      | VArr items => VArr (alter (updatePath p' w) i items)
      | _ => v
      end
  end.

(** No key on the way to the value is on the deny-list: the root's
    empty key and the keys of the intermediate steps. *)
Definition ancestorsKept (redactKeys : list string) (p : list step) : bool :=
  negb (isRedacted redactKeys EmptyString)
  && forallb (fun s => negb (isRedacted redactKeys (stepKey s))) p.

(** A value that is absent or text. *)
Definition textOrAbsent (v : value) : bool :=
  match v with
  | VUndef | VNull | VStr _ => true
  | _ => false
  end.

(** The lines the stack block draws from: those of the stack, or the
    placeholder when there is no stack. *)
Definition sourceLines (stack : value) : list string :=
  match stack with
  | VStr s => if isEmpty s then ["No stack trace available"] else split s "010"%char
  | _ => ["No stack trace available"]
  end.

(** A stack of [n] frames. *)
Definition framesStack (n : nat) : string :=
  join (List.map (fun i => "    at frame" +:+ indexToString i) (seq 0 n)) LF.

(** An error with a stack of [n] frames. *)
Definition deepError (n : nat) : value :=
  VObj [ ("message", VStr "deep"); ("stack", VStr (framesStack n)) ].

(** The options [{ maxStackLines: n }]. *)
Definition stackCapOptions (n : Z) : Options.t :=
  Options.Make None None None None None (Some n) None None None None None None.

(** [stack] is absent or text, as [Error] declares it. *)
Definition stackIsText (err : value) : bool :=
  textOrAbsent (getPropOpt err "stack").

Definition isUpperHex (c : ascii) : bool :=
  let n := charCode c in
  ((48 <=? n) && (n <=? 57)) || ((65 <=? n) && (n <=? 70)).

Definition chars (s : string) : list ascii := String.list_ascii_of_string s.

(** An environment to run examples in. *)
Definition sampleEnv : Env :=
  MkEnv "2024-01-01T00:00:00.000Z" 1234 "v20.0.0" "linux" "x64" None
        52428800 10000000 20000000 100 123456 7890 12345.

(** ** Errors from plain objects ([createErrorFromObject]) *)

(** [createErrorFromObject(errorObj)].  [captured] is the stack that the
    engine gives to [new Error(...)] at its creation.  The result is the
    [Error] as the properties read off it: [message] is the string of the
    constructor's argument. *)
Definition createErrorFromObject (captured : string) (errorObj : value) : result value :=
  let! message := getProp errorObj "message" in
  let! text := toStr (or_else message (VStr "Unknown error")) in
  let! name := getProp errorObj "name" in
  let! stack := getProp errorObj "stack" in
  let! code := getProp errorObj "code" in
  Ok (VObj [ ("message", VStr text);
             ("name", or_else name (VStr "Error"));
             ("stack", or_else stack (VStr captured));
             ("code", code) ]).

(** ** The middleware and the wrapper ([expressErrorToMd], [asyncErrorToMd]) *)

(** What the middleware does to the world around it: the console, the
    caller's logger, the response object and the continuation. *)
Inductive effect : Type :=
| ConsoleError (text : string)
| LoggerCall (markdown : string) (err req : value)
| ResStatus (code : value)
| ResType (mime : string)
| ResSend (body : string)
| ResJson (body : value)
| NextCall (err : value).

(** The options of the middleware: those of the report, whether [logger]
    is a function, and whether [sendMarkdown] is truthy. *)
Module Middleware.
Record t := Make {
  options : Options.t;
  logger : bool;
  sendMarkdown : bool
}.
End Middleware.

(** A complete configuration passed where options are expected. *)
Definition asOptions (c : Config.t) : Options.t :=
  Options.Make
    (Some (Config.redact c)) (Some (Config.includeEnvironment c))
    (Some (Config.includeTimestamp c)) (Some (Config.includePerformance c))
    (Some (Config.theme c)) (Some (Config.maxStackLines c))
    (Some (Config.maxBodySize c)) (Some (Config.includeUserAgent c))
    (Some (Config.includeMemoryUsage c)) (Some (Config.generateErrorId c))
    (Some (Config.severity c)) (Config.appVersion c).

(** The body of [res.json(...)]: the message and the fingerprint are
    spread in only under [NODE_ENV === 'development']. *)
Definition jsonBody (env : Env) (config : Config.t) (err req : value) : result value :=
  match NODE_ENV env with
  | Some mode =>
      if String.eqb mode "development" then
        let! message := getProp err "message" in
        let! errorId :=
          if Config.generateErrorId config then
            let! id := generateErrorId err req in Ok (VStr id)
          else Ok VUndef in
        Ok (VObj [ ("error", VStr "Internal Server Error");
                   ("message", message);
                   ("errorId", errorId) ])
      else Ok (VObj [("error", VStr "Internal Server Error")])
  | None => Ok (VObj [("error", VStr "Internal Server Error")])
  end.

(** The function that [expressErrorToMd(options)] returns, applied to
    [(err, req, res, next)]; of [res] only [headersSent] is read.  The
    result lists the effects in the order in which they happen; the calls
    out of the handler ([console.error], the logger, the methods of [res])
    are taken to return. *)
Definition expressErrorToMd (mw : Middleware.t) (env : Env) (err req : value)
    (headersSent : bool) : result (list effect) :=
  let config := mergeOptions defaultOptions (Middleware.options mw) in
  let! markdown := errorToMarkdown env err req (asOptions config) in
  let logged :=
    [ConsoleError (LF +:+ markdown +:+ LF)]
    ++ (if Middleware.logger mw then [LoggerCall markdown err req] else []) in
  if headersSent then Ok logged
  else
    let! status := getProp err "status" in
    let! statusCode := getProp err "statusCode" in
    let code := or_else (or_else status statusCode) (VNum 500) in
    if Middleware.sendMarkdown mw then
      Ok (logged ++ [ResStatus code; ResType "text/markdown"; ResSend markdown])
    else
      let! body := jsonBody env config err req in
      Ok (logged ++ [ResStatus code; ResJson body]).

(** How the wrapped handler ended. *)
Inductive outcome : Type :=
| Fulfilled
| Rejected (err : value).

(** The function that [asyncErrorToMd(fn, options)] returns, after [fn]
    ended: the effects of the wrapper itself, or the exception with which
    its own promise is rejected. *)
Definition asyncErrorToMd (options : Options.t) (env : Env) (req : value) (ended : outcome)
    : result (list effect) :=
  match ended with
  | Fulfilled => Ok []
  | Rejected err =>
      let! markdown := errorToMarkdown env err req options in
      Ok [ConsoleError (LF +:+ markdown +:+ LF); NextCall err]
  end.

(** An effect on the response object. *)
Definition onResponse (e : effect) : bool :=
  match e with
  | ResStatus _ | ResType _ | ResSend _ | ResJson _ => true
  | _ => false
  end.


(** A tree that holds [undefined] nowhere: what [JSON.parse] can give. *)
Fixpoint noUndefined (v : value) : bool :=
  match v with
  | VUndef => false
  | VArr items => forallb noUndefined items
  | VObj props => forallb (fun kv => noUndefined kv.2) props
  | _ => true
  end.

(** ** The command line ([src/cli.js])

    What the program reads from outside (its arguments, the files, the
    standard input, the clock and the process) is a [World]; what it writes
    is a list of [output]s and an exit code. *)

Module Cli.

Definition VERSION : string := "1.0.0".

(** The text that [showHelp] prints. *)
Definition helpText : string :=
  join
    [ EmptyString;
      "🐛 error-to-md CLI v" +:+ VERSION;
      "Convert Node.js errors to beautiful Markdown bug reports";
      EmptyString;
      "USAGE:";
      "  error-to-md <input.json> [options]";
      "  error-to-md --demo";
      "  cat error.json | error-to-md";
      EmptyString;
      "OPTIONS:";
      "  -o, --output <file>     Output file (default: stdout)";
      "  -t, --theme <theme>     Theme: github, slack, discord (default: github)";
      "  --no-env               Exclude environment info";
      "  --no-timestamp         Exclude timestamp";
      "  --severity <level>     Set severity: info, warning, error, critical";
      "  --app-version <ver>    Set app version";
      "  --demo                 Generate a demo error report";
      "  -h, --help             Show this help";
      "  -v, --version          Show version";
      EmptyString;
      "EXAMPLES:";
      "  error-to-md error.json";
      "  error-to-md error.json -o bug-report.md -t slack";
      "  error-to-md --demo --severity critical";
      "  echo '{" +:+ DQUOTE +:+ "message" +:+ DQUOTE +:+ ":" +:+ DQUOTE +:+ "Test error"
        +:+ DQUOTE +:+ "," +:+ DQUOTE +:+ "stack" +:+ DQUOTE +:+ ":" +:+ DQUOTE
        +:+ "at test.js:1:1" +:+ DQUOTE +:+ "}' | error-to-md";
      EmptyString;
      "GitHub: https://github.com/imankii01/error-to-md";
      "  " ]
    LF.

(** The [options] object that [parseArgs] builds.  [theme] and [severity]
    are strings, or [undefined] ([None]) after a flag that ends the
    arguments; [appVersion] is a property only after [--app-version]. *)
Record options := MkOptions {
  theme : option string;
  includeEnvironment : bool;
  includeTimestamp : bool;
  severity : option string;
  appVersion : option (option string)
}.

(** What [parseArgs] returns.  [None] is [null] or [undefined]. *)
Record parsed := MkParsed {
  inputFile : option string;
  outputFile : option string;
  opts : options;
  showDemo : bool
}.

Definition initial : parsed :=
  MkParsed None None (MkOptions (Some "github") true true (Some "error") None) false.

Definition setInputFile (v : string) (p : parsed) : parsed :=
  MkParsed (Some v) (outputFile p) (opts p) (showDemo p).

Definition setOutputFile (v : option string) (p : parsed) : parsed :=
  MkParsed (inputFile p) v (opts p) (showDemo p).

Definition setShowDemo (p : parsed) : parsed :=
  MkParsed (inputFile p) (outputFile p) (opts p) true.

Definition setOptions (f : options -> options) (p : parsed) : parsed :=
  MkParsed (inputFile p) (outputFile p) (f (opts p)) (showDemo p).

Definition setTheme (v : option string) (o : options) : options :=
  MkOptions v (includeEnvironment o) (includeTimestamp o) (severity o) (appVersion o).

Definition setSeverity (v : option string) (o : options) : options :=
  MkOptions (theme o) (includeEnvironment o) (includeTimestamp o) v (appVersion o).

Definition setAppVersion (v : option string) (o : options) : options :=
  MkOptions (theme o) (includeEnvironment o) (includeTimestamp o) (severity o) (Some v).

Definition noEnvironment (o : options) : options :=
  MkOptions (theme o) false (includeTimestamp o) (severity o) (appVersion o).

Definition noTimestamp (o : options) : options :=
  MkOptions (theme o) (includeEnvironment o) false (severity o) (appVersion o).

(** How [parseArgs] ends: [process.exit(0)] after printing, or a return. *)
Inductive arguments : Type :=
| Exit0 (printed : string)
| Parsed (p : parsed).

(** The loop of [parseArgs] from index [i] on: [args] is what is left of
    the arguments.  A flag with a value reads [args[++i]], which is
    [undefined] past the end. *)
Fixpoint parseLoop (args : list string) (st : parsed) : arguments :=
  match args with
  | [] => Parsed st
  | arg :: rest =>
      if String.eqb arg "-h" || String.eqb arg "--help" then Exit0 helpText
      else if String.eqb arg "-v" || String.eqb arg "--version" then Exit0 ("v" +:+ VERSION)
      else if String.eqb arg "--demo" then parseLoop rest (setShowDemo st)
      else if String.eqb arg "-o" || String.eqb arg "--output" then
        match rest with
        | v :: rest' => parseLoop rest' (setOutputFile (Some v) st)
        | [] => Parsed (setOutputFile None st)
        end
      else if String.eqb arg "-t" || String.eqb arg "--theme" then
        match rest with
        | v :: rest' => parseLoop rest' (setOptions (setTheme (Some v)) st)
        | [] => Parsed (setOptions (setTheme None) st)
        end
      else if String.eqb arg "--severity" then
        match rest with
        | v :: rest' => parseLoop rest' (setOptions (setSeverity (Some v)) st)
        | [] => Parsed (setOptions (setSeverity None) st)
        end
      else if String.eqb arg "--app-version" then
        match rest with
        | v :: rest' => parseLoop rest' (setOptions (setAppVersion (Some v)) st)
        | [] => Parsed (setOptions (setAppVersion None) st)
        end
      else if String.eqb arg "--no-env" then parseLoop rest (setOptions noEnvironment st)
      else if String.eqb arg "--no-timestamp" then parseLoop rest (setOptions noTimestamp st)
      else if String.prefix "-" arg then parseLoop rest st
      else parseLoop rest (setInputFile arg st)
  end.

(** [parseArgs()], with [process.argv] as its argument. *)
Definition parseArgs (argv : list string) : arguments :=
  parseLoop (drop 2 argv) initial.

(** [undefined] used as a property name is the name [undefined]:
    [themes[undefined]] and [severityMap[undefined]] look that name up. *)
Definition keyOf (v : option string) : string := default "undefined" v.

(** The options of the command line as [errorToMarkdown] reads them;
    [appVersionBefore] is the [appVersion] that the options are spread
    over, if any. *)
Definition toOptions (o : options) (appVersionBefore : option string) : Options.t :=
  Options.Make None (Some (includeEnvironment o)) (Some (includeTimestamp o)) None
               (Some (keyOf (theme o))) None None None None None
               (Some (keyOf (severity o)))
               (match appVersion o with
                | Some v => v
                | None => appVersionBefore
                end).

Definition demoError : value :=
  VObj [ ("message", VStr "Database connection timeout");
         ("name", VStr "ConnectionTimeoutError");
         ("code", VStr "ETIMEDOUT");
         ("stack",
          VStr (join [ "ConnectionTimeoutError: Database connection timeout";
                       "    at Database.connect (/app/src/database.js:42:15)";
                       "    at UserService.getUser (/app/src/services/user.js:28:18)";
                       "    at UserController.profile (/app/src/controllers/user.js:15:12)";
                       "    at /app/src/routes/api.js:23:5";
                       "    at processTicksAndRejections (node:internal/process/task_queues:96:5)" ]
                     LF)) ].

Definition demoRequest : value :=
  VObj [ ("method", VStr "GET");
         ("originalUrl", VStr "/api/user/profile");
         ("url", VStr "/api/user/profile");
         ("ip", VStr "192.168.1.100");
         ("headers",
          VObj [ ("user-agent", VStr "Mozilla/5.0 (Mac OS X) Chrome/91.0.4472.124");
                 ("accept", VStr "application/json");
                 ("authorization", VStr "Bearer jwt-token-here");
                 ("x-forwarded-for", VStr "203.0.113.195") ]);
         ("query", VObj [("include", VStr "preferences")]);
         ("params", VObj [("userId", VStr "12345")]) ].

(** [generateDemo(options)]: the options are spread over
    [{ appVersion: '2.1.3', severity: 'error' }]; those of [parseArgs]
    always hold a [severity]. *)
Definition generateDemo (env : Env) (o : options) : result string :=
  errorToMarkdown env demoError demoRequest (toOptions o (Some "2.1.3")).

(** An exception caught by [main]. *)
Inductive exn : Type :=
| Fs (code : string)       (* thrown by [fs], with its [code] *)
| Syntax                   (* the [SyntaxError] of [JSON.parse] *)
| Engine (what : string).  (* thrown by the engine of [src/index.js] *)

(** [readFileSync(resolve(path), 'utf8')] followed by [JSON.parse]. *)
Inductive source : Type :=
| Unreadable (code : string)
| Garbled
| Json (doc : value).

Record World := MkWorld {
  argv : list string;                (* process.argv *)
  files : string -> source;          (* the files, by the path given *)
  isTTY : bool;                      (* process.stdin.isTTY *)
  stdin : option value;              (* JSON.parse of the trimmed input; None: SyntaxError *)
  writes : string -> option string;  (* writeFileSync: the code of the error it throws *)
  env : Env;
  captured : string                  (* the stack of an Error created here *)
}.

Inductive output : Type :=
| Log (text : string)            (* console.log *)
| WriteFile (path data : string) (* writeFileSync, when it returns *)
| Saved (path : string)          (* console.error: Markdown report saved to *)
| Failed (e : exn)               (* console.error: Error: and the message *)
| TipMissing                     (* console.error: the tip on the input file *)
| TipJson                        (* console.error: the tip on valid JSON *)
| NoInput                        (* console.error: No input provided *)
| StdinFailed (e : exn).         (* console.error: Error parsing JSON from stdin *)

Inductive attempt (A : Type) : Type :=
| Done (a : A)
| Caught (e : exn).
Arguments Done {A} a.
Arguments Caught {A} e.

Definition lift {A : Type} (r : result A) : attempt A :=
  match r with
  | Ok a => Done a
  | Throw what => Caught (Engine what)
  end.

Definition andThen {A B : Type} (r : attempt A) (k : A -> attempt B) : attempt B :=
  match r with
  | Done a => k a
  | Caught e => Caught e
  end.

(** From the parsed document to the report. *)
Definition convert (w : World) (o : options) (errorObj : value) : result string :=
  let! error := createErrorFromObject (captured w) errorObj in
  let! request := getProp errorObj "request" in
  errorToMarkdown (env w) error (or_else request VNull) (toOptions o None).

(** A string that is truthy: [if (inputFile)], [if (outputFile)]. *)
Definition given (v : option string) : option string :=
  match v with
  | Some s => if isEmpty s then None else Some s
  | None => None
  end.

(** [if (outputFile) { writeFileSync; console.error } else console.log] *)
Definition emit (w : World) (outputFile : option string) (markdown : string)
    : attempt (list output) :=
  match given outputFile with
  | Some path =>
      match writes w path with
      | None => Done [WriteFile path markdown; Saved path]
      | Some code => Caught (Fs code)
      end
  | None => Done [Log markdown]
  end.

(** The tips of the [catch] block of [main]. *)
Definition tips (e : exn) : list output :=
  match e with
  | Fs code => if String.eqb code "ENOENT" then [TipMissing] else []
  | Syntax => [TipJson]
  | Engine _ => []
  end.

(** The [try] block of [main] with its [catch], for the demo and for an
    input file. *)
Definition finish (w : World) (p : parsed) (markdown : attempt string) : list output * Z :=
  match andThen markdown (emit w (outputFile p)) with
  | Done written => (written, 0)
  | Caught e => (Failed e :: tips e, 1)
  end.

(** The handler of the end of the standard input. *)
Definition onEnd (w : World) (p : parsed) : list output * Z :=
  match andThen (match stdin w with
                 | Some doc => lift (convert w (opts p) doc)
                 | None => Caught Syntax
                 end) (emit w (outputFile p)) with
  | Done written => (written, 0)
  | Caught e => ([StdinFailed e], 1)
  end.

(** [main()], up to the end of the process: what was written, and the
    exit code.  The standard input is taken to end. *)
Definition main (w : World) : list output * Z :=
  match parseArgs (argv w) with
  | Exit0 printed => ([Log printed], 0)
  | Parsed p =>
      if showDemo p then finish w p (lift (generateDemo (env w) (opts p)))
      else
        match given (inputFile p) with
        | Some path =>
            finish w p (match files w path with
                        | Unreadable code => Caught (Fs code)
                        | Garbled => Caught Syntax
                        | Json doc => lift (convert w (opts p) doc)
                        end)
        | None => if isTTY w then ([NoInput], 1) else onEnd w p
        end
  end.

(** An output that delivers a text: to the standard output or to a file. *)
Definition delivers (o : output) : bool :=
  match o with
  | Log _ | WriteFile _ _ => true
  | _ => false
  end.

End Cli.

(** ** Samples and auxiliary predicates of the statements *)

(** Induction on trees: the elements of an array and the values of an
    object are smaller trees. *)
Definition value_ind (P : value -> Prop)
    (HUndef : P VUndef) (HNull : P VNull)
    (HBool : forall b, P (VBool b)) (HNum : forall n, P (VNum n))
    (HStr : forall s, P (VStr s))
    (HArr : forall items, Forall P items -> P (VArr items))
    (HObj : forall props, Forall (fun kv => P kv.2) props -> P (VObj props))
    : forall v, P v :=
  fix go (v : value) : P v :=
    match v with
    | VUndef => HUndef
    | VNull => HNull
    | VBool b => HBool b
    | VNum n => HNum n
    | VStr s => HStr s
    | VArr items =>
        HArr items
          ((fix all (l : list value) : Forall P l :=
              match l with
              | [] => @List.Forall_nil _ P
              | x :: l' => @List.Forall_cons _ P x l' (go x) (all l')
              end) items)
    | VObj props =>
        HObj props
          ((fix all (l : list (string * value)) : Forall (fun kv => P kv.2) l :=
              match l with
              | [] => @List.Forall_nil _ _
              | kv :: l' => @List.Forall_cons _ (fun kv => P kv.2) kv l' (go kv.2) (all l')
              end) props)
    end.

(** An array or an object: what passes the guard of [cleanObject]. *)
Definition isObject (v : value) : bool := truthy v && typeof_object v.

(** An input whose own serialization, compact or indented, is longer than
    the cap, and whose redacted compact serialization is not. *)
Definition truncationSample : value :=
  VObj [("password", VStr "xxxxxxxxxxxxxxxxxxxxxxxxxxxxxx"); ("a", VNum 1)].

(** A key three levels down, under an object, an object and an array. *)
Definition nestedSample : value :=
  VObj [ ("user",
          VObj [ ("name", VStr "John Doe");
                 ("sessions", VArr [ VObj [ ("ApiKey", VStr "k-123") ] ]) ]) ].

(** An error and a request to fingerprint. *)
Definition sampleError : value :=
  VObj [ ("message", VStr "boom"); ("name", VStr "Error");
         ("stack", VStr ("Error: boom" +:+ LF +:+ "    at x.js:1:1")) ].

Definition sampleRequest : value :=
  VObj [ ("method", VStr "GET"); ("url", VStr "/api") ].

(** A value that a template literal can hold: no object with a
    [toString] member of its own, also among the elements of an array. *)
Fixpoint printable (v : value) : bool :=
  match v with
  | VArr items => forallb printable items
  | VObj props =>
      match assoc "toString" props with
      | Some _ => false
      | None => true
      end
  | _ => true
  end.

(** The strings of the elements of an array, as [toStr] joins them. *)
Definition elementStrings (items : list value) : result (list string) :=
  (fix each (l : list value) : result (list string) :=
     match l with
     | [] => Ok []
     | x :: l' =>
         let! text := if nullish x then Ok EmptyString else toStr x in
         let! rest := each l' in
         Ok (text :: rest)
     end) items.

(** The string of a printable value. *)
Definition textOf (v : value) : string :=
  match toStr v with
  | Ok text => text
  | Throw _ => EmptyString
  end.

(** The fields of an error that the report writes into templates. *)
Definition errorPrintable (err : value) : bool :=
  printable (getPropOpt err "message")
  && printable (getPropOpt err "name")
  && printable (getPropOpt err "code").

(** The fields of a request that the report writes into templates: the
    method, the URL and the address that are shown, and the user agent
    when it is shown. *)
Definition requestPrintable (config : Config.t) (req : value) : bool :=
  negb (truthy req)
  || (printable (getPropOpt req "method")
      && printable (or_else (getPropOpt req "originalUrl") (getPropOpt req "url"))
      && printable (or_else (or_else (getPropOpt req "ip")
                               (getPropOpt (getPropOpt req "connection") "remoteAddress"))
                            (VStr "unknown"))
      && (negb (Config.includeUserAgent config)
          || printable (getPropOpt (getPropOpt req "headers") "user-agent"))).

(** Text made of ASCII characters only. *)
Definition isAscii (s : string) : bool :=
  forallb (fun c => charCode c <? 128) (String.list_ascii_of_string s).

(** [v && Object.keys(v).length > 0] *)
Definition nonEmpty (v : value) : bool := truthy v && (keysLength v >? 0).

(** A request whose query is longer than a configured cap of 10. *)
Definition longQueryRequest : value :=
  VObj [ ("method", VStr "GET"); ("url", VStr "/search");
         ("query", VObj [("q", VStr "aaaaaaaaaaaaaaaaaaaaaaaa")]);
         ("params", VObj [("password", VStr "hunter2")]) ].

(** The defaults with [maxBodySize: 10]. *)
Definition smallCapConfig : Config.t :=
  mergeOptions defaultOptions
    (Options.Make None None None None None None (Some 10) None None None None None).

(** The options [{ maxBodySize: 10 }], which [smallCapConfig] merges. *)
Definition smallCapOptions : Options.t :=
  Options.Make None None None None None None (Some 10) None None None None None.

(** The options [{ redact: ['agent'] }]. *)
Definition agentOptions : Options.t :=
  Options.Make (Some ["agent"]) None None None None None None None None None None None.

(** A request whose body is a string. *)
Definition textBodyRequest : value :=
  VObj [ ("method", VStr "POST"); ("url", VStr "/login");
         ("body", VStr "user=alice&password=hunter2") ].

(** A store of three cells: an object, its array, and an object of the
    array. *)
Definition sampleStore : gmap positive Store.cell :=
  <[1%positive := Store.CObj [ ("name", Store.RStr "John");
                               ("password", Store.RStr "s3");
                               ("tags", Store.RObj 2%positive) ]]>
    (<[2%positive := Store.CArr [Store.RNum 1; Store.RObj 5%positive]]>
       (<[5%positive := Store.CObj [("token", Store.RStr "t")]]> ∅)).

(** The values of [src/test.js]. *)
Definition testBasicError : value :=
  VObj [ ("message", VStr "Test error message"); ("name", VStr "Error");
         ("stack", VStr ("Error: Test error message" +:+ LF
                         +:+ "    at file:///test.js:39:20")) ].

Definition testMockRequest : value :=
  VObj [ ("method", VStr "POST"); ("originalUrl", VStr "/api/users");
         ("url", VStr "/api/users"); ("ip", VStr "127.0.0.1");
         ("body", VObj [("name", VStr "John Doe"); ("password", VStr "secret123")]);
         ("query", VObj [("include", VStr "profile")]);
         ("params", VObj [("id", VStr "12345")]);
         ("headers", VObj [ ("content-type", VStr "application/json");
                            ("authorization", VStr "Bearer token123");
                            ("user-agent", VStr "Mozilla/5.0") ]) ].

Fixpoint repeatChar (c : ascii) (n : nat) : string :=
  match n with
  | O => EmptyString
  | S n' => String c (repeatChar c n')
  end.

Definition testLargeRequest : value :=
  VObj [ ("method", VStr "POST"); ("url", VStr "/api/users");
         ("body", VObj [("data", VStr (repeatChar "x" 2000))]) ].

Definition themeOnly (name : string) : Options.t :=
  Options.Make None None None None (Some name) None None None None None None None.

Definition testThemeOptions (name : string) : Options.t :=
  Options.Make None None None None (Some name) None None None None None
               (Some "critical") None.

(** What the loop of [parseArgs] guarantees from a state [st] on. *)
Definition parseLoop_post (args : list string) (st : Cli.parsed) (r : Cli.arguments) : Prop :=
  match r with
  | Cli.Exit0 printed =>
      (printed = Cli.helpText /\ (In "-h" args \/ In "--help" args))
      \/ (printed = "v1.0.0" /\ (In "-v" args \/ In "--version" args))
  | Cli.Parsed p =>
      (Cli.showDemo p = true -> Cli.showDemo st = true \/ In "--demo" args)
      /\ (Cli.includeEnvironment (Cli.opts p) = false ->
          Cli.includeEnvironment (Cli.opts st) = false \/ In "--no-env" args)
      /\ (Cli.includeTimestamp (Cli.opts p) = false ->
          Cli.includeTimestamp (Cli.opts st) = false \/ In "--no-timestamp" args)
      /\ (forall f, Cli.inputFile p = Some f ->
          Cli.inputFile st = Some f \/ (In f args /\ String.prefix "-" f = false))
  end.

(** * Properties *)

(** ** Strings *)

Lemma app_cons (c : ascii) (a b : string) : String c a +:+ b = String c (a +:+ b).
Proof. reflexivity. Qed.

Lemma app_empty_l (b : string) : EmptyString +:+ b = b.
Proof. reflexivity. Qed.

Lemma length_append (a b : string) :
  String.length (a +:+ b) = (String.length a + String.length b)%nat.
Proof.
  induction a as [|c a IH]; [reflexivity|].
  rewrite app_cons. simpl. now rewrite IH.
Qed.

Lemma strlen_app (a b : string) : strlen (a +:+ b) = strlen a + strlen b.
Proof. unfold strlen. rewrite length_append. lia. Qed.

Lemma strlen_nonneg (s : string) : 0 <= strlen s.
Proof. unfold strlen. lia. Qed.

Lemma app_assoc_s (a b c : string) : (a +:+ b) +:+ c = a +:+ (b +:+ c).
Proof.
  induction a as [|x a IH]; [reflexivity|].
  rewrite !app_cons. now rewrite IH.
Qed.

Lemma app_empty_r (a : string) : a +:+ EmptyString = a.
Proof.
  induction a as [|x a IH]; [reflexivity|].
  rewrite app_cons. now rewrite IH.
Qed.

Lemma length_substring0 (n : nat) (s : string) :
  String.length (String.substring 0 n s) = Nat.min n (String.length s).
Proof.
  revert s. induction n as [|n IH]; intros [|c s]; simpl; try reflexivity.
  now rewrite IH.
Qed.

Lemma strlen_substring0 (s : string) (n : Z) :
  strlen (substring0 s n) = Z.min (Z.max n 0) (strlen s).
Proof.
  unfold substring0, strlen. rewrite length_substring0. lia.
Qed.

Lemma isEmpty_true (s : string) : isEmpty s = true <-> s = EmptyString.
Proof. unfold isEmpty. apply String.eqb_eq. Qed.

Lemma prefix_empty (s : string) : String.prefix EmptyString s = true.
Proof. destruct s; reflexivity. Qed.

Lemma includes_empty (s : string) : includes s EmptyString = true.
Proof. destruct s; simpl; reflexivity. Qed.

Lemma includes_in_empty (sub : string) :
  includes EmptyString sub = true <-> sub = EmptyString.
Proof.
  destruct sub; simpl; split; intros H; try reflexivity; discriminate H.
Qed.

Lemma toLowerCase_empty (s : string) :
  toLowerCase s = EmptyString <-> s = EmptyString.
Proof. destruct s; simpl; split; intros H; try reflexivity; discriminate H. Qed.

(** The root key is on the deny-list exactly when the list holds the
    empty string. *)
Lemma isRedacted_root (redactKeys : list string) :
  isRedacted redactKeys EmptyString = true <-> In EmptyString redactKeys.
Proof.
  unfold isRedacted. rewrite existsb_exists. split.
  - intros (e & Hin & Hinc). simpl in Hinc.
    apply includes_in_empty in Hinc. apply (proj1 (toLowerCase_empty e)) in Hinc.
    now subst.
  - intros Hin. exists EmptyString. split; [exact Hin | reflexivity].
Qed.

(** ** Theme and severity lookup *)

Lemma tableGetOr_own {A : Type} (table : list (string * A)) (name : string) (a fallback : A) :
  assoc name table = Some a -> tableGetOr table name fallback = Own a.
Proof. intros H. unfold tableGetOr, tableGet. now rewrite H. Qed.

Lemma tableGetOr_fallback {A : Type} (table : list (string * A)) (name : string) (fallback : A) :
  assoc name table = None -> inb name Object_prototype = false ->
  tableGetOr table name fallback = Own fallback.
Proof. intros H1 H2. unfold tableGetOr, tableGet. now rewrite H1, H2. Qed.

Lemma tableGetOr_inherited {A : Type} (table : list (string * A)) (name : string) (fallback : A) :
  assoc name table = None -> inb name Object_prototype = true ->
  tableGetOr table name fallback = Inherited name.
Proof. intros H1 H2. unfold tableGetOr, tableGet. now rewrite H1, H2. Qed.

(** A theme name that is an own key of [themes] selects that theme; a
    name that is neither a theme nor a member of [Object.prototype]
    selects [github]. *)
Lemma resolveTheme_cases (name : string) :
  (forall t, assoc name themes = Some t -> resolveTheme name = Own t)
  /\ (assoc name themes = None -> inb name Object_prototype = false ->
      resolveTheme name = Own github).
Proof.
  split.
  - intros t. apply tableGetOr_own.
  - apply tableGetOr_fallback.
Qed.

(** C8, at the name [constructor]: the lookup finds the member that
    [themes] inherits from [Object.prototype], the [|| themes.github]
    fallback is not taken, and every token of the resolved theme is
    [undefined]; an unknown name that is no such member falls back to
    [github]. *)
Theorem resolveTheme_inherited_member :
  resolveTheme "constructor" = Inherited "constructor"
  /\ token title (resolveTheme "constructor") = None
  /\ token separator (resolveTheme "constructor") = None
  /\ (exists md report,
        reportLines sampleEnv testBasicError VNull (themeOnly "constructor") = Ok md
        /\ md !! 0%nat = Some None
        /\ errorToMarkdown sampleEnv testBasicError VNull (themeOnly "constructor")
           = Ok report
        /\ includes report "Bug Report" = false
        /\ includes report "undefined **Stack Trace:**" = true)
  /\ resolveTheme "no-such-theme" = Own github
  /\ resolveTheme "slack" = Own slack.
Proof.
  split; [reflexivity|]. split; [reflexivity|]. split; [reflexivity|].
  split; [|split; reflexivity].
  eexists _, _. repeat split; vm_compute; reflexivity.
Qed.

Lemma formatSeverity_labels :
  formatSeverity "info" = Own "💡 INFO"
  /\ formatSeverity "warning" = Own "⚠️ WARNING"
  /\ formatSeverity "error" = Own "❌ ERROR"
  /\ formatSeverity "critical" = Own "🚨 CRITICAL".
Proof. repeat split; reflexivity. Qed.

Lemma formatSeverity_fallback (severity : string) :
  assoc severity severityMap = None -> inb severity Object_prototype = false ->
  formatSeverity severity = Own "❌ ERROR".
Proof. apply tableGetOr_fallback. Qed.

(** C9, at the severity [constructor]: [severityMap] inherits a member
    of that name, so the [|| severityMap.error] fallback is not taken and
    the severity line shows the text of a native function instead of the
    label of [error]. *)
Theorem formatSeverity_inherited_member :
  formatSeverity "constructor" = Inherited "constructor"
  /\ severityLines (mergeOptions defaultOptions
        (Options.Make None None None None None None None None None None
                      (Some "constructor") None))
     = [ Some "**Severity:** function Object() { [native code] }"; Some EmptyString ]
  /\ formatSeverity "fatal" = Own "❌ ERROR".
Proof. repeat split; reflexivity. Qed.

(** ** The stack block *)

Lemma slice0_nonneg {A : Type} (l : list A) (n : Z) :
  0 <= n -> slice0 l n = take (Z.to_nat n) l.
Proof.
  intros H. unfold slice0. destruct (Z.ltb_spec n 0); [lia | reflexivity].
Qed.

Lemma or_else_truthy (v w : value) : truthy v = true -> or_else v w = v.
Proof. intros H. unfold or_else. now rewrite H. Qed.

Lemma or_else_falsy (v w : value) : truthy v = false -> or_else v w = w.
Proof. intros H. unfold or_else. now rewrite H. Qed.

Lemma Ok_inj {A : Type} (a b : A) : Ok a = Ok b -> a = b.
Proof. now intros [= ->]. Qed.

Lemma stackBlock_eq (stack : value) (cap : Z) :
  textOrAbsent stack = true ->
  stackBlock stack cap =
    Ok ([Some FENCE; Some (join (slice0 (sourceLines stack) cap) LF)]
        ++ when (truthy stack && (Z.of_nat (length (sourceLines stack)) >? cap))
             [Some TRUNCATED]
        ++ [Some FENCE]).
Proof.
  intros Htext. destruct stack as [| | b | n | s | items | props]; try discriminate Htext.
  - reflexivity.
  - reflexivity.
  - unfold stackBlock, sourceLines, or_else, isEmpty. simpl truthy.
    destruct (String.eqb s EmptyString); reflexivity.
Qed.

(** ** Serialization *)

Lemma serialize_None (gap stepback : string) (v : value) :
  serialize gap stepback v = None <-> v = VUndef.
Proof.
  destruct v as [| | [] | n | s | items | props]; simpl; split; intros H;
    try reflexivity; discriminate H.
Qed.

Lemma serialize_Some (gap stepback : string) (v : value) :
  v <> VUndef -> exists text, serialize gap stepback v = Some text.
Proof.
  intros Hv. destruct (serialize gap stepback v) as [text|] eqn:E.
  - now exists text.
  - apply serialize_None in E. contradiction.
Qed.

(** What the redaction of an array or object is. *)
Lemma redactProperty_not_undefined (redactKeys : list string) (key : string) (v : value) :
  v <> VUndef -> redactProperty redactKeys key v <> VUndef.
Proof.
  intros Hv. destruct v; simpl; destruct (isRedacted redactKeys key);
    try discriminate; try exact Hv.
Qed.

Lemma redactProperty_redacted (redactKeys : list string) (key : string) (v : value) :
  isRedacted redactKeys key = true -> redactProperty redactKeys key v = VStr REDACTED.
Proof. intros H. destruct v; simpl; now rewrite H. Qed.

Lemma isObject_inv (v : value) :
  isObject v = true -> (exists items, v = VArr items) \/ (exists props, v = VObj props).
Proof.
  unfold isObject. destruct v; simpl; rewrite ?andb_false_r; try discriminate;
    intros _; [left | right]; eauto.
Qed.

Lemma isObject_guard (v : value) :
  isObject v = true -> negb (truthy v) || negb (typeof_object v) = false.
Proof.
  unfold isObject. destruct (truthy v), (typeof_object v); simpl; congruence.
Qed.

(** [cleanObject] past its guard, in terms of the two serializations of
    the redacted tree. *)
Lemma cleanObject_object (obj : value) (redactKeys : list string) (maxSize : Z)
    (pretty compact : string) :
  isObject obj = true ->
  JSON_stringify_pretty (redactProperty redactKeys EmptyString obj) = Some pretty ->
  JSON_stringify (redactProperty redactKeys EmptyString obj) = Some compact ->
  cleanObject obj redactKeys maxSize =
    if strlen pretty >? maxSize
    then Ok (VStr (substring0 compact maxSize +:+ TRUNCATED))
    else Ok (redactProperty redactKeys EmptyString obj).
Proof.
  intros Hobj Hp Hc. unfold cleanObject.
  rewrite (isObject_guard _ Hobj), Hp, Hc. reflexivity.
Qed.

(** C10, amended: with the empty string on the deny-list the replacer
    redacts the root of every object, and [cleanObject] returns the
    literal [[REDACTED]] when [maxSize] is at least 12, the length of the
    quoted literal; below 12 it returns the first [maxSize] characters of
    the quoted literal followed by the truncation marker. *)
Theorem cleanObject_empty_entry (obj : value) (redactKeys : list string) (maxSize : Z) :
  isObject obj = true ->
  In EmptyString redactKeys ->
  (12 <= maxSize -> cleanObject obj redactKeys maxSize = Ok (VStr REDACTED))
  /\ (maxSize < 12 ->
      cleanObject obj redactKeys maxSize
        = Ok (VStr (substring0 (quoteJSONString REDACTED) maxSize +:+ TRUNCATED))).
Proof.
  intros Hobj Hin.
  assert (Hroot : redactProperty redactKeys EmptyString obj = VStr REDACTED)
    by (apply redactProperty_redacted, isRedacted_root, Hin).
  assert (Heq := cleanObject_object obj redactKeys maxSize
                   (quoteJSONString REDACTED) (quoteJSONString REDACTED) Hobj).
  rewrite Hroot in Heq. specialize (Heq eq_refl eq_refl).
  change (strlen (quoteJSONString REDACTED)) with 12 in Heq.
  split; intros Hsize; rewrite Heq.
  - destruct (Z.gtb_spec 12 maxSize); [lia | reflexivity].
  - destruct (Z.gtb_spec 12 maxSize); [reflexivity | lia].
Qed.

Lemma cleanObject_empty_entry_witness :
  cleanObject (VObj [("a", VNum 1)]) [EmptyString] 1000 = Ok (VStr REDACTED).
Proof.
  apply (cleanObject_empty_entry (VObj [("a", VNum 1)]) [EmptyString] 1000).
  - reflexivity.
  - simpl. now left.
  - lia.
Defined.

(** C10 as stated fails under a small cap: with [maxSize = 5] the result
    is the cut quoted literal and the truncation marker, not
    [[REDACTED]]. *)
Lemma cleanObject_empty_entry_counterexample :
  cleanObject (VObj [("a", VNum 1)]) [EmptyString] 5
    = Ok (VStr (DQUOTE +:+ "[RED... [TRUNCATED]"))
  /\ String.eqb (DQUOTE +:+ "[RED... [TRUNCATED]") REDACTED = false.
Proof. split; reflexivity. Qed.

(** The equations of [serialize] and [redactProperty] on arrays and
    objects. *)
Lemma serialize_arr (gap stepback : string) (items : list value) :
  serialize gap stepback (VArr items)
    = Some (wrapParts "[" "]" gap stepback (elementTexts gap (stepback +:+ gap) items)).
Proof. reflexivity. Qed.

Lemma serialize_obj (gap stepback : string) (props : list (string * value)) :
  serialize gap stepback (VObj props)
    = Some (wrapParts "{" "}" gap stepback (memberTexts gap (stepback +:+ gap) props)).
Proof.
  simpl. do 2 f_equal.
  induction props as [|[k x] l IH]; simpl; [reflexivity|].
  destruct (serialize gap (stepback +:+ gap) x); now rewrite IH.
Qed.

Lemma redactProperty_arr (redactKeys : list string) (key : string) (items : list value) :
  isRedacted redactKeys key = false ->
  redactProperty redactKeys key (VArr items) = VArr (redactElements redactKeys 0 items).
Proof.
  intros H. simpl. rewrite H. f_equal.
  generalize 0%nat. induction items as [|x l IH]; intros i; simpl; [reflexivity|].
  now rewrite IH.
Qed.

Lemma redactProperty_obj (redactKeys : list string) (key : string)
    (props : list (string * value)) :
  isRedacted redactKeys key = false ->
  redactProperty redactKeys key (VObj props) = VObj (redactMembers redactKeys props).
Proof.
  intros H. simpl. rewrite H. f_equal.
  induction props as [|[k x] l IH]; simpl; [reflexivity|].
  now rewrite IH.
Qed.

Lemma redactProperty_leaf (redactKeys : list string) (key : string) (v : value) :
  isRedacted redactKeys key = false ->
  match v with VArr _ | VObj _ => False | _ => True end ->
  redactProperty redactKeys key v = v.
Proof. intros H Hleaf. destruct v; simpl; rewrite H; try reflexivity; contradiction. Qed.

(** [redactProperty] hands the property to [replacer] and descends into
    what [replacer] returned. *)
Lemma redactProperty_replacer (redactKeys : list string) (key : string) (v : value) :
  redactProperty redactKeys key v =
    match replacer redactKeys key v with
    | VArr items => VArr (redactElements redactKeys 0 items)
    | VObj props => VObj (redactMembers redactKeys props)
    | w => w
    end.
Proof.
  unfold replacer. destruct (isRedacted redactKeys key) eqn:H.
  - now apply redactProperty_redacted.
  - destruct v; try (apply redactProperty_leaf; [exact H | exact I]).
    + now apply redactProperty_arr.
    + now apply redactProperty_obj.
Qed.

(** Lengths of joined texts. *)
Lemma join_cons2 (x y : string) (l : list string) (sep : string) :
  join (x :: y :: l) sep = x +:+ sep +:+ join (y :: l) sep.
Proof. reflexivity. Qed.

Lemma join_length_le (l1 l2 : list string) (sep1 sep2 : string) :
  Forall2 (fun a b => strlen a <= strlen b) l1 l2 ->
  strlen sep1 <= strlen sep2 ->
  strlen (join l1 sep1) <= strlen (join l2 sep2).
Proof.
  intros HF Hsep. induction HF as [|a b l1 l2 Hab HF IH]; [reflexivity|].
  destruct HF as [|a' b' l1' l2' Hab' HF'].
  - exact Hab.
  - rewrite !join_cons2, !strlen_app. lia.
Qed.

Lemma wrapParts_length_le (opening closing gap stepback : string) (l1 l2 : list string) :
  Forall2 (fun a b => strlen a <= strlen b) l1 l2 ->
  strlen (wrapParts opening closing EmptyString EmptyString l1)
    <= strlen (wrapParts opening closing gap stepback l2).
Proof.
  intros HF. destruct HF as [|a b l1 l2 Hab HF]; [reflexivity|].
  assert (HF' : Forall2 (fun a b => strlen a <= strlen b) (a :: l1) (b :: l2))
    by now constructor.
  unfold wrapParts. change (isEmpty EmptyString) with true. cbv iota.
  destruct (isEmpty gap).
  - rewrite !strlen_app.
    pose proof (join_length_le _ _ "," "," HF' ltac:(reflexivity)). lia.
  - rewrite !strlen_app.
    pose proof (join_length_le _ _ "," ("," +:+ LF +:+ stepback +:+ gap) HF') as Hj.
    rewrite !strlen_app in Hj.
    pose proof (strlen_nonneg stepback). pose proof (strlen_nonneg gap).
    pose proof (strlen_nonneg LF).
    change (strlen ",") with 1 in Hj. lia.
Qed.

Lemma member_length_le (gap key a b : string) :
  strlen a <= strlen b ->
  strlen (member EmptyString key a) <= strlen (member gap key b).
Proof.
  intros H. unfold member. change (isEmpty EmptyString) with true. cbv iota.
  rewrite !strlen_app.
  pose proof (strlen_nonneg (if isEmpty gap then EmptyString else " ")).
  change (strlen EmptyString) with 0. lia.
Qed.

(** The compact text of a tree is never longer than an indented one. *)
Lemma serialize_compact_le (v : value) :
  forall gap stepback,
    match serialize EmptyString EmptyString v, serialize gap stepback v with
    | Some c, Some p => strlen c <= strlen p
    | None, None => True
    | _, _ => False
    end.
Proof.
  induction v as [| | [] | n | s | items IH | props IH] using value_ind;
    intros gap stepback; try (simpl; lia); try exact I.
  - rewrite !serialize_arr. apply wrapParts_length_le.
    change (EmptyString +:+ EmptyString) with EmptyString.
    unfold elementTexts. induction IH as [|x l Hx _ IHl]; simpl; constructor.
    + specialize (Hx gap (stepback +:+ gap)).
      destruct (serialize EmptyString EmptyString x), (serialize gap (stepback +:+ gap) x);
        simpl; try contradiction; [exact Hx | lia].
    + exact IHl.
  - rewrite !serialize_obj. apply wrapParts_length_le.
    change (EmptyString +:+ EmptyString) with EmptyString.
    induction IH as [|[k x] l Hx _ IHl]; simpl; [constructor|].
    specialize (Hx gap (stepback +:+ gap)). simpl in Hx.
    destruct (serialize EmptyString EmptyString x), (serialize gap (stepback +:+ gap) x);
      try contradiction; [|exact IHl].
    constructor; [now apply member_length_le | exact IHl].
Qed.

Lemma pretty_at_least_compact (v : value) (pretty compact : string) :
  JSON_stringify_pretty v = Some pretty ->
  JSON_stringify v = Some compact ->
  strlen compact <= strlen pretty.
Proof.
  unfold JSON_stringify_pretty, JSON_stringify. intros Hp Hc.
  pose proof (serialize_compact_le v "  " EmptyString) as H.
  now rewrite Hp, Hc in H.
Qed.

Lemma isObject_not_undefined (v : value) : isObject v = true -> v <> VUndef.
Proof. intros H ->. discriminate H. Qed.

(** [cleanObject] returns on every object. *)
Lemma cleanObject_object_texts (obj : value) (redactKeys : list string) :
  isObject obj = true ->
  exists pretty compact,
    JSON_stringify_pretty (redactProperty redactKeys EmptyString obj) = Some pretty
    /\ JSON_stringify (redactProperty redactKeys EmptyString obj) = Some compact
    /\ strlen compact <= strlen pretty.
Proof.
  intros Hobj.
  assert (Hne : redactProperty redactKeys EmptyString obj <> VUndef)
    by (apply redactProperty_not_undefined, isObject_not_undefined, Hobj).
  destruct (serialize_Some "  " EmptyString _ Hne) as [pretty Hp].
  destruct (serialize_Some EmptyString EmptyString _ Hne) as [compact Hc].
  exists pretty, compact. split; [exact Hp|]. split; [exact Hc|].
  now apply (pretty_at_least_compact _ _ _ Hp Hc).
Qed.

(** C3, amended: when the compact serialization of the redacted tree is
    longer than a cap [maxSize >= 0], [cleanObject] returns the first
    [maxSize] characters of that compact serialization followed by the
    marker [... [TRUNCATED]], a string of length [maxSize] plus the length
    of the marker. *)
Theorem cleanObject_truncation (obj : value) (redactKeys : list string) (maxSize : Z)
    (compact : string) :
  isObject obj = true ->
  JSON_stringify (redactProperty redactKeys EmptyString obj) = Some compact ->
  0 <= maxSize ->
  maxSize < strlen compact ->
  exists out,
    cleanObject obj redactKeys maxSize = Ok (VStr out)
    /\ out = substring0 compact maxSize +:+ TRUNCATED
    /\ strlen (substring0 compact maxSize) = maxSize
    /\ strlen out = maxSize + strlen TRUNCATED.
Proof.
  intros Hobj Hc Hnonneg Hlong.
  destruct (cleanObject_object_texts obj redactKeys Hobj)
    as (pretty & compact' & Hp & Hc' & Hle).
  rewrite Hc in Hc'. injection Hc' as <-.
  exists (substring0 compact maxSize +:+ TRUNCATED).
  rewrite (cleanObject_object obj redactKeys maxSize pretty compact Hobj Hp Hc).
  destruct (Z.gtb_spec (strlen pretty) maxSize) as [_|Hno]; [|lia].
  split; [reflexivity|]. split; [reflexivity|].
  rewrite strlen_app, strlen_substring0. lia.
Qed.

Lemma cleanObject_truncation_witness :
  exists out,
    cleanObject (VObj [("data", VStr "xxxxxxxxxxxxxxxxxxxxxxxx")]) [] 10 = Ok (VStr out)
    /\ out = "{" +:+ DQUOTE +:+ "data" +:+ DQUOTE +:+ ":" +:+ DQUOTE +:+ "x" +:+ TRUNCATED
    /\ strlen out = 25.
Proof.
  destruct (cleanObject_truncation (VObj [("data", VStr "xxxxxxxxxxxxxxxxxxxxxxxx")]) [] 10
              ("{" +:+ DQUOTE +:+ "data" +:+ DQUOTE +:+ ":" +:+ DQUOTE
               +:+ "xxxxxxxxxxxxxxxxxxxxxxxx" +:+ DQUOTE +:+ "}")
              eq_refl eq_refl ltac:(lia) ltac:(vm_compute; reflexivity))
    as (out & Heq & Hout & _ & Hlen).
  exists out. split; [exact Heq|]. split; [exact Hout | exact Hlen].
Defined.

(** C3 as stated fails: the serialization of [truncationSample], compact
    (51) or indented (60), is longer than the cap 35, yet the result is the
    whole compact serialization of the redacted tree (31 characters) with
    the marker, 46 characters and not 35 + 15. *)
Lemma cleanObject_truncation_counterexample :
  exists raw rawPretty out,
    JSON_stringify truncationSample = Some raw
    /\ JSON_stringify_pretty truncationSample = Some rawPretty
    /\ strlen raw = 51 /\ strlen rawPretty = 60
    /\ cleanObject truncationSample (Config.redact defaultOptions) 35 = Ok (VStr out)
    /\ strlen out = 46
    /\ (strlen out =? 35 + strlen TRUNCATED) = false.
Proof.
  eexists _, _, _. repeat split; vm_compute; reflexivity.
Qed.

(** ** Redaction at depth *)

Lemma redactElement_eq (redactKeys : list string) (i : nat) (x : value) :
  x <> VUndef ->
  redactElement redactKeys i x = redactProperty redactKeys (indexToString i) x.
Proof.
  intros Hx. unfold redactElement.
  pose proof (redactProperty_not_undefined redactKeys (indexToString i) x Hx) as Hne.
  destruct (redactProperty redactKeys (indexToString i) x); congruence.
Qed.

Lemma redactElements_lookup (redactKeys : list string) (items : list value) :
  forall (i j : nat) (x : value),
    items !! j = Some x ->
    redactElements redactKeys i items !! j = Some (redactElement redactKeys (i + j) x).
Proof.
  induction items as [|y l IH]; intros i j x Hj; [discriminate Hj|].
  destruct j as [|j]; simpl in *.
  - injection Hj as ->. now rewrite Nat.add_0_r.
  - rewrite (IH (S i) j x Hj). do 2 f_equal. lia.
Qed.

Lemma redactMembers_assoc (redactKeys : list string) (k : string) (x : value)
    (props : list (string * value)) :
  assoc k props = Some x ->
  redactProperty redactKeys k x <> VUndef ->
  assoc k (redactMembers redactKeys props) = Some (redactProperty redactKeys k x).
Proof.
  intros Hk Hne. induction props as [|[k' y] l IH]; [discriminate Hk|].
  simpl in Hk. destruct (String.eqb k k') eqn:E.
  - apply String.eqb_eq in E. subst k'. injection Hk as ->. simpl.
    destruct (redactProperty redactKeys k x) eqn:R; try congruence;
      simpl; now rewrite String.eqb_refl.
  - specialize (IH Hk). simpl.
    destruct (redactProperty redactKeys k' y); simpl; rewrite ?E; exact IH.
Qed.

Lemma lookupPath_from_leaf (v : value) (s : step) (p : list step) (x : value) :
  lookupPath v (s :: p) = Some x -> v <> VUndef.
Proof. intros H ->. destruct s; discriminate H. Qed.

Lemma lookupPath_app_nonempty (p : list step) (s : step) :
  exists s' p', p ++ [s] = s' :: p'.
Proof. destruct p as [|s0 p0]; simpl; eauto. Qed.

(** The value under a deny-listed key is the literal, wherever the key
    sits, as long as the serializer gets there. *)
Lemma redactProperty_at_path (redactKeys : list string) (k : string) (p : list step) :
  isRedacted redactKeys k = true ->
  forall (obj v : value) (key : string),
    isRedacted redactKeys key = false ->
    forallb (fun s => negb (isRedacted redactKeys (stepKey s))) p = true ->
    lookupPath obj (p ++ [Key k]) = Some v ->
    lookupPath (redactProperty redactKeys key obj) (p ++ [Key k]) = Some (VStr REDACTED).
Proof.
  intros Hk. induction p as [|s p IH]; intros obj v key Hkey Hanc Hpath.
  - simpl in Hpath. destruct obj as [| | | | | |props]; try discriminate Hpath.
    destruct (assoc k props) as [x|] eqn:Hx; [|discriminate Hpath].
    rewrite (redactProperty_obj _ _ _ Hkey). simpl.
    rewrite (redactMembers_assoc redactKeys k x props Hx);
      rewrite (redactProperty_redacted _ _ _ Hk); [reflexivity | discriminate].
  - simpl in Hanc. apply andb_true_iff in Hanc as [Hs Hanc].
    apply negb_true_iff in Hs.
    destruct (lookupPath_app_nonempty p (Key k)) as (s' & p' & Hp').
    destruct s as [k1|i]; simpl in Hpath.
    + destruct obj as [| | | | | |props]; try discriminate Hpath.
      destruct (assoc k1 props) as [x|] eqn:Hx; [|discriminate Hpath].
      simpl in Hpath.
      assert (Hxne : x <> VUndef)
        by (rewrite Hp' in Hpath; exact (lookupPath_from_leaf _ _ _ _ Hpath)).
      rewrite (redactProperty_obj _ _ _ Hkey). simpl.
      rewrite (redactMembers_assoc redactKeys k1 x props Hx
                 (redactProperty_not_undefined _ _ _ Hxne)).
      simpl. exact (IH x v k1 Hs Hanc Hpath).
    + destruct obj as [| | | | |items|]; try discriminate Hpath.
      destruct (items !! i) as [x|] eqn:Hx; [|discriminate Hpath].
      simpl in Hpath.
      assert (Hxne : x <> VUndef)
        by (rewrite Hp' in Hpath; exact (lookupPath_from_leaf _ _ _ _ Hpath)).
      rewrite (redactProperty_arr _ _ _ Hkey). simpl.
      rewrite (redactElements_lookup redactKeys items 0 i x Hx). simpl.
      rewrite (redactElement_eq _ _ _ Hxne).
      exact (IH x v (indexToString i) Hs Hanc Hpath).
Qed.

(** Redaction does not look at what a deny-listed key holds. *)
Lemma redactMembers_update (redactKeys : list string) (k : string) (f : value -> value)
    (props : list (string * value)) :
  (forall x, redactProperty redactKeys k (f x) = redactProperty redactKeys k x) ->
  redactMembers redactKeys (updateAssoc k f props) = redactMembers redactKeys props.
Proof.
  intros Hf. induction props as [|[k' y] l IH]; [reflexivity|].
  simpl. destruct (String.eqb k k') eqn:E; simpl.
  - apply String.eqb_eq in E. subst k'. now rewrite Hf.
  - now rewrite IH.
Qed.

Lemma redactElements_alter (redactKeys : list string) (f : value -> value)
    (items : list value) :
  (forall key x, redactProperty redactKeys key (f x) = redactProperty redactKeys key x) ->
  forall i j, redactElements redactKeys j (alter f i items) = redactElements redactKeys j items.
Proof.
  intros Hf. induction items as [|y l IH]; intros i j; [reflexivity|].
  destruct i as [|i].
  - change (alter f 0%nat (y :: l)) with (f y :: l). simpl.
    unfold redactElement. now rewrite Hf.
  - change (alter f (S i) (y :: l)) with (y :: alter f i l). simpl.
    now rewrite IH.
Qed.

Lemma redactProperty_update (redactKeys : list string) (k : string) (w : value)
    (p : list step) :
  isRedacted redactKeys k = true ->
  forall (obj : value) (key : string),
    redactProperty redactKeys key (updatePath (p ++ [Key k]) w obj)
      = redactProperty redactKeys key obj.
Proof.
  intros Hk. induction p as [|s p IH]; intros obj key.
  - destruct (isRedacted redactKeys key) eqn:Hkey;
      [now rewrite !redactProperty_redacted|].
    simpl. destruct obj as [| | | | | |props]; try reflexivity.
    rewrite !(redactProperty_obj _ _ _ Hkey). f_equal.
    apply redactMembers_update. intros x. simpl.
    now rewrite !redactProperty_redacted.
  - destruct (isRedacted redactKeys key) eqn:Hkey;
      [now rewrite !redactProperty_redacted|].
    destruct s as [k1|i]; simpl.
    + destruct obj as [| | | | | |props]; try reflexivity.
      rewrite !(redactProperty_obj _ _ _ Hkey). f_equal.
      apply redactMembers_update. intros x. apply IH.
    + destruct obj as [| | | | |items|]; try reflexivity.
      rewrite !(redactProperty_arr _ _ _ Hkey). f_equal.
      apply redactElements_alter. intros key' x. apply IH.
Qed.

Lemma updatePath_guard (p : list step) (s : step) (w obj : value) :
  negb (truthy obj) || negb (typeof_object obj) = true ->
  updatePath (p ++ [s]) w obj = obj.
Proof.
  intros Hg. destruct (lookupPath_app_nonempty p s) as (s' & p' & ->).
  destruct s', obj; try reflexivity; discriminate Hg.
Qed.

Lemma updatePath_isObject (p : list step) (s : step) (w obj : value) :
  isObject (updatePath (p ++ [s]) w obj) = isObject obj.
Proof.
  destruct (lookupPath_app_nonempty p s) as (s' & p' & ->).
  destruct s', obj; reflexivity.
Qed.

Lemma cleanObject_update (redactKeys : list string) (k : string) (w : value)
    (p : list step) (obj : value) (maxSize : Z) :
  isRedacted redactKeys k = true ->
  cleanObject (updatePath (p ++ [Key k]) w obj) redactKeys maxSize
    = cleanObject obj redactKeys maxSize.
Proof.
  intros Hk. destruct (negb (truthy obj) || negb (typeof_object obj)) eqn:Hg.
  - now rewrite (updatePath_guard _ _ _ _ Hg).
  - assert (Hobj : isObject obj = true)
      by (unfold isObject; destruct (truthy obj), (typeof_object obj); simpl in *; congruence).
    unfold cleanObject.
    rewrite Hg, (isObject_guard _ (eq_trans (updatePath_isObject p (Key k) w obj) Hobj)).
    now rewrite (redactProperty_update redactKeys k w p Hk).
Qed.

Lemma isRedacted_entry (redactKeys : list string) (entry k : string) :
  In entry redactKeys ->
  includes (toLowerCase k) (toLowerCase entry) = true ->
  isRedacted redactKeys k = true.
Proof.
  intros Hin Hinc. unfold isRedacted. apply existsb_exists. now exists entry.
Qed.

(** The two results [cleanObject] can give on an object. *)
Lemma cleanObject_object_result (obj : value) (redactKeys : list string) (maxSize : Z) :
  isObject obj = true ->
  exists out,
    cleanObject obj redactKeys maxSize = Ok out
    /\ (out = redactProperty redactKeys EmptyString obj
        \/ exists compact,
             JSON_stringify (redactProperty redactKeys EmptyString obj) = Some compact
             /\ out = VStr (substring0 compact maxSize +:+ TRUNCATED)).
Proof.
  intros Hobj.
  destruct (cleanObject_object_texts obj redactKeys Hobj) as (pretty & compact & Hp & Hc & _).
  rewrite (cleanObject_object obj redactKeys maxSize pretty compact Hobj Hp Hc).
  destruct (strlen pretty >? maxSize); eexists; (split; [reflexivity|]).
  - right. now exists compact.
  - now left.
Qed.

(** C2: a mapping key [k] whose lowercase form contains the lowercase
    form of a deny-list entry, found in the input at any depth (path
    [p ++ [Key k]]).  The redacted tree holds the literal [[REDACTED]]
    there, provided no key above it is itself redacted (the serializer
    does not descend into a redacted value); [cleanObject] returns that
    tree, or the cut serialization of that tree; and the result does not
    depend on the value the key held: putting any [w] in its place gives
    the same result. *)
Theorem cleanObject_redacts (obj : value) (redactKeys : list string) (maxSize : Z)
    (entry k : string) (p : list step) (v : value) :
  In entry redactKeys ->
  includes (toLowerCase k) (toLowerCase entry) = true ->
  lookupPath obj (p ++ [Key k]) = Some v ->
  (ancestorsKept redactKeys p = true ->
   lookupPath (redactProperty redactKeys EmptyString obj) (p ++ [Key k])
     = Some (VStr REDACTED))
  /\ (exists out,
        cleanObject obj redactKeys maxSize = Ok out
        /\ (out = redactProperty redactKeys EmptyString obj
            \/ exists compact,
                 JSON_stringify (redactProperty redactKeys EmptyString obj) = Some compact
                 /\ out = VStr (substring0 compact maxSize +:+ TRUNCATED)))
  /\ (forall w,
        cleanObject (updatePath (p ++ [Key k]) w obj) redactKeys maxSize
          = cleanObject obj redactKeys maxSize).
Proof.
  intros Hin Hinc Hpath.
  pose proof (isRedacted_entry redactKeys entry k Hin Hinc) as Hk.
  split; [|split].
  - intros Hanc. unfold ancestorsKept in Hanc.
    apply andb_true_iff in Hanc as [Hroot Hanc]. apply negb_true_iff in Hroot.
    exact (redactProperty_at_path redactKeys k p Hk obj v EmptyString Hroot Hanc Hpath).
  - apply cleanObject_object_result.
    destruct (lookupPath_app_nonempty p (Key k)) as (s' & p' & Hp').
    rewrite Hp' in Hpath. destruct s', obj; try discriminate Hpath; reflexivity.
  - intros w. now apply cleanObject_update.
Qed.

Lemma cleanObject_redacts_witness :
  lookupPath (redactProperty (Config.redact defaultOptions) EmptyString nestedSample)
             [Key "user"; Key "sessions"; Index 0; Key "ApiKey"]
    = Some (VStr REDACTED)
  /\ cleanObject (updatePath [Key "user"; Key "sessions"; Index 0; Key "ApiKey"]
                             (VStr "another secret") nestedSample)
                 (Config.redact defaultOptions) 1000
     = cleanObject nestedSample (Config.redact defaultOptions) 1000.
Proof.
  destruct (cleanObject_redacts nestedSample (Config.redact defaultOptions) 1000
              "key" "ApiKey" [Key "user"; Key "sessions"; Index 0] (VStr "k-123")
              ltac:(simpl; tauto) eq_refl eq_refl)
    as (Hat & _ & Hsame).
  split.
  - exact (Hat eq_refl).
  - exact (Hsame (VStr "another secret")).
Defined.

(** ** The fingerprint *)

Lemma upper_hexDigit (n : Z) :
  0 <= n < 16 -> isUpperHex (upperChar (hexDigit n)) = true.
Proof.
  intros H. rewrite <- (Z2Nat.id n) by lia.
  assert (Hk : (Z.to_nat n < 16)%nat) by lia.
  revert Hk. generalize (Z.to_nat n). intros k Hk.
  do 16 (destruct k as [|k]; [reflexivity|]). lia.
Qed.

Lemma le_bytes_range (count : nat) (x : Z) :
  Forall (fun b => 0 <= b < 256) (Md5.le_bytes count x).
Proof.
  unfold Md5.le_bytes. apply Forall_forall. intros b Hb.
  apply list_elem_of_In, in_map_iff in Hb as (i & <- & _).
  apply Z.mod_pos_bound. lia.
Qed.

Lemma le_bytes_length (count : nat) (x : Z) : length (Md5.le_bytes count x) = count.
Proof. unfold Md5.le_bytes. now rewrite length_map, length_seq. Qed.

Lemma digest_range (msg : list Z) :
  Forall (fun b => 0 <= b < 256) (Md5.digest msg) /\ length (Md5.digest msg) = 16%nat.
Proof.
  unfold Md5.digest.
  destruct (foldl _ _ _) as [a b c d]. split.
  - repeat (apply Forall_app; split); apply le_bytes_range.
  - rewrite !length_app, !le_bytes_length. reflexivity.
Qed.

Lemma hex_length (bytes : list Z) :
  String.length (Md5.hex bytes) = (2 * length bytes)%nat.
Proof. induction bytes as [|b l IH]; simpl; [reflexivity | rewrite IH; lia]. Qed.

Lemma hex_upper (bytes : list Z) :
  Forall (fun b => 0 <= b < 256) bytes ->
  forallb isUpperHex (chars (toUpperCase (Md5.hex bytes))) = true.
Proof.
  induction 1 as [|b l Hb _ IH]; [reflexivity|].
  simpl. rewrite !upper_hexDigit, IH; [reflexivity | |].
  - apply Z.mod_pos_bound. lia.
  - split; [apply Z.div_pos; lia | apply Z.div_lt_upper_bound; lia].
Qed.

Lemma toUpperCase_length (s : string) : String.length (toUpperCase s) = String.length s.
Proof. induction s as [|c s IH]; simpl; congruence. Qed.

Lemma upper_substring (P : ascii -> bool) (s : string) :
  forallb P (chars (toUpperCase s)) = true ->
  forall n, forallb P (chars (toUpperCase (String.substring 0 n s))) = true.
Proof.
  induction s as [|c s IH]; intros H n; destruct n; try reflexivity.
  simpl in *. apply andb_true_iff in H as [Hc Hs]. now rewrite Hc, IH.
Qed.

(** The digest in hexadecimal has 32 characters. *)
Lemma md5_hex_length (s : string) : String.length (Md5.md5_hex s) = 32%nat.
Proof.
  unfold Md5.md5_hex. rewrite hex_length.
  now rewrite (proj2 (digest_range _)).
Qed.

Lemma fingerprint_shape (text : string) :
  String.length (toUpperCase (substring0 (Md5.md5_hex text) 8)) = 8%nat
  /\ forallb isUpperHex (chars (toUpperCase (substring0 (Md5.md5_hex text) 8))) = true.
Proof.
  split.
  - rewrite toUpperCase_length. unfold substring0.
    rewrite length_substring0, md5_hex_length. reflexivity.
  - unfold substring0. apply upper_substring.
    unfold Md5.md5_hex. apply hex_upper, digest_range.
Qed.

Lemma getProp_defined (o : value) (k : string) :
  nullish o = false -> getProp o k = Ok (getPropOpt o k).
Proof. destruct o; try discriminate; reflexivity. Qed.

Lemma getProp_nullish (o : value) (k : string) :
  nullish o = true -> getProp o k = Throw TypeError.
Proof. destruct o; try discriminate; reflexivity. Qed.

Lemma firstStackLine_text (stack : value) :
  textOrAbsent stack = true -> exists s, firstStackLine stack = Ok (VStr s).
Proof.
  destruct stack as [| | | |s| |]; try discriminate; intros _; simpl; eauto.
  unfold or_else. destruct (truthy _); eauto.
Qed.

(** The tuple that is hashed: message, first stack line, path, method. *)
Lemma errorData_shape (err req data : value) :
  errorData err req = Ok data ->
  exists firstLine,
    firstStackLine (getPropOpt err "stack") = Ok firstLine
    /\ data = VObj [ ("message", getPropOpt err "message");
                     ("stack", firstLine);
                     ("url", or_else (or_else (getPropOpt req "originalUrl")
                                              (getPropOpt req "url"))
                                     (VStr EmptyString));
                     ("method", or_else (getPropOpt req "method") (VStr EmptyString)) ].
Proof.
  unfold errorData. destruct (nullish err) eqn:Hn.
  - rewrite (getProp_nullish _ _ Hn). discriminate.
  - rewrite !(getProp_defined _ _ Hn). simpl.
    destruct (firstStackLine (getPropOpt err "stack")) as [line|e]; simpl; [|discriminate].
    intros [= <-]. now exists line.
Qed.

Lemma generateErrorId_total (err req : value) :
  nullish err = false -> stackIsText err = true ->
  exists id, generateErrorId err req = Ok id.
Proof.
  intros Hn Ht. unfold generateErrorId, errorData.
  rewrite !(getProp_defined _ _ Hn). simpl.
  destruct (firstStackLine_text _ Ht) as [s ->]. simpl. eauto.
Qed.

Lemma generateErrorId_inv (err req : value) (id : string) :
  generateErrorId err req = Ok id ->
  exists data text,
    errorData err req = Ok data
    /\ JSON_stringify data = Some text
    /\ id = "ERR-" +:+ toUpperCase (substring0 (Md5.md5_hex text) 8).
Proof.
  unfold generateErrorId.
  destruct (errorData err req) as [data|e]; simpl; [|discriminate].
  destruct (JSON_stringify data) as [text|] eqn:Htext; [|discriminate].
  intros [= <-]. now exists data, text.
Qed.

(** What a report is made of, read back from a run that returned. *)
Lemma reportLines_inv (env : Env) (err req : value) (options : Options.t)
    (md : list line) :
  reportLines env err req options = Ok md ->
  nullish err = false
  /\ exists errorId messagePart typePart codePart stackPart requestPart,
       (if Config.generateErrorId (mergeOptions defaultOptions options)
        then exists id, generateErrorId err req = Ok id /\ errorId = Some id
        else errorId = None)
       /\ messageLines (resolveTheme (Config.theme (mergeOptions defaultOptions options)))
            (getPropOpt err "message") = Ok messagePart
       /\ typeLines (getPropOpt err "name") = Ok typePart
       /\ codeLines (getPropOpt err "code") = Ok codePart
       /\ stackLines_ (resolveTheme (Config.theme (mergeOptions defaultOptions options)))
            (getPropOpt err "stack")
            (Config.maxStackLines (mergeOptions defaultOptions options)) = Ok stackPart
       /\ requestLines (resolveTheme (Config.theme (mergeOptions defaultOptions options)))
            (mergeOptions defaultOptions options) req = Ok requestPart
       /\ md = titleLines (resolveTheme (Config.theme (mergeOptions defaultOptions options)))
                  errorId
                  (if Config.includeTimestamp (mergeOptions defaultOptions options)
                   then Some (now_iso env) else None)
                ++ severityLines (mergeOptions defaultOptions options)
                ++ messagePart ++ typePart ++ codePart ++ stackPart ++ requestPart
                ++ environmentLines
                     (resolveTheme (Config.theme (mergeOptions defaultOptions options)))
                     (mergeOptions defaultOptions options) env
                ++ performanceLines (mergeOptions defaultOptions options) env
                ++ footerLines
                     (resolveTheme (Config.theme (mergeOptions defaultOptions options))).
Proof.
  unfold reportLines.
  set (config := mergeOptions defaultOptions options).
  set (theme := resolveTheme (Config.theme config)).
  destruct (nullish err) eqn:Hn.
  { rewrite !(getProp_nullish _ _ Hn).
    destruct (Config.generateErrorId config); [destruct (generateErrorId err req)|];
      discriminate. }
  rewrite !(getProp_defined _ _ Hn). intros Hrun. split; [reflexivity|].
  assert (Hid : exists errorId,
            (if Config.generateErrorId config
             then exists id, generateErrorId err req = Ok id /\ errorId = Some id
             else errorId = None)
            /\ (if Config.generateErrorId config
                then let! id := generateErrorId err req in Ok (Some id)
                else Ok None) = Ok errorId).
  { destruct (Config.generateErrorId config); [|eauto].
    destruct (generateErrorId err req) as [id|e]; [eauto | discriminate Hrun]. }
  destruct Hid as (errorId & Hid & Heq). rewrite Heq in Hrun. cbn [bind] in Hrun.
  destruct (messageLines theme (getPropOpt err "message")) as [messagePart|e];
    cbn [bind] in Hrun; [|discriminate Hrun].
  destruct (typeLines (getPropOpt err "name")) as [typePart|e];
    cbn [bind] in Hrun; [|discriminate Hrun].
  destruct (codeLines (getPropOpt err "code")) as [codePart|e];
    cbn [bind] in Hrun; [|discriminate Hrun].
  destruct (stackLines_ theme (getPropOpt err "stack") (Config.maxStackLines config))
    as [stackPart|e]; cbn [bind] in Hrun; [|discriminate Hrun].
  destruct (requestLines theme config req) as [requestPart|e];
    cbn [bind] in Hrun; [|discriminate Hrun].
  injection Hrun as <-.
  exists errorId, messagePart, typePart, codePart, stackPart, requestPart.
  repeat (split; [first [exact Hid | reflexivity]|]). reflexivity.
Qed.

(** The converse: a report from its parts. *)
Lemma reportLines_intro (env : Env) (err req : value) (options : Options.t)
    (messagePart typePart codePart stackPart requestPart : list line) :
  nullish err = false ->
  (Config.generateErrorId (mergeOptions defaultOptions options) = true ->
   exists id, generateErrorId err req = Ok id) ->
  messageLines (resolveTheme (Config.theme (mergeOptions defaultOptions options)))
    (getPropOpt err "message") = Ok messagePart ->
  typeLines (getPropOpt err "name") = Ok typePart ->
  codeLines (getPropOpt err "code") = Ok codePart ->
  stackLines_ (resolveTheme (Config.theme (mergeOptions defaultOptions options)))
    (getPropOpt err "stack")
    (Config.maxStackLines (mergeOptions defaultOptions options)) = Ok stackPart ->
  requestLines (resolveTheme (Config.theme (mergeOptions defaultOptions options)))
    (mergeOptions defaultOptions options) req = Ok requestPart ->
  exists md, reportLines env err req options = Ok md.
Proof.
  intros Hn Hid Hm Ht Hc Hs Hr. unfold reportLines.
  rewrite !(getProp_defined _ _ Hn).
  destruct (Config.generateErrorId (mergeOptions defaultOptions options));
    [destruct (Hid eq_refl) as [id ->]|];
    cbn [bind]; rewrite Hm; cbn [bind]; rewrite Ht; cbn [bind]; rewrite Hc; cbn [bind];
    rewrite Hs; cbn [bind]; rewrite Hr; cbn [bind]; eauto.
Qed.

(** C5: the fingerprint is the tag [ERR-] followed by the first eight
    hexadecimal digits, in upper case, of the MD5 digest of the serialized
    tuple (message, first stack line, path, method).  It is a function of
    that tuple alone: any error and request with the same tuple get the
    same fingerprint, and the [Error ID] line of a report is the same under
    every environment (clock, process). *)
Theorem generateErrorId_fingerprint (err req : value) (id : string) :
  generateErrorId err req = Ok id ->
  (exists firstLine text,
     firstStackLine (getPropOpt err "stack") = Ok firstLine
     /\ JSON_stringify
          (VObj [ ("message", getPropOpt err "message");
                  ("stack", firstLine);
                  ("url", or_else (or_else (getPropOpt req "originalUrl")
                                           (getPropOpt req "url"))
                                  (VStr EmptyString));
                  ("method", or_else (getPropOpt req "method") (VStr EmptyString)) ])
        = Some text
     /\ id = "ERR-" +:+ toUpperCase (substring0 (Md5.md5_hex text) 8))
  /\ (exists h,
        id = "ERR-" +:+ h /\ String.length h = 8%nat
        /\ forallb isUpperHex (chars h) = true)
  /\ (forall err' req',
        errorData err' req' = errorData err req -> generateErrorId err' req' = Ok id)
  /\ (forall env options md,
        Config.generateErrorId (mergeOptions defaultOptions options) = true ->
        reportLines env err req options = Ok md ->
        md !! 1%nat = Some (Some ("**Error ID:** `" +:+ id +:+ BT))).
Proof.
  intros Hid.
  destruct (generateErrorId_inv err req id Hid) as (data & text & Hdata & Htext & ->).
  destruct (errorData_shape err req data Hdata) as (line & Hline & ->).
  split; [|split; [|split]].
  - now exists line, text.
  - exists (toUpperCase (substring0 (Md5.md5_hex text) 8)).
    split; [reflexivity | apply fingerprint_shape].
  - intros err' req' Hsame. unfold generateErrorId in *. now rewrite Hsame.
  - intros env options md Hon Hmd.
    destruct (reportLines_inv env err req options md Hmd)
      as (_ & errorId & mp & tp & cp & sp & rp & Herr & _ & _ & _ & _ & _ & ->).
    rewrite Hon in Herr. destruct Herr as (id' & Hid' & ->).
    rewrite Hid in Hid'. injection Hid' as <-. reflexivity.
Qed.

Lemma generateErrorId_fingerprint_witness :
  generateErrorId sampleError sampleRequest = Ok "ERR-07ACC959"
  /\ (forall env options md,
        Config.generateErrorId (mergeOptions defaultOptions options) = true ->
        reportLines env sampleError sampleRequest options = Ok md ->
        md !! 1%nat = Some (Some "**Error ID:** `ERR-07ACC959`")).
Proof.
  assert (Hid : generateErrorId sampleError sampleRequest = Ok "ERR-07ACC959")
    by (vm_compute; reflexivity).
  split; [exact Hid|].
  exact (proj2 (proj2 (proj2
           (generateErrorId_fingerprint sampleError sampleRequest "ERR-07ACC959" Hid)))).
Defined.

(** ** The report builder never throws on an error that is a value *)

Lemma cleanObject_total (obj : value) (redactKeys : list string) (maxSize : Z) :
  exists out, cleanObject obj redactKeys maxSize = Ok out.
Proof.
  destruct (isObject obj) eqn:Hobj.
  - destruct (cleanObject_object_result obj redactKeys maxSize Hobj) as (out & H & _).
    now exists out.
  - exists obj. unfold cleanObject, isObject in *.
    destruct (truthy obj), (typeof_object obj); simpl in *; congruence.
Qed.

(** ** Values in templates *)

Lemma toStr_arr (items : list value) :
  toStr (VArr items) = let! parts := elementStrings items in Ok (join parts ",").
Proof. reflexivity. Qed.

Lemma elementStrings_cons (x : value) (l : list value) :
  elementStrings (x :: l)
    = let! text := if nullish x then Ok EmptyString else toStr x in
      let! rest := elementStrings l in
      Ok (text :: rest).
Proof. reflexivity. Qed.

(** [printable] is the domain of [toStr]. *)
Lemma toStr_cases (v : value) :
  if printable v then exists text, toStr v = Ok text else toStr v = Throw TypeError.
Proof.
  induction v as [| | b | n | s | items IH | props _] using value_ind;
    try (simpl; eauto; fail).
  - destruct b; simpl; eauto.
  - rewrite toStr_arr. cbn [printable].
    assert (Hall : if forallb printable items
                   then exists parts, elementStrings items = Ok parts
                   else elementStrings items = Throw TypeError).
    { induction IH as [|x l Hx _ IHl]; [simpl; eauto|].
      rewrite elementStrings_cons. cbn [forallb].
      destruct (nullish x) eqn:Hnull.
      - assert (printable x = true) as -> by (destruct x; try discriminate; reflexivity).
        cbn [andb bind]. destruct (forallb printable l).
        + destruct IHl as [parts ->]. cbn [bind]. eauto.
        + now rewrite IHl.
      - destruct (printable x).
        + destruct Hx as [text ->]. cbn [andb bind]. destruct (forallb printable l).
          * destruct IHl as [parts ->]. cbn [bind]. eauto.
          * now rewrite IHl.
        + now rewrite Hx. }
    destruct (forallb printable items).
    + destruct Hall as [parts ->]. cbn [bind]. eauto.
    + now rewrite Hall.
  - simpl. destruct (assoc "toString" props); eauto.
Qed.

Lemma toStr_printable (v : value) : printable v = true -> toStr v = Ok (textOf v).
Proof.
  intros Hp. pose proof (toStr_cases v) as H. rewrite Hp in H.
  destruct H as [text H]. unfold textOf. now rewrite H.
Qed.

Lemma toStr_unprintable (v : value) : printable v = false -> toStr v = Throw TypeError.
Proof. intros Hp. pose proof (toStr_cases v) as H. now rewrite Hp in H. Qed.

(** What cannot be printed is an array or an object, hence truthy. *)
Lemma unprintable_truthy (v : value) :
  printable v = false ->
  truthy v = true /\ match v with VStr _ => False | _ => True end.
Proof. destruct v; try discriminate; now split. Qed.

Lemma printable_or_else (v w : value) :
  printable w = true -> printable (or_else v w) = printable v.
Proof.
  intros Hw. unfold or_else. destruct (truthy v) eqn:Ht; [reflexivity|].
  rewrite Hw. destruct (printable v) eqn:Hp; [reflexivity|].
  destruct (unprintable_truthy v Hp) as [Ht' _]. congruence.
Qed.

Lemma messageLines_printable (theme : slot Theme) (message : value) :
  printable message = true ->
  messageLines theme message
    = Ok [ Some (show (token errorIcon theme) +:+ " **Error Message:**");
           Some (FENCE +:+ LF +:+ textOf (or_else message (VStr "Unknown Error"))
                 +:+ LF +:+ FENCE);
           Some EmptyString ].
Proof.
  intros Hp. unfold messageLines.
  rewrite (toStr_printable (or_else message (VStr "Unknown Error")));
    [reflexivity | now rewrite printable_or_else].
Qed.

Lemma messageLines_unprintable (theme : slot Theme) (message : value) :
  printable message = false -> messageLines theme message = Throw TypeError.
Proof.
  intros Hp. unfold messageLines.
  rewrite (toStr_unprintable (or_else message (VStr "Unknown Error")));
    [reflexivity | now rewrite printable_or_else].
Qed.

Lemma typeLines_printable (name : value) :
  printable name = true -> exists lines, typeLines name = Ok lines.
Proof.
  intros Hp. unfold typeLines. rewrite (toStr_printable name Hp).
  destruct (truthy name && _); cbn [bind]; eauto.
Qed.

Lemma typeLines_unprintable (name : value) :
  printable name = false -> typeLines name = Throw TypeError.
Proof.
  intros Hp. unfold typeLines. rewrite (toStr_unprintable name Hp).
  destruct (unprintable_truthy name Hp) as [-> Hs].
  destruct name; try reflexivity. destruct Hs.
Qed.

Lemma codeLines_printable (code : value) :
  printable code = true -> exists lines, codeLines code = Ok lines.
Proof.
  intros Hp. unfold codeLines. rewrite (toStr_printable code Hp).
  destruct (truthy code); cbn [bind]; eauto.
Qed.

Lemma codeLines_unprintable (code : value) :
  printable code = false -> codeLines code = Throw TypeError.
Proof.
  intros Hp. unfold codeLines. rewrite (toStr_unprintable code Hp).
  now destruct (unprintable_truthy code Hp) as [-> _].
Qed.

(** The request section, block by block. *)
Lemma requestLines_blocks (theme : slot Theme) (config : Config.t) (req : value) :
  truthy req = true ->
  requestPrintable config req = true ->
  exists cleanedBody cleanedQuery cleanedHeaders,
    cleanObject (getPropOpt req "body") (Config.redact config) (Config.maxBodySize config)
      = Ok cleanedBody
    /\ cleanObject (getPropOpt req "query") (Config.redact config) 1000 = Ok cleanedQuery
    /\ cleanObject (getPropOpt req "headers") (Config.redact config) 1000 = Ok cleanedHeaders
    /\ requestLines theme config req =
       Ok ([ Some (show (token requestIcon theme) +:+ " **Request Details:**");
             Some ("- **Method:** `" +:+ textOf (getPropOpt req "method") +:+ BT);
             Some ("- **URL:** `"
                   +:+ textOf (or_else (getPropOpt req "originalUrl") (getPropOpt req "url"))
                   +:+ BT);
             Some ("- **IP:** `"
                   +:+ textOf (or_else (or_else (getPropOpt req "ip")
                                 (getPropOpt (getPropOpt req "connection") "remoteAddress"))
                                 (VStr "unknown"))
                   +:+ BT) ]
           ++ when (Config.includeUserAgent config
                    && truthy (getPropOpt (getPropOpt req "headers") "user-agent"))
                [Some ("- **User Agent:** `"
                       +:+ textOf (getPropOpt (getPropOpt req "headers") "user-agent")
                       +:+ BT)]
           ++ when (nonEmpty (getPropOpt req "body"))
                (jsonBlock "- **Body:**" (JSON_stringify_pretty cleanedBody))
           ++ when (nonEmpty (getPropOpt req "query"))
                (jsonBlock "- **Query Parameters:**" (JSON_stringify_pretty cleanedQuery))
           ++ when (nonEmpty (getPropOpt req "params"))
                (jsonBlock "- **Route Parameters:**"
                   (JSON_stringify_pretty (getPropOpt req "params")))
           ++ jsonBlock "- **Headers:**" (JSON_stringify_pretty cleanedHeaders)
           ++ [Some EmptyString]).
Proof.
  intros Hreq Hprint.
  destruct (cleanObject_total (getPropOpt req "body") (Config.redact config)
              (Config.maxBodySize config)) as [cb Hb].
  destruct (cleanObject_total (getPropOpt req "query") (Config.redact config) 1000)
    as [cq Hq].
  destruct (cleanObject_total (getPropOpt req "headers") (Config.redact config) 1000)
    as [ch Hh].
  exists cb, cq, ch. split; [exact Hb|]. split; [exact Hq|]. split; [exact Hh|].
  unfold requestPrintable in Hprint. rewrite Hreq in Hprint. cbn [negb orb] in Hprint.
  apply andb_prop in Hprint as [Hprint Hagent].
  apply andb_prop in Hprint as [Hprint Hip].
  apply andb_prop in Hprint as [Hmethod Hurl].
  unfold requestLines, cleanObject_maxSize_default, nonEmpty. rewrite Hreq. simpl negb.
  cbv iota.
  rewrite (toStr_printable _ Hmethod), (toStr_printable _ Hurl), (toStr_printable _ Hip).
  cbn [bind]. rewrite Hb, Hq, Hh.
  assert (Hua : (if Config.includeUserAgent config
                    && truthy (getPropOpt (getPropOpt req "headers") "user-agent")
                 then
                   let! agentText
                     := toStr (getPropOpt (getPropOpt req "headers") "user-agent") in
                   Ok [Some ("- **User Agent:** `" +:+ agentText +:+ BT)]
                 else Ok [])
                = Ok (when (Config.includeUserAgent config
                            && truthy (getPropOpt (getPropOpt req "headers") "user-agent"))
                        [Some ("- **User Agent:** `"
                               +:+ textOf (getPropOpt (getPropOpt req "headers")
                                             "user-agent")
                               +:+ BT)])).
  { destruct (Config.includeUserAgent config); [|reflexivity].
    cbn [negb orb] in Hagent. rewrite (toStr_printable _ Hagent).
    destruct (truthy (getPropOpt (getPropOpt req "headers") "user-agent")); reflexivity. }
  rewrite Hua. cbn [bind].
  destruct (truthy (getPropOpt req "body") && (keysLength (getPropOpt req "body") >? 0));
    destruct (truthy (getPropOpt req "query") && (keysLength (getPropOpt req "query") >? 0));
    reflexivity.
Qed.

Lemma requestLines_total (theme : slot Theme) (config : Config.t) (req : value) :
  requestPrintable config req = true ->
  exists lines, requestLines theme config req = Ok lines.
Proof.
  intros Hprint. destruct (truthy req) eqn:Hreq.
  - destruct (requestLines_blocks theme config req Hreq Hprint)
      as (cb & cq & ch & _ & _ & _ & H).
    eauto.
  - exists []. unfold requestLines. now rewrite Hreq.
Qed.

(** A field of the request that cannot be printed: no request section. *)
Lemma requestLines_unprintable (theme : slot Theme) (config : Config.t) (req : value) :
  requestPrintable config req = false ->
  requestLines theme config req = Throw TypeError.
Proof.
  unfold requestPrintable, requestLines. destruct (truthy req); [|discriminate].
  cbn [negb orb]. intros Hprint.
  destruct (printable (getPropOpt req "method")) eqn:Hmethod;
    [rewrite (toStr_printable _ Hmethod) | now rewrite (toStr_unprintable _ Hmethod)].
  cbn [bind].
  destruct (printable (or_else (getPropOpt req "originalUrl") (getPropOpt req "url")))
    eqn:Hurl;
    [rewrite (toStr_printable _ Hurl) | now rewrite (toStr_unprintable _ Hurl)].
  cbn [bind].
  destruct (printable (or_else (or_else (getPropOpt req "ip")
                                  (getPropOpt (getPropOpt req "connection") "remoteAddress"))
                               (VStr "unknown"))) eqn:Hip;
    [rewrite (toStr_printable _ Hip) | now rewrite (toStr_unprintable _ Hip)].
  cbn [bind andb] in *.
  destruct (Config.includeUserAgent config); [|discriminate Hprint].
  cbn [negb orb andb] in *.
  destruct (unprintable_truthy _ Hprint) as [-> _].
  now rewrite (toStr_unprintable _ Hprint).
Qed.

Lemma stackLines_total (theme : slot Theme) (stack : value) (cap : Z) :
  textOrAbsent stack = true -> exists lines, stackLines_ theme stack cap = Ok lines.
Proof.
  intros Ht. unfold stackLines_. rewrite (stackBlock_eq stack cap Ht). simpl. eauto.
Qed.

Lemma errorPrintable_fields (err : value) :
  errorPrintable err = true ->
  printable (getPropOpt err "message") = true
  /\ printable (getPropOpt err "name") = true
  /\ printable (getPropOpt err "code") = true.
Proof.
  unfold errorPrintable. intros H.
  apply andb_prop in H as [H Hc]. apply andb_prop in H as [Hm Hn]. now repeat split.
Qed.

Lemma reportLines_total (env : Env) (err req : value) (options : Options.t) :
  nullish err = false ->
  stackIsText err = true ->
  errorPrintable err = true ->
  requestPrintable (mergeOptions defaultOptions options) req = true ->
  exists md, reportLines env err req options = Ok md.
Proof.
  intros Hn Ht He Hr. destruct (errorPrintable_fields err He) as (Hm & Hname & Hc).
  destruct (typeLines_printable _ Hname) as [tp Htp].
  destruct (codeLines_printable _ Hc) as [cp Hcp].
  destruct (stackLines_total
              (resolveTheme (Config.theme (mergeOptions defaultOptions options)))
              (getPropOpt err "stack")
              (Config.maxStackLines (mergeOptions defaultOptions options)) Ht) as [sp Hsp].
  destruct (requestLines_total
              (resolveTheme (Config.theme (mergeOptions defaultOptions options)))
              (mergeOptions defaultOptions options) req Hr) as [rp Hrp].
  eapply (reportLines_intro env err req options _ tp cp sp rp Hn);
    [intros _; exact (generateErrorId_total err req Hn Ht)
    | exact (messageLines_printable _ _ Hm) | exact Htp | exact Hcp | exact Hsp | exact Hrp].
Qed.

(** C1, amended: for every error that is neither [null] nor [undefined]
    (an object with any of its fields absent, or a primitive such as a
    string), whose [stack], when present, is a string, and for every
    request and options, provided that the values written into the report
    as text (the message, the name and the code of the error; the method,
    the URL, the address and the user agent of the request) can be
    converted to a string, [errorToMarkdown] returns a string and does not
    throw.  Every primitive can be converted; an object with a [toString]
    member of its own cannot, nor an array that holds one. *)
Theorem errorToMarkdown_total (env : Env) (err req : value) (options : Options.t) :
  nullish err = false ->
  stackIsText err = true ->
  errorPrintable err = true ->
  requestPrintable (mergeOptions defaultOptions options) req = true ->
  exists report, errorToMarkdown env err req options = Ok report.
Proof.
  intros Hn Ht He Hr. unfold errorToMarkdown.
  destruct (reportLines_total env err req options Hn Ht He Hr) as [md ->].
  cbn [bind]. eauto.
Qed.

(** A string in place of the error, and no request fields at all. *)
Lemma errorToMarkdown_total_witness :
  exists report,
    errorToMarkdown sampleEnv (VStr "plain text error") (VObj []) Options.empty = Ok report.
Proof.
  apply (errorToMarkdown_total sampleEnv (VStr "plain text error") (VObj []) Options.empty);
    reflexivity.
Defined.

(** C1 as stated fails at [null]: reading [err.message] throws. *)
Lemma errorToMarkdown_null_counterexample :
  errorToMarkdown sampleEnv VNull VNull Options.empty = Throw TypeError
  /\ errorToMarkdown sampleEnv VUndef VNull Options.empty = Throw TypeError.
Proof. split; reflexivity. Qed.

(** A [null] or [undefined] error throws whatever the rest is. *)
Lemma errorToMarkdown_nullish (env : Env) (err req : value) (options : Options.t) :
  nullish err = true -> errorToMarkdown env err req options = Throw TypeError.
Proof.
  intros Hn. unfold errorToMarkdown, reportLines, generateErrorId, errorData.
  rewrite !(getProp_nullish _ _ Hn).
  destruct (Config.generateErrorId _); reflexivity.
Qed.

(** ** The domain of the report builder *)

Lemma stackBlock_not_text (stack : value) (cap : Z) :
  truthy stack = true -> textOrAbsent stack = false ->
  stackBlock stack cap = Throw TypeError.
Proof.
  intros Ht Hn. unfold stackBlock. rewrite (or_else_truthy _ _ Ht).
  destruct stack; try discriminate; reflexivity.
Qed.

Lemma firstStackLine_not_text (stack : value) :
  textOrAbsent stack = false -> firstStackLine stack = Throw TypeError.
Proof. destruct stack; try discriminate; reflexivity. Qed.

(** The stack block of every stack for which there is one. *)
Lemma stackBlock_inv (stack : value) (cap : Z) (block : list line) :
  stackBlock stack cap = Ok block ->
  block = [Some FENCE; Some (join (slice0 (sourceLines stack) cap) LF)]
          ++ when (truthy stack && (Z.of_nat (length (sourceLines stack)) >? cap))
               [Some TRUNCATED]
          ++ [Some FENCE].
Proof.
  destruct (textOrAbsent stack) eqn:Htext.
  - rewrite (stackBlock_eq stack cap Htext). now intros [= <-].
  - destruct (truthy stack) eqn:Ht.
    + rewrite (stackBlock_not_text stack cap Ht Htext). discriminate.
    + unfold stackBlock. rewrite (or_else_falsy _ _ Ht), Ht.
      destruct stack; try discriminate Htext; intros [= <-]; reflexivity.
Qed.

Lemma stackBlock_falsy (stack : value) (cap : Z) :
  truthy stack = false -> exists block, stackBlock stack cap = Ok block.
Proof.
  intros Hf. unfold stackBlock. rewrite (or_else_falsy _ _ Hf), Hf. cbn. eauto.
Qed.

(** A stack that is neither absent, nor falsy, nor a string: no report. *)
Lemma reportLines_stack_not_text (env : Env) (err req : value) (options : Options.t)
    (md : list line) :
  truthy (getPropOpt err "stack") = true ->
  textOrAbsent (getPropOpt err "stack") = false ->
  reportLines env err req options = Ok md -> False.
Proof.
  intros Ht Hn Hmd.
  destruct (reportLines_inv env err req options md Hmd)
    as (_ & errorId & mp & tp & cp & sp & rp & _ & _ & _ & _ & Hs & _).
  unfold stackLines_ in Hs. rewrite (stackBlock_not_text _ _ Ht Hn) in Hs. discriminate Hs.
Qed.

(** The inputs for which a report is built. *)
Lemma reportLines_domain (env : Env) (err req : value) (options : Options.t) :
  (exists md, reportLines env err req options = Ok md)
  <-> nullish err = false
      /\ (stackIsText err = true
          \/ (truthy (getPropOpt err "stack") = false
              /\ Config.generateErrorId (mergeOptions defaultOptions options) = false))
      /\ errorPrintable err = true
      /\ requestPrintable (mergeOptions defaultOptions options) req = true.
Proof.
  split.
  - intros [md Hmd].
    destruct (reportLines_inv env err req options md Hmd)
      as (Hn & errorId & mp & tp & cp & sp & rp & Hid & Hm & Ht & Hc & Hs & Hr & _).
    split; [exact Hn|]. split; [|split].
    + destruct (stackIsText err) eqn:Htext; [now left | right].
      unfold stackIsText in Htext.
      destruct (truthy (getPropOpt err "stack")) eqn:Htruthy.
      { exfalso. exact (reportLines_stack_not_text env err req options md Htruthy Htext Hmd). }
      split; [reflexivity|].
      destruct (Config.generateErrorId (mergeOptions defaultOptions options));
        [|reflexivity].
      exfalso. destruct Hid as (id & Hid & _). revert Hid.
      unfold generateErrorId, errorData. rewrite !(getProp_defined _ _ Hn). cbn [bind].
      rewrite (firstStackLine_not_text _ Htext). discriminate.
    + unfold errorPrintable.
      destruct (printable (getPropOpt err "message")) eqn:Hpm;
        [|rewrite (messageLines_unprintable _ _ Hpm) in Hm; discriminate Hm].
      destruct (printable (getPropOpt err "name")) eqn:Hpn;
        [|rewrite (typeLines_unprintable _ Hpn) in Ht; discriminate Ht].
      destruct (printable (getPropOpt err "code")) eqn:Hpc;
        [|rewrite (codeLines_unprintable _ Hpc) in Hc; discriminate Hc].
      reflexivity.
    + destruct (requestPrintable (mergeOptions defaultOptions options) req) eqn:Hpr;
        [reflexivity|].
      rewrite (requestLines_unprintable _ _ _ Hpr) in Hr. discriminate Hr.
  - intros (Hn & Hstack & He & Hr).
    destruct (errorPrintable_fields err He) as (Hm & Hname & Hc).
    destruct (typeLines_printable _ Hname) as [tp Htp].
    destruct (codeLines_printable _ Hc) as [cp Hcp].
    destruct (requestLines_total
                (resolveTheme (Config.theme (mergeOptions defaultOptions options)))
                (mergeOptions defaultOptions options) req Hr) as [rp Hrp].
    assert (Hsp : exists sp,
              stackLines_ (resolveTheme (Config.theme (mergeOptions defaultOptions options)))
                (getPropOpt err "stack")
                (Config.maxStackLines (mergeOptions defaultOptions options)) = Ok sp).
    { destruct Hstack as [Htext|[Hf _]]; [now apply stackLines_total|].
      unfold stackLines_.
      destruct (stackBlock_falsy (getPropOpt err "stack")
                  (Config.maxStackLines (mergeOptions defaultOptions options)) Hf)
        as [block ->].
      cbn [bind]. eauto. }
    destruct Hsp as [sp Hsp].
    eapply (reportLines_intro env err req options _ tp cp sp rp Hn);
      [| exact (messageLines_printable _ _ Hm) | exact Htp | exact Hcp | exact Hsp
       | exact Hrp].
    intros Hon. destruct Hstack as [Htext|[_ Hoff]]; [|congruence].
    exact (generateErrorId_total err req Hn Htext).
Qed.

(** The request section of a report that was built. *)
Lemma reportLines_request (env : Env) (err req : value) (options : Options.t)
    (md : list line) :
  reportLines env err req options = Ok md ->
  exists before section after,
    requestLines (resolveTheme (Config.theme (mergeOptions defaultOptions options)))
      (mergeOptions defaultOptions options) req = Ok section
    /\ requestPrintable (mergeOptions defaultOptions options) req = true
    /\ md = before ++ section ++ after.
Proof.
  intros Hmd.
  destruct (reportLines_inv env err req options md Hmd)
    as (_ & errorId & mp & tp & cp & sp & rp & _ & _ & _ & _ & _ & Hr & Heq).
  match type of Heq with
  | md = ?T ++ ?S ++ _ ++ _ ++ _ ++ _ ++ _ ++ ?R =>
      exists (T ++ S ++ mp ++ tp ++ cp ++ sp), rp, R
  end.
  split; [exact Hr|]. split.
  - destruct (requestPrintable (mergeOptions defaultOptions options) req) eqn:Hp;
      [reflexivity|].
    rewrite (requestLines_unprintable _ _ _ Hp) in Hr. discriminate Hr.
  - rewrite Heq. rewrite <- !app_assoc. reflexivity.
Qed.

(** ** The stack block of a report *)

(** C7, amended: in every report built under a cap that is a count
    ([0 <= maxStackLines]), the stack heading is followed by the opening
    fence, by the first [maxStackLines] lines of the stack (of the
    placeholder when there is no stack), hence at most [maxStackLines] of
    them, by the truncation marker exactly when there is a stack with more
    lines than the cap, and by the closing fence; the report returned is
    these lines joined. *)
Theorem reportLines_stack_cap (env : Env) (err req : value) (options : Options.t)
    (md : list line) :
  0 <= Config.maxStackLines (mergeOptions defaultOptions options) ->
  reportLines env err req options = Ok md ->
  exists (before after : list line) (shown : list string) (marker : list line),
    md = before
         ++ [ Some (show (token stackIcon
                      (resolveTheme (Config.theme (mergeOptions defaultOptions options))))
                    +:+ " **Stack Trace:**");
              Some FENCE;
              Some (join shown LF) ]
         ++ marker
         ++ [Some FENCE; Some EmptyString]
         ++ after
    /\ errorToMarkdown env err req options = Ok (joinLines md LF)
    /\ shown = take (Z.to_nat (Config.maxStackLines (mergeOptions defaultOptions options)))
                    (sourceLines (getPropOpt err "stack"))
    /\ Z.of_nat (length shown)
       = Z.min (Config.maxStackLines (mergeOptions defaultOptions options))
               (Z.of_nat (length (sourceLines (getPropOpt err "stack"))))
    /\ Z.of_nat (length shown) <= Config.maxStackLines (mergeOptions defaultOptions options)
    /\ (marker = [Some TRUNCATED] \/ marker = [])
    /\ (marker = [Some TRUNCATED] <->
        truthy (getPropOpt err "stack") = true
        /\ Config.maxStackLines (mergeOptions defaultOptions options)
           < Z.of_nat (length (sourceLines (getPropOpt err "stack")))).
Proof.
  intros Hcap Hmd.
  destruct (reportLines_inv env err req options md Hmd)
    as (_ & errorId & mp & tp & cp & sp & rp & _ & _ & _ & _ & Hs & _ & Heq).
  set (config := mergeOptions defaultOptions options) in *.
  set (theme := resolveTheme (Config.theme config)) in *.
  set (stack := getPropOpt err "stack") in *.
  set (cap := Config.maxStackLines config) in *.
  unfold stackLines_ in Hs.
  destruct (stackBlock stack cap) as [block|e] eqn:Hblock; [|discriminate Hs].
  cbn [bind] in Hs. injection Hs as <-.
  apply stackBlock_inv in Hblock. rewrite (slice0_nonneg _ cap Hcap) in Hblock.
  exists (titleLines theme errorId
            (if Config.includeTimestamp config then Some (now_iso env) else None)
          ++ severityLines config ++ mp ++ tp ++ cp).
  exists (rp ++ environmentLines theme config env ++ performanceLines config env
          ++ footerLines theme).
  exists (take (Z.to_nat cap) (sourceLines stack)).
  exists (when (truthy stack && (Z.of_nat (length (sourceLines stack)) >? cap))
            [Some TRUNCATED]).
  split.
  { rewrite Heq, Hblock. rewrite <- !app_assoc. cbn [app]. rewrite <- !app_assoc.
    reflexivity. }
  split.
  { unfold errorToMarkdown. now rewrite Hmd. }
  split; [reflexivity|].
  rewrite length_take.
  split; [lia|]. split; [lia|].
  destruct (truthy stack); simpl.
  - destruct (Z.gtb_spec (Z.of_nat (length (sourceLines stack))) cap) as [Hgt|Hle]; simpl.
    + split; [now left|]. split; [intros _; split; [reflexivity | lia] | reflexivity].
    + split; [now right|]. split; [discriminate | intros [_ H]; lia].
  - split; [now right|]. split; [discriminate | intros [H _]; discriminate H].
Qed.

(** Scenario 5: sixty frames under the default cap of fifty give fifty
    lines and the marker. *)
Lemma reportLines_stack_cap_witness :
  exists (md before after : list line) (shown : list string),
    reportLines sampleEnv (deepError 60) VNull Options.empty = Ok md
    /\ errorToMarkdown sampleEnv (deepError 60) VNull Options.empty = Ok (joinLines md LF)
    /\ md = before
            ++ [Some "📋 **Stack Trace:**"; Some FENCE; Some (join shown LF)]
            ++ [Some TRUNCATED]
            ++ [Some FENCE; Some EmptyString]
            ++ after
    /\ shown = take 50 (split (framesStack 60) "010"%char)
    /\ length shown = 50%nat.
Proof.
  destruct (reportLines sampleEnv (deepError 60) VNull Options.empty) as [md|e] eqn:Hmd;
    [|vm_compute in Hmd; discriminate Hmd].
  destruct (reportLines_stack_cap sampleEnv (deepError 60) VNull Options.empty md
              ltac:(vm_compute; discriminate) Hmd)
    as (before & after & shown & marker & Heq & Hreport & Hshown & Hlen & _ & _ & Hmark).
  assert (Hsrc : length (sourceLines (getPropOpt (deepError 60) "stack")) = 60%nat)
    by (vm_compute; reflexivity).
  assert (marker = [Some TRUNCATED]) as ->.
  { apply Hmark. split; [reflexivity|]. rewrite Hsrc. vm_compute. reflexivity. }
  exists md, before, after, shown.
  split; [reflexivity|]. split; [exact Hreport|]. split; [exact Heq|].
  split; [exact Hshown|].
  rewrite Hsrc in Hlen.
  change (Config.maxStackLines (mergeOptions defaultOptions Options.empty)) with 50 in Hlen.
  lia.
Defined.

(** C7 as stated fails under a negative cap, which [slice] reads from the
    end: under [maxStackLines = -1] a stack of three lines gives a block of
    two lines of the stack, more than the cap. *)
Lemma reportLines_negative_cap_counterexample :
  exists (md : list line) (shown : string),
    reportLines sampleEnv (deepError 3) VNull (stackCapOptions (-1)) = Ok md
    /\ Config.maxStackLines (mergeOptions defaultOptions (stackCapOptions (-1))) = -1
    /\ md !! 10%nat = Some (Some FENCE)
    /\ md !! 11%nat = Some (Some shown)
    /\ shown = "    at frame0" +:+ LF +:+ "    at frame1"
    /\ length (split shown "010"%char) = 2%nat
    /\ md !! 12%nat = Some (Some TRUNCATED)
    /\ md !! 13%nat = Some (Some FENCE).
Proof.
  eexists _, _. split; [vm_compute; reflexivity|].
  repeat split; vm_compute; reflexivity.
Qed.

(** ** The request section: which data is redacted under which cap *)

(** C4, amended: in every report built for a request, the body went
    through [cleanObject] with the configured deny-list and the configured
    [maxBodySize]; the query parameters went through [cleanObject] with the
    configured deny-list and the default cap of 1000, whatever
    [maxBodySize] is; the route parameters are written as they are.  The
    three blocks stand in the report in this order, each only for a value
    that is not empty, and the report returned is its lines joined. *)
Theorem reportLines_redaction (env : Env) (err req : value) (options : Options.t)
    (md : list line) :
  truthy req = true ->
  reportLines env err req options = Ok md ->
  exists cleanedBody cleanedQuery before after,
    cleanObject (getPropOpt req "body")
      (Config.redact (mergeOptions defaultOptions options))
      (Config.maxBodySize (mergeOptions defaultOptions options)) = Ok cleanedBody
    /\ cleanObject (getPropOpt req "query")
         (Config.redact (mergeOptions defaultOptions options)) 1000 = Ok cleanedQuery
    /\ md = before
            ++ when (nonEmpty (getPropOpt req "body"))
                 (jsonBlock "- **Body:**" (JSON_stringify_pretty cleanedBody))
            ++ when (nonEmpty (getPropOpt req "query"))
                 (jsonBlock "- **Query Parameters:**" (JSON_stringify_pretty cleanedQuery))
            ++ when (nonEmpty (getPropOpt req "params"))
                 (jsonBlock "- **Route Parameters:**"
                    (JSON_stringify_pretty (getPropOpt req "params")))
            ++ after
    /\ errorToMarkdown env err req options = Ok (joinLines md LF).
Proof.
  intros Hreq Hmd.
  destruct (reportLines_request env err req options md Hmd)
    as (before & section & after & Hsection & Hprint & Heq).
  destruct (requestLines_blocks
              (resolveTheme (Config.theme (mergeOptions defaultOptions options)))
              (mergeOptions defaultOptions options) req Hreq Hprint)
    as (cb & cq & ch & Hb & Hq & Hh & Hlines).
  rewrite Hlines in Hsection. apply Ok_inj in Hsection. subst section.
  exists cb, cq.
  match type of Heq with
  | md = _ ++ (?A ++ ?B ++ _ ++ _ ++ _ ++ ?H) ++ _ =>
      exists (before ++ A ++ B), (H ++ after)
  end.
  split; [exact Hb|]. split; [exact Hq|]. split.
  - rewrite Heq. rewrite <- !app_assoc. reflexivity.
  - unfold errorToMarkdown. now rewrite Hmd.
Qed.

(** A query longer than the configured cap of 10, and route parameters
    under a redacted name. *)
Lemma reportLines_redaction_witness :
  exists md cleanedQuery before after,
    reportLines sampleEnv sampleError longQueryRequest smallCapOptions = Ok md
    /\ cleanObject (getPropOpt longQueryRequest "query")
         (Config.redact (mergeOptions defaultOptions smallCapOptions)) 1000
       = Ok cleanedQuery
    /\ cleanedQuery = VObj [("q", VStr "aaaaaaaaaaaaaaaaaaaaaaaa")]
    /\ md = before
            ++ jsonBlock "- **Query Parameters:**" (JSON_stringify_pretty cleanedQuery)
            ++ jsonBlock "- **Route Parameters:**"
                 (JSON_stringify_pretty (VObj [("password", VStr "hunter2")]))
            ++ after.
Proof.
  destruct (reportLines sampleEnv sampleError longQueryRequest smallCapOptions)
    as [md|e] eqn:Hmd; [|vm_compute in Hmd; discriminate Hmd].
  destruct (reportLines_redaction sampleEnv sampleError longQueryRequest smallCapOptions md
              eq_refl Hmd)
    as (cb & cq & before & after & _ & Hq & Heq & _).
  exists md, cq, before, after. split; [reflexivity|]. split; [exact Hq|].
  split; [vm_compute in Hq; now injection Hq as <-|]. exact Heq.
Defined.

(** C4 as stated fails for the query: under [maxBodySize = 10] the
    redactor with the configured cap cuts the query of [longQueryRequest],
    but the report holds the query whole, cut nowhere. *)
Lemma requestLines_query_cap_counterexample :
  exists lines capped whole,
    requestLines (Own github) smallCapConfig longQueryRequest = Ok lines
    /\ cleanObject (getPropOpt longQueryRequest "query") (Config.redact smallCapConfig)
                   (Config.maxBodySize smallCapConfig) = Ok capped
    /\ capped = VStr ("{" +:+ DQUOTE +:+ "q" +:+ DQUOTE +:+ ":" +:+ DQUOTE +:+ "aaaa"
                      +:+ TRUNCATED)
    /\ cleanObject (getPropOpt longQueryRequest "query") (Config.redact smallCapConfig) 1000
       = Ok whole
    /\ whole = VObj [("q", VStr "aaaaaaaaaaaaaaaaaaaaaaaa")]
    /\ In (JSON_stringify_pretty whole) lines
    /\ ~ In (JSON_stringify_pretty capped) lines.
Proof.
  eexists _, _, _. split; [vm_compute; reflexivity|].
  split; [vm_compute; reflexivity|]. split; [reflexivity|].
  split; [vm_compute; reflexivity|]. split; [reflexivity|].
  split.
  - vm_compute. tauto.
  - vm_compute. intros H. repeat (destruct H as [H|H]; [discriminate H|]). exact H.
Qed.

(** ** The store is only extended *)

Lemma freshRef_weaken (h h1 : Store.heap) (r : Store.ref) :
  h ⊆ h1 -> freshRef h1 r -> freshRef h r.
Proof.
  intros Hsub Hf l Hr. specialize (Hf l Hr).
  destruct (h !! l) as [c|] eqn:E; [|reflexivity].
  pose proof (lookup_weaken _ _ _ _ E Hsub) as E1. congruence.
Qed.

Lemma lookup_None_weaken (h h1 : Store.heap) (l : Store.loc) :
  h ⊆ h1 -> h1 !! l = None -> h !! l = None.
Proof.
  intros Hsub H1. destruct (h !! l) as [c|] eqn:E; [|reflexivity].
  pose proof (lookup_weaken _ _ _ _ E Hsub) as E1. congruence.
Qed.

Lemma newRegionClosed_refl (h : Store.heap) : newRegionClosed h h.
Proof. intros l c H1 H2. congruence. Qed.

Lemma newRegionClosed_trans (h h1 h2 : Store.heap) :
  h ⊆ h1 -> h1 ⊆ h2 ->
  newRegionClosed h h1 -> newRegionClosed h1 h2 -> newRegionClosed h h2.
Proof.
  intros H01 H12 C01 C12 l c Hl Hnew l' Hl'.
  destruct (h1 !! l) as [c1|] eqn:E.
  - pose proof (lookup_weaken _ _ _ _ E H12) as E2.
    rewrite Hl in E2. injection E2 as <-. exact (C01 l c E Hnew l' Hl').
  - apply (lookup_None_weaken h h1 l' H01). exact (C12 l c Hl E l' Hl').
Qed.

Lemma holds_weaken (h h1 : Store.heap) (r : Store.ref) (t : value) :
  h ⊆ h1 -> holds h r t -> holds h1 r t.
Proof.
  intros Hsub Hh fuel h'' Hfuel Hsub'. apply Hh; [exact Hfuel|].
  now transitivity h1.
Qed.

Lemma alloc_spec (c : Store.cell) (h : Store.heap) :
  exists l, Store.alloc c h = (<[l := c]> h, Store.RObj l) /\ h !! l = None.
Proof.
  exists (fresh (dom h)). split; [reflexivity|].
  apply not_elem_of_dom, is_fresh.
Qed.

Lemma elem_of_refs_arr (l : Store.loc) (rs : list Store.ref) :
  l ∈ Store.refsOf (Store.CArr rs) -> Store.RObj l ∈ rs.
Proof.
  simpl. intros H. apply list_elem_of_omap in H as (r & Hr & Hl).
  destruct r; try discriminate Hl. injection Hl as ->. exact Hr.
Qed.

Lemma elem_of_refs_obj (l : Store.loc) (rs : list (string * Store.ref)) :
  l ∈ Store.refsOf (Store.CObj rs) -> exists k, (k, Store.RObj l) ∈ rs.
Proof.
  simpl. intros H. apply list_elem_of_omap in H as ([k r] & Hr & Hl).
  simpl in Hl. destruct r; try discriminate Hl. injection Hl as ->. now exists k.
Qed.

(** The elements of an array, built one after the other. *)
Lemma storeList_spec (f : value -> Store.heap -> Store.heap * Store.ref)
    (items : list value) :
  Forall (fun x => forall h h' r, f x h = (h', r) -> built h x h' r) items ->
  forall h h1 rs,
    Store.storeList f items h = (h1, rs) ->
    h ⊆ h1 /\ Forall (freshRef h) rs /\ newRegionClosed h h1
    /\ Forall2 (holds h1) rs items
    /\ (size h + list_max (List.map depth items) <= size h1)%nat.
Proof.
  induction 1 as [|x l Hx _ IH]; intros h h1 rs Hs; simpl in Hs.
  - injection Hs as <- <-.
    split; [reflexivity|]. split; [constructor|].
    split; [apply newRegionClosed_refl|]. split; [constructor | simpl; lia].
  - destruct (f x h) as [ha r] eqn:Ef.
    destruct (Store.storeList f l ha) as [hb rs'] eqn:El.
    injection Hs as <- <-.
    destruct (Hx h ha r Ef) as (Ha & Fa & Ca & La & Sa).
    destruct (IH ha hb rs' El) as (Hb & Fb & Cb & Lb & Sb).
    split; [now transitivity ha|]. split; [|split; [|split]].
    + constructor; [exact Fa|].
      eapply Forall_impl; [exact Fb|]. intros r0. now apply freshRef_weaken.
    + now apply (newRegionClosed_trans h ha hb).
    + constructor; [now apply (holds_weaken ha hb) | exact Lb].
    + simpl. lia.
Qed.

Lemma storeProps_spec (f : value -> Store.heap -> Store.heap * Store.ref)
    (props : list (string * value)) :
  Forall (fun kv => forall h h' r, f kv.2 h = (h', r) -> built h kv.2 h' r) props ->
  forall h h1 rs,
    Store.storeProps f props h = (h1, rs) ->
    h ⊆ h1 /\ Forall (fun kr => freshRef h kr.2) rs /\ newRegionClosed h h1
    /\ Forall2 (fun kr kv => kr.1 = kv.1 /\ holds h1 kr.2 kv.2) rs props
    /\ (size h + list_max (List.map (fun kv => depth kv.2) props) <= size h1)%nat.
Proof.
  induction 1 as [|[k x] l Hx _ IH]; intros h h1 rs Hs; simpl in Hs.
  - injection Hs as <- <-.
    split; [reflexivity|]. split; [constructor|].
    split; [apply newRegionClosed_refl|]. split; [constructor | simpl; lia].
  - simpl in Hx. destruct (f x h) as [ha r] eqn:Ef.
    destruct (Store.storeProps f l ha) as [hb rs'] eqn:El.
    injection Hs as <- <-.
    destruct (Hx h ha r Ef) as (Ha & Fa & Ca & La & Sa).
    destruct (IH ha hb rs' El) as (Hb & Fb & Cb & Lb & Sb).
    split; [now transitivity ha|]. split; [|split; [|split]].
    + constructor; [exact Fa|].
      eapply Forall_impl; [exact Fb|]. intros r0. now apply freshRef_weaken.
    + now apply (newRegionClosed_trans h ha hb).
    + constructor; [split; [reflexivity | now apply (holds_weaken ha hb)] | exact Lb].
    + simpl. lia.
Qed.

Lemma holds_arr (h : Store.heap) (l : Store.loc) (rs : list Store.ref) (items : list value) :
  h !! l = Some (Store.CArr rs) ->
  Forall2 (holds h) rs items ->
  holds h (Store.RObj l) (VArr items).
Proof.
  intros Hl HF fuel h'' Hfuel Hsub. simpl in Hfuel.
  destruct fuel as [|fuel]; [lia|]. simpl.
  rewrite (lookup_weaken _ _ _ _ Hl Hsub).
  assert (HM : mapM (Store.load fuel h'') rs = Some items).
  { apply mapM_Some. clear Hl.
    induction HF as [|r x rs' items' Hr _ IH]; constructor.
    - apply Hr; [|exact Hsub]. simpl in Hfuel. lia.
    - apply IH. simpl in Hfuel. simpl. lia. }
  now rewrite HM.
Qed.

Lemma holds_obj (h : Store.heap) (l : Store.loc) (rs : list (string * Store.ref))
    (props : list (string * value)) :
  h !! l = Some (Store.CObj rs) ->
  Forall2 (fun kr kv => kr.1 = kv.1 /\ holds h kr.2 kv.2) rs props ->
  holds h (Store.RObj l) (VObj props).
Proof.
  intros Hl HF fuel h'' Hfuel Hsub. simpl in Hfuel.
  destruct fuel as [|fuel]; [lia|]. simpl.
  rewrite (lookup_weaken _ _ _ _ Hl Hsub).
  assert (HM : mapM (fun kr => pair kr.1 <$> Store.load fuel h'' kr.2) rs = Some props).
  { apply mapM_Some. clear Hl.
    induction HF as [|[k r] [k' x] rs' props' [Hk Hr] _ IH]; constructor.
    - simpl in *. subst k'. rewrite (Hr fuel h''); [reflexivity | lia | exact Hsub].
    - apply IH. simpl in Hfuel. simpl. lia. }
  now rewrite HM.
Qed.

(** Building a tree leaves every cell of the store as it was, uses only
    new cells, which point only to new cells, and reading the result gives
    the tree back. *)
Lemma store_spec (t : value) :
  forall h h' r, Store.store t h = (h', r) -> built h t h' r.
Proof.
  induction t as [| | b | n | s | items IH | props IH] using value_ind;
    intros h h' r Hs; simpl in Hs;
    try (injection Hs as <- <-; split; [reflexivity|];
         split; [intros l; discriminate|];
         split; [apply newRegionClosed_refl|];
         split; [intros [|fuel] h'' _ _; reflexivity | simpl; lia]).
  - destruct (Store.storeList Store.store items h) as [h1 rs] eqn:El.
    destruct (storeList_spec Store.store items IH h h1 rs El) as (H1 & F1 & C1 & L1 & S1).
    destruct (alloc_spec (Store.CArr rs) h1) as (l & Ha & Hl). rewrite Ha in Hs.
    injection Hs as <- <-.
    assert (Hext : h1 ⊆ <[l := Store.CArr rs]> h1) by now apply insert_subseteq.
    split; [now transitivity h1|]. split; [|split; [|split]].
    + intros l0 [= <-]. exact (lookup_None_weaken h h1 l H1 Hl).
    + intros l0 c Hc Hnew l' Hl'.
      destruct (decide (l0 = l)) as [->|Hne].
      * rewrite lookup_insert_eq in Hc. injection Hc as <-.
        apply elem_of_refs_arr in Hl'.
        rewrite Forall_forall in F1. exact (F1 _ Hl' l' eq_refl).
      * rewrite lookup_insert_ne in Hc by congruence. exact (C1 l0 c Hc Hnew l' Hl').
    + apply (holds_arr _ l rs items); [apply lookup_insert_eq|].
      eapply Forall2_impl; [exact L1|]. intros r0 x. now apply holds_weaken.
    + rewrite map_size_insert_None by exact Hl. simpl. lia.
  - destruct (Store.storeProps Store.store props h) as [h1 rs] eqn:El.
    destruct (storeProps_spec Store.store props IH h h1 rs El) as (H1 & F1 & C1 & L1 & S1).
    destruct (alloc_spec (Store.CObj rs) h1) as (l & Ha & Hl). rewrite Ha in Hs.
    injection Hs as <- <-.
    assert (Hext : h1 ⊆ <[l := Store.CObj rs]> h1) by now apply insert_subseteq.
    split; [now transitivity h1|]. split; [|split; [|split]].
    + intros l0 [= <-]. exact (lookup_None_weaken h h1 l H1 Hl).
    + intros l0 c Hc Hnew l' Hl'.
      destruct (decide (l0 = l)) as [->|Hne].
      * rewrite lookup_insert_eq in Hc. injection Hc as <-.
        apply elem_of_refs_obj in Hl' as [k Hk].
        rewrite Forall_forall in F1. exact (F1 _ Hk l' eq_refl).
      * rewrite lookup_insert_ne in Hc by congruence. exact (C1 l0 c Hc Hnew l' Hl').
    + apply (holds_obj _ l rs props); [apply lookup_insert_eq|].
      eapply Forall2_impl; [exact L1|]. intros kr kv [Hk Hh]. split; [exact Hk|].
      now apply (holds_weaken h1).
    + rewrite map_size_insert_None by exact Hl. simpl. lia.
Qed.

Lemma reachable_new (h h' : gmap positive Store.cell) (l l' : positive) :
  newRegionClosed h h' ->
  Store.reachable h' l l' -> h !! l = None -> h !! l' = None.
Proof.
  intros Hclosed Hreach. induction Hreach as [l|l l1 l2 c Hl Hin _ IH]; intros Hnew.
  - exact Hnew.
  - apply IH. exact (Hclosed l c Hl Hnew l1 Hin).
Qed.

Lemma load_primitive (fuel : nat) (h : gmap positive Store.cell) (r : Store.ref) :
  Store.locOf r = None ->
  exists t, Store.load fuel h r = Some t
            /\ truthy t = Store.truthy r /\ typeof_object t = Store.typeof_object r
            /\ Store.store t h = (h, r).
Proof.
  intros Hr. destruct r; try discriminate Hr; destruct fuel; eexists; repeat split.
Qed.

Lemma load_object (fuel : nat) (h : gmap positive Store.cell) (l : positive) (t : value) :
  Store.load fuel h (Store.RObj l) = Some t -> isObject t = true.
Proof.
  destruct fuel as [|fuel]; simpl; [discriminate|].
  destruct (h !! l) as [[items|props]|]; [| |discriminate].
  - destruct (mapM _ items); simpl; [intros [= <-]; reflexivity | discriminate].
  - destruct (mapM _ props); simpl; [intros [= <-]; reflexivity | discriminate].
Qed.

(** Reading a tree needs no more fuel than its depth. *)
Lemma load_enough (h : gmap positive Store.cell) (fuel0 : nat) :
  forall (r : Store.ref) (t : value),
    Store.load fuel0 h r = Some t ->
    forall fuel, (depth t <= fuel)%nat -> Store.load fuel h r = Some t.
Proof.
  induction fuel0 as [|fuel0 IH]; intros r t Hload fuel Hfuel.
  - destruct r; try discriminate Hload; destruct fuel; exact Hload.
  - destruct r as [| | b | n | s | l];
      try (destruct fuel; exact Hload).
    simpl in Hload. destruct (h !! l) as [[items|props]|] eqn:Hl; [| |discriminate].
    + destruct (mapM (Store.load fuel0 h) items) as [ts|] eqn:HM; [|discriminate].
      injection Hload as <-. simpl in Hfuel. destruct fuel as [|fuel]; [lia|].
      simpl. rewrite Hl.
      assert (HM' : mapM (Store.load fuel h) items = Some ts).
      { apply mapM_Some. apply mapM_Some in HM. clear Hl.
        induction HM as [|r0 t0 rs ts' Hr _ IHl]; constructor.
        - apply (IH r0 t0 Hr). simpl in Hfuel. lia.
        - apply IHl. simpl in Hfuel. simpl. lia. }
      now rewrite HM'.
    + destruct (mapM (fun kr => pair kr.1 <$> Store.load fuel0 h kr.2) props)
        as [ts|] eqn:HM; [|discriminate].
      injection Hload as <-. simpl in Hfuel. destruct fuel as [|fuel]; [lia|].
      simpl. rewrite Hl.
      assert (HM' : mapM (fun kr => pair kr.1 <$> Store.load fuel h kr.2) props = Some ts).
      { apply mapM_Some. apply mapM_Some in HM. clear Hl.
        induction HM as [|[k r0] [k' t0] rs ts' Hr _ IHl]; constructor.
        - simpl in *. destruct (Store.load fuel0 h r0) as [t1|] eqn:E; [|discriminate Hr].
          injection Hr as <- <-. rewrite (IH r0 t1 E); [reflexivity | lia].
        - apply IHl. simpl in Hfuel. simpl. lia. }
      now rewrite HM'.
Qed.

(** [cleanObject] returns whenever its argument can be read: a tree of
    depth at most [fuel]. *)
Lemma cleanObject_store_total (fuel0 fuel : nat) (h : gmap positive Store.cell)
    (obj : Store.ref) (redactKeys : list string) (maxSize : Z) (tree : value) :
  Store.load fuel0 h obj = Some tree ->
  (depth tree <= fuel)%nat ->
  exists h' out, Store.cleanObject fuel h obj redactKeys maxSize = Ok (h', out).
Proof.
  intros Hload Hfuel. unfold Store.cleanObject.
  destruct (negb (Store.truthy obj) || negb (Store.typeof_object obj)); [eauto|].
  rewrite (load_enough h fuel0 obj tree Hload fuel Hfuel).
  destruct (Store.store (redactProperty redactKeys EmptyString tree) h) as [h' cleaned].
  destruct (cleanObject_total tree redactKeys maxSize) as [out Hout].
  unfold cleanTree. rewrite Hout. simpl. eauto.
Qed.

(** C6: [cleanObject] leaves the caller's store as it was.  Every cell
    the store had before the call is there after it with the same content
    ([h ⊆ h']); a reference that is returned points to a cell made by the
    call, from which no cell of the caller can be reached; and the result,
    read from the store after the call, is the result of [cleanObject] on
    the tree that the argument held before the call. *)
Theorem cleanObject_store_frame (fuel : nat) (h h' : gmap positive Store.cell)
    (obj out : Store.ref) (redactKeys : list string) (maxSize : Z) :
  Store.cleanObject fuel h obj redactKeys maxSize = Ok (h', out) ->
  h ⊆ h'
  /\ (forall l c, h !! l = Some c -> h' !! l = Some c)
  /\ (forall l, out = Store.RObj l ->
        h !! l = None /\ forall l', Store.reachable h' l l' -> h !! l' = None)
  /\ (exists tree v,
        Store.load fuel h obj = Some tree
        /\ cleanObject tree redactKeys maxSize = Ok v
        /\ holds h' out v).
Proof.
  unfold Store.cleanObject.
  destruct (negb (Store.truthy obj) || negb (Store.typeof_object obj)) eqn:Hguard.
  - intros [= <- <-].
    assert (Hprim : Store.locOf obj = None) by (destruct obj; try reflexivity; discriminate Hguard).
    destruct (load_primitive fuel h obj Hprim) as (t & Hload & Ht & Ho & _).
    split; [reflexivity|]. split; [tauto|]. split.
    + intros l ->. discriminate Hprim.
    + exists t, t. split; [exact Hload|]. split.
      * unfold cleanObject. now rewrite Ht, Ho, Hguard.
      * intros fuel' h'' _ _.
        destruct (load_primitive fuel' h'' obj Hprim) as (t' & Hload' & _).
        rewrite Hload'. f_equal.
        destruct obj; try discriminate Hprim; destruct fuel, fuel';
          simpl in Hload, Hload'; congruence.
  - destruct obj as [| | b | n | s | l0]; simpl in Hguard;
      rewrite ?orb_true_r in Hguard; try discriminate Hguard.
    destruct (Store.load fuel h (Store.RObj l0)) as [tree|] eqn:Hload; [|discriminate].
    destruct (Store.store (redactProperty redactKeys EmptyString tree) h)
      as [h1 cleaned] eqn:Hstore.
    pose proof (load_object _ _ _ _ Hload) as Hobj.
    destruct (cleanObject_object_result tree redactKeys maxSize Hobj) as (v & Hv & Hshape).
    unfold cleanTree. rewrite Hv. cbn [bind]. intros [= <- <-].
    destruct (store_spec _ _ _ _ Hstore) as (Hsub & Hfresh & Hclosed & Hholds & Hsize).
    split; [exact Hsub|].
    split; [intros l c Hl; exact (lookup_weaken _ _ _ _ Hl Hsub)|].
    split.
    + intros l Hout.
      assert (Hcl : cleaned = Store.RObj l) by (destruct v; try discriminate Hout; exact Hout).
      split; [exact (Hfresh l Hcl)|].
      intros l' Hreach. exact (reachable_new h h1 l l' Hclosed Hreach (Hfresh l Hcl)).
    + exists tree, v. split; [reflexivity|]. split; [exact Hv|].
      destruct Hshape as [->|(compact & _ & ->)];
        [|intros [|fuel'] h'' _ _; reflexivity].
      destruct (redactProperty redactKeys EmptyString tree) eqn:Hred;
        try (simpl in Hstore; injection Hstore as <- <-;
             intros [|fuel'] h'' _ _; reflexivity);
        exact Hholds.
Qed.

Lemma cleanObject_store_frame_witness :
  exists h' l,
    Store.cleanObject 3 sampleStore (Store.RObj 1%positive) ["password"; "token"] 1000
      = Ok (h', Store.RObj l)
    /\ sampleStore ⊆ h'
    /\ sampleStore !! l = None
    /\ Store.load 3 h' (Store.RObj l)
       = Some (VObj [ ("name", VStr "John"); ("password", VStr REDACTED);
                      ("tags", VArr [VNum 1; VObj [("token", VStr REDACTED)]]) ]).
Proof.
  destruct (Store.cleanObject 3 sampleStore (Store.RObj 1%positive) ["password"; "token"] 1000)
    as [[h' out]|] eqn:Hrun; [|vm_compute in Hrun; discriminate Hrun].
  assert (Hout : out = Store.RObj 8%positive)
    by (vm_compute in Hrun; injection Hrun as _ <-; reflexivity).
  subst out.
  destruct (cleanObject_store_frame 3 sampleStore h' (Store.RObj 1%positive)
              (Store.RObj 8%positive) ["password"; "token"] 1000 Hrun)
    as (Hsub & _ & Hnew & (tree & v & Hload & Hv & Hback)).
  exists h', 8%positive. split; [reflexivity|]. split; [exact Hsub|].
  split; [exact (proj1 (Hnew 8%positive eq_refl))|].
  vm_compute in Hload. injection Hload as <-.
  vm_compute in Hv. injection Hv as <-.
  apply Hback; [vm_compute; lia | reflexivity].
Defined.

(** ** The embedding against the repository's test suite ([src/test.js])
    and against the reference digests of RFC 1321 *)

Example md5_rfc1321 :
  Md5.md5_hex EmptyString = "d41d8cd98f00b204e9800998ecf8427e"
  /\ Md5.md5_hex "a" = "0cc175b9c0f1b6a831c399e269772661"
  /\ Md5.md5_hex "abc" = "900150983cd24fb0d6963f7d28e17f72"
  /\ Md5.md5_hex "message digest" = "f96b697d7cb7938d525a2f31aaf161d0"
  /\ Md5.md5_hex "abcdefghijklmnopqrstuvwxyz" = "c3fcd3d76192e4007dfb496cca67e13b"
  /\ Md5.md5_hex "ABCDEFGHIJKLMNOPQRSTUVWXYZabcdefghijklmnopqrstuvwxyz0123456789"
     = "d174ab98d277d9f5a5611c2c9f419d9f"
  /\ Md5.md5_hex
       "12345678901234567890123456789012345678901234567890123456789012345678901234567890"
     = "57edf4a22be3c955ac49da2e2107b67a".
Proof. repeat split; vm_compute; reflexivity. Qed.

(** Test group 1: a basic error, no request. *)
Example test_basic_error :
  exists report,
    errorToMarkdown sampleEnv testBasicError VNull Options.empty = Ok report
    /\ includes report "## 🐛 Bug Report" = true
    /\ includes report "Test error message" = true
    /\ includes report "Stack Trace:" = true
    /\ includes report "Environment:" = true
    /\ includes report (node_version sampleEnv) = true
    /\ includes report "Request Details:" = false.
Proof. eexists. repeat split; vm_compute; reflexivity. Qed.

(** Test group 2: the request context and its redaction. *)
Example test_request_context :
  exists report,
    errorToMarkdown sampleEnv testBasicError testMockRequest Options.empty = Ok report
    /\ includes report "Request Details:" = true
    /\ includes report "POST" = true
    /\ includes report "/api/users" = true
    /\ includes report "John Doe" = true
    /\ includes report "[REDACTED]" = true
    /\ includes report "secret123" = false
    /\ includes report "token123" = false.
Proof. eexists. repeat split; vm_compute; reflexivity. Qed.

(** Test group 8: an empty message, and a body of 2000 characters. *)
Example test_edge_cases :
  exists empty large,
    errorToMarkdown sampleEnv (VObj [("message", VStr EmptyString); ("name", VStr "Error")])
                    VNull Options.empty = Ok empty
    /\ includes empty "Unknown Error" = true
    /\ errorToMarkdown sampleEnv testBasicError testLargeRequest Options.empty = Ok large
    /\ includes large "[TRUNCATED]" = true.
Proof. eexists _, _. repeat split; vm_compute; reflexivity. Qed.

(** Test groups 3 and 9: severity and themes. *)
Example test_themes :
  exists gh sl dc,
    errorToMarkdown sampleEnv testBasicError VNull (testThemeOptions "github") = Ok gh
    /\ includes gh "## 🐛 Bug Report" = true
    /\ errorToMarkdown sampleEnv testBasicError VNull (testThemeOptions "slack") = Ok sl
    /\ includes sl "*🐛 Bug Report*" = true
    /\ includes sl "🚨 CRITICAL" = true
    /\ errorToMarkdown sampleEnv testBasicError VNull (testThemeOptions "discord") = Ok dc
    /\ includes dc "## 🐛 Bug Report" = true.
Proof. eexists _, _, _. repeat split; vm_compute; reflexivity. Qed.

(** The block under a negative cap, which is an index from the end for
    [slice]: one line is dropped from the end and the marker is
    written. *)
Lemma stackBlock_negative_cap :
  stackBlock (VStr (framesStack 3)) (-1)
    = Ok [ Some FENCE;
           Some ("    at frame0" +:+ LF +:+ "    at frame1");
           Some TRUNCATED;
           Some FENCE ].
Proof. vm_compute. reflexivity. Qed.

(** * Further properties of the engine *)

(** ** Which keys the replacer redacts *)

Lemma prefix_split (x s : string) :
  String.prefix x s = true <-> exists b, s = x +:+ b.
Proof.
  revert x. induction s as [|c s IH]; intros x.
  - destruct x as [|a x]; simpl.
    + split; [intros _; now exists EmptyString | reflexivity].
    + split; [discriminate | intros [b Hb]; discriminate Hb].
  - destruct x as [|a x]; simpl.
    + split; [intros _; now exists (String c s) | reflexivity].
    + destruct (ascii_dec a c) as [->|Hne].
      * rewrite IH. split; intros [b Hb]; exists b.
        -- rewrite app_cons. now rewrite <- Hb.
        -- rewrite app_cons in Hb. now injection Hb.
      * split; [discriminate|]. intros [b Hb]. rewrite app_cons in Hb.
        injection Hb as Hc _. congruence.
Qed.

Lemma includes_split (s x : string) :
  includes s x = true <-> exists a b, s = a +:+ x +:+ b.
Proof.
  induction s as [|c s IH].
  - change (includes EmptyString x) with (String.prefix x EmptyString || false).
    rewrite orb_false_r, prefix_split. split.
    + intros [b Hb]. now exists EmptyString, b.
    + intros (a & b & Hab). destruct a as [|c a]; [now exists b|].
      rewrite app_cons in Hab. discriminate Hab.
  - change (includes (String c s) x) with (String.prefix x (String c s) || includes s x).
    rewrite orb_true_iff, prefix_split, IH. split.
    + intros [[b Hb]|(a & b & Hab)].
      * now exists EmptyString, b.
      * exists (String c a), b. rewrite app_cons. now rewrite Hab.
    + intros (a & b & Hab). destruct a as [|c' a].
      * left. now exists b.
      * right. rewrite app_cons in Hab. injection Hab as _ Hab. now exists a, b.
Qed.

(** X1: a key is redacted exactly when its lowercase form holds the
    lowercase form of some deny-list entry somewhere inside it: a
    substring match, not a match of the whole key. *)
Theorem isRedacted_substring (redactKeys : list string) (key : string) :
  isRedacted redactKeys key = true <->
  exists entry before after,
    In entry redactKeys
    /\ toLowerCase key = before +:+ toLowerCase entry +:+ after.
Proof.
  unfold isRedacted. rewrite existsb_exists. split.
  - intros (entry & Hin & Hinc). apply includes_split in Hinc as (a & b & Hab).
    now exists entry, a, b.
  - intros (entry & a & b & Hin & Hab). exists entry. split; [exact Hin|].
    apply includes_split. now exists a, b.
Qed.

Lemma lower_upper_char (c : ascii) : lowerChar (upperChar c) = lowerChar c.
Proof. destruct c as [[] [] [] [] [] [] [] []]; reflexivity. Qed.

Lemma toLowerCase_toUpperCase (s : string) : toLowerCase (toUpperCase s) = toLowerCase s.
Proof.
  induction s as [|c s IH]; [reflexivity|].
  simpl. now rewrite lower_upper_char, IH.
Qed.

(** X2: on ASCII text redaction does not look at letter case: for a key
    and deny-list entries made of ASCII characters, writing them in upper
    case changes nothing. *)
Theorem isRedacted_case_insensitive (redactKeys : list string) (key : string) :
  isAscii key = true ->
  forallb isAscii redactKeys = true ->
  isRedacted (List.map toUpperCase redactKeys) (toUpperCase key)
    = isRedacted redactKeys key.
Proof.
  intros _ _. unfold isRedacted. rewrite toLowerCase_toUpperCase.
  induction redactKeys as [|entry l IH]; [reflexivity|].
  simpl. now rewrite toLowerCase_toUpperCase, IH.
Qed.

Lemma isRedacted_case_insensitive_witness :
  isRedacted (List.map toUpperCase ["password"; "token"]) (toUpperCase "apiToken") = true
  /\ isRedacted ["password"; "token"] "apiToken" = true.
Proof.
  assert (H : isRedacted ["password"; "token"] "apiToken" = true) by reflexivity.
  split; [|exact H].
  rewrite (isRedacted_case_insensitive ["password"; "token"] "apiToken" eq_refl eq_refl).
  exact H.
Defined.

(** ** Redacting twice, and redacting nothing *)

Lemma redactElements_idem (redactKeys : list string) (items : list value) :
  Forall (fun x => forall key,
            redactProperty redactKeys key (redactProperty redactKeys key x)
              = redactProperty redactKeys key x) items ->
  forall i,
    redactElements redactKeys i (redactElements redactKeys i items)
      = redactElements redactKeys i items.
Proof.
  induction 1 as [|x l Hx _ IH]; intros i; [reflexivity|].
  simpl. rewrite IH. f_equal.
  unfold redactElement at 1 3. specialize (Hx (indexToString i)).
  destruct (isRedacted redactKeys (indexToString i)) eqn:Hk.
  - unfold redactElement. now rewrite !(redactProperty_redacted _ _ _ Hk).
  - unfold redactElement.
    destruct (redactProperty redactKeys (indexToString i) x) eqn:E;
      try (rewrite Hx; reflexivity).
    rewrite (redactProperty_leaf _ _ VNull Hk I). reflexivity.
Qed.

Lemma redactMembers_cons (redactKeys : list string) (k : string) (x : value)
    (l : list (string * value)) :
  redactMembers redactKeys ((k, x) :: l) =
    match redactProperty redactKeys k x with
    | VUndef => redactMembers redactKeys l
    | w => (k, w) :: redactMembers redactKeys l
    end.
Proof. reflexivity. Qed.

Lemma redactMembers_idem (redactKeys : list string) (props : list (string * value)) :
  Forall (fun kv => forall key,
            redactProperty redactKeys key (redactProperty redactKeys key kv.2)
              = redactProperty redactKeys key kv.2) props ->
  redactMembers redactKeys (redactMembers redactKeys props)
    = redactMembers redactKeys props.
Proof.
  induction 1 as [|[k x] l Hx _ IH]; [reflexivity|].
  simpl in Hx. specialize (Hx k). rewrite (redactMembers_cons redactKeys k x l).
  destruct (redactProperty redactKeys k x) eqn:E; try exact IH;
    rewrite redactMembers_cons, Hx, IH; reflexivity.
Qed.

Lemma redactProperty_idem (redactKeys : list string) (v : value) :
  forall key,
    redactProperty redactKeys key (redactProperty redactKeys key v)
      = redactProperty redactKeys key v.
Proof.
  induction v as [| | b | n | s | items IH | props IH] using value_ind; intros key;
    destruct (isRedacted redactKeys key) eqn:Hk;
    try (now rewrite !(redactProperty_redacted _ _ _ Hk));
    try (match goal with
         | |- redactProperty _ _ _ = redactProperty _ _ ?v =>
             now rewrite !(redactProperty_leaf redactKeys key v Hk I)
         end).
  - rewrite !(redactProperty_arr _ _ _ Hk). f_equal. now apply redactElements_idem.
  - rewrite !(redactProperty_obj _ _ _ Hk). f_equal. now apply redactMembers_idem.
Qed.

Lemma cleanObject_not_object (v : value) (redactKeys : list string) (maxSize : Z) :
  isObject v = false -> cleanObject v redactKeys maxSize = Ok v.
Proof.
  unfold cleanObject, isObject.
  destruct (truthy v), (typeof_object v); simpl; congruence.
Qed.

(** X3: [cleanObject] is idempotent: cleaning what [cleanObject] returned,
    with the same deny-list and cap, returns it unchanged. *)
Theorem cleanObject_idempotent (obj out : value) (redactKeys : list string) (maxSize : Z) :
  cleanObject obj redactKeys maxSize = Ok out ->
  cleanObject out redactKeys maxSize = Ok out.
Proof.
  intros Hrun. destruct (isObject obj) eqn:Hobj.
  - destruct (cleanObject_object_texts obj redactKeys Hobj)
      as (pretty & compact & Hp & Hc & _).
    rewrite (cleanObject_object obj redactKeys maxSize pretty compact Hobj Hp Hc) in Hrun.
    destruct (strlen pretty >? maxSize) eqn:Hsize; injection Hrun as <-;
      [apply cleanObject_not_object; unfold isObject; apply andb_false_r|].
    destruct (isObject (redactProperty redactKeys EmptyString obj)) eqn:Hobj'.
    + destruct (cleanObject_object_texts _ redactKeys Hobj')
        as (pretty' & compact' & Hp' & Hc' & _).
      rewrite (cleanObject_object _ redactKeys maxSize pretty' compact' Hobj' Hp' Hc').
      rewrite redactProperty_idem in Hp'. rewrite Hp in Hp'. injection Hp' as <-.
      now rewrite Hsize, redactProperty_idem.
    + now apply cleanObject_not_object.
  - rewrite (cleanObject_not_object obj redactKeys maxSize Hobj) in Hrun.
    injection Hrun as <-. now apply cleanObject_not_object.
Qed.

Lemma cleanObject_idempotent_witness :
  cleanObject (VObj [("user", VStr "ann"); ("password", VStr "[REDACTED]")])
              (Config.redact defaultOptions) 1000
    = Ok (VObj [("user", VStr "ann"); ("password", VStr "[REDACTED]")]).
Proof.
  apply (cleanObject_idempotent
           (VObj [("user", VStr "ann"); ("password", VStr "hunter2")])).
  vm_compute. reflexivity.
Defined.

Lemma redactElements_nothing (items : list value) :
  Forall (fun x => noUndefined x = true ->
                   forall key, redactProperty [] key x = x) items ->
  forallb noUndefined items = true ->
  forall i, redactElements [] i items = items.
Proof.
  induction 1 as [|x l Hx _ IH]; intros Hall i; [reflexivity|].
  simpl in Hall. apply andb_true_iff in Hall as [Hx' Hl].
  simpl. rewrite (IH Hl). f_equal. unfold redactElement.
  rewrite (Hx Hx'). destruct x; try reflexivity. discriminate Hx'.
Qed.

Lemma redactMembers_nothing (props : list (string * value)) :
  Forall (fun kv => noUndefined kv.2 = true ->
                    forall key, redactProperty [] key kv.2 = kv.2) props ->
  forallb (fun kv => noUndefined kv.2) props = true ->
  redactMembers [] props = props.
Proof.
  induction 1 as [|[k x] l Hx _ IH]; intros Hall; [reflexivity|].
  simpl in Hx, Hall. apply andb_true_iff in Hall as [Hx' Hl].
  rewrite redactMembers_cons, (Hx Hx'), (IH Hl).
  destruct x; try reflexivity. discriminate Hx'.
Qed.

Lemma redactProperty_nothing (v : value) :
  noUndefined v = true -> forall key, redactProperty [] key v = v.
Proof.
  induction v as [| | b | n | s | items IH | props IH] using value_ind;
    intros Hv key; try reflexivity.
  - rewrite (redactProperty_arr [] key items eq_refl). f_equal.
    now apply redactElements_nothing.
  - rewrite (redactProperty_obj [] key props eq_refl). f_equal.
    now apply redactMembers_nothing.
Qed.

(** X4: with an empty deny-list, an object that holds [undefined] nowhere
    and whose indented serialization fits the cap comes back as an equal
    copy: serializing and parsing again loses nothing. *)
Theorem cleanObject_nothing_to_redact (obj : value) (maxSize : Z) (pretty : string) :
  isObject obj = true ->
  noUndefined obj = true ->
  JSON_stringify_pretty obj = Some pretty ->
  strlen pretty <= maxSize ->
  cleanObject obj [] maxSize = Ok obj.
Proof.
  intros Hobj Hdef Hp Hfit.
  pose proof (redactProperty_nothing obj Hdef EmptyString) as Hid.
  destruct (cleanObject_object_texts obj [] Hobj) as (pretty' & compact & Hp' & Hc & _).
  rewrite (cleanObject_object obj [] maxSize pretty' compact Hobj Hp' Hc).
  rewrite Hid in Hp'. rewrite Hp in Hp'. injection Hp' as <-.
  destruct (Z.gtb_spec (strlen pretty) maxSize); [lia | now rewrite Hid].
Qed.

Lemma cleanObject_nothing_to_redact_witness :
  cleanObject (VObj [("a", VArr [VNum 1; VNull]); ("b", VObj [("c", VStr "x")])]) [] 1000
    = Ok (VObj [("a", VArr [VNum 1; VNull]); ("b", VObj [("c", VStr "x")])]).
Proof.
  eapply (cleanObject_nothing_to_redact _ 1000); [reflexivity | reflexivity | |].
  - vm_compute. reflexivity.
  - vm_compute. discriminate.
Defined.

(** X5: the cap on what [cleanObject] returns for an object, under a cap
    [maxSize >= 0]: either the redacted tree, whose indented serialization
    has at most [maxSize] characters, or a text of at most [maxSize]
    characters followed by the truncation marker. *)
Theorem cleanObject_bounded (obj out : value) (redactKeys : list string) (maxSize : Z) :
  isObject obj = true ->
  0 <= maxSize ->
  cleanObject obj redactKeys maxSize = Ok out ->
  (exists pretty,
     out = redactProperty redactKeys EmptyString obj
     /\ JSON_stringify_pretty out = Some pretty
     /\ strlen pretty <= maxSize)
  \/ (exists text,
        out = VStr (text +:+ TRUNCATED)
        /\ strlen text <= maxSize
        /\ strlen (text +:+ TRUNCATED) <= maxSize + 15).
Proof.
  intros Hobj Hcap Hrun.
  destruct (cleanObject_object_texts obj redactKeys Hobj)
    as (pretty & compact & Hp & Hc & _).
  rewrite (cleanObject_object obj redactKeys maxSize pretty compact Hobj Hp Hc) in Hrun.
  destruct (Z.gtb_spec (strlen pretty) maxSize) as [Hgt|Hle]; injection Hrun as <-.
  - right. exists (substring0 compact maxSize). split; [reflexivity|].
    pose proof (strlen_substring0 compact maxSize) as Hlen.
    rewrite strlen_app. change (strlen TRUNCATED) with 15. lia.
  - left. exists pretty. now repeat split.
Qed.

Lemma cleanObject_bounded_witness :
  (exists pretty,
     VStr ("{" +:+ DQUOTE +:+ "a" +:+ DQUOTE +:+ ":1}" +:+ TRUNCATED)
       = redactProperty [] EmptyString (VObj [("a", VNum 1)])
     /\ JSON_stringify_pretty
          (VStr ("{" +:+ DQUOTE +:+ "a" +:+ DQUOTE +:+ ":1}" +:+ TRUNCATED)) = Some pretty
     /\ strlen pretty <= 10)
  \/ (exists text,
        VStr ("{" +:+ DQUOTE +:+ "a" +:+ DQUOTE +:+ ":1}" +:+ TRUNCATED)
          = VStr (text +:+ TRUNCATED)
        /\ strlen text <= 10
        /\ strlen (text +:+ TRUNCATED) <= 10 + 15).
Proof.
  apply (cleanObject_bounded (VObj [("a", VNum 1)]) _ [] 10);
    [reflexivity | lia | vm_compute; reflexivity].
Defined.

(** ** The stack block outside the usual case *)

Lemma split_nonempty (s : string) (c : ascii) : exists h t, split s c = h :: t.
Proof.
  induction s as [|a s (h & t & IH)]; simpl; [eauto|].
  destruct (Ascii.eqb a c); [eauto|]. rewrite IH. eauto.
Qed.

Lemma split_cons_other (a c : ascii) (s h : string) (t : list string) :
  Ascii.eqb a c = false -> split s c = h :: t ->
  split (String a s) c = String a h :: t.
Proof. intros Hne Hs. simpl. now rewrite Hne, Hs. Qed.

(** Joining the lines of a text gives the text back. *)
Lemma join_split (s : string) (c : ascii) :
  join (split s c) (String c EmptyString) = s.
Proof.
  induction s as [|a s IH]; [reflexivity|].
  destruct (split_nonempty s c) as (h & t & Hs). rewrite Hs in IH.
  destruct (Ascii.eqb a c) eqn:Hac.
  - apply Ascii.eqb_eq in Hac. subst a. simpl. rewrite Ascii.eqb_refl, Hs.
    rewrite join_cons2, IH. reflexivity.
  - rewrite (split_cons_other a c s h t Hac Hs).
    destruct t as [|y t].
    + unfold join in *. simpl in *. now rewrite IH.
    + rewrite join_cons2 in *. rewrite app_cons. now rewrite IH.
Qed.

(** X6: a stack of at most [maxStackLines] lines is written between the
    fences exactly as it is, and no truncation marker is written. *)
Theorem stackBlock_verbatim (s : string) (maxStackLines : Z) :
  isEmpty s = false ->
  Z.of_nat (length (split s "010"%char)) <= maxStackLines ->
  stackBlock (VStr s) maxStackLines = Ok [Some FENCE; Some s; Some FENCE].
Proof.
  intros Hs Hfit. rewrite (stackBlock_eq (VStr s) maxStackLines eq_refl).
  unfold sourceLines. rewrite Hs.
  rewrite slice0_nonneg by lia. rewrite firstn_all2 by lia.
  change LF with (String "010"%char EmptyString). rewrite join_split.
  destruct (Z.gtb_spec (Z.of_nat (length (split s "010"%char))) maxStackLines) as [Hgt|_];
    [lia|].
  rewrite andb_false_r. reflexivity.
Qed.

Lemma stackBlock_verbatim_witness :
  stackBlock (VStr ("Error: boom" +:+ LF +:+ "    at x.js:1:1")) 50
    = Ok [ Some FENCE; Some ("Error: boom" +:+ LF +:+ "    at x.js:1:1"); Some FENCE ].
Proof.
  apply (stackBlock_verbatim ("Error: boom" +:+ LF +:+ "    at x.js:1:1") 50);
    [reflexivity | vm_compute; discriminate].
Defined.

(** X7: under a negative [maxStackLines], [slice] counts from the end: of
    [n] lines the first [n + maxStackLines] are shown (none when that is
    not positive), and the truncation marker is written whenever there is
    a stack. *)
Theorem stackBlock_negative (stack : value) (maxStackLines : Z) :
  textOrAbsent stack = true ->
  maxStackLines < 0 ->
  exists shown,
    stackBlock stack maxStackLines
      = Ok ([Some FENCE; Some (join shown LF)]
            ++ when (truthy stack) [Some TRUNCATED] ++ [Some FENCE])
    /\ shown = take (Z.to_nat (Z.of_nat (length (sourceLines stack)) + maxStackLines))
                    (sourceLines stack)
    /\ Z.of_nat (length shown)
       = Z.max 0 (Z.of_nat (length (sourceLines stack)) + maxStackLines).
Proof.
  intros Htext Hneg. eexists. split; [|split; [reflexivity|]].
  - rewrite (stackBlock_eq stack maxStackLines Htext). unfold slice0.
    destruct (Z.ltb_spec maxStackLines 0); [|lia].
    destruct (Z.gtb_spec (Z.of_nat (length (sourceLines stack))) maxStackLines); [|lia].
    rewrite andb_true_r. reflexivity.
  - rewrite length_take. lia.
Qed.

Lemma stackBlock_negative_witness :
  exists shown,
    stackBlock (VStr (framesStack 3)) (-1)
      = Ok ([Some FENCE; Some (join shown LF)]
            ++ when (truthy (VStr (framesStack 3))) [Some TRUNCATED] ++ [Some FENCE])
    /\ shown = take (Z.to_nat (Z.of_nat (length (sourceLines (VStr (framesStack 3)))) + -1))
                    (sourceLines (VStr (framesStack 3)))
    /\ Z.of_nat (length shown)
       = Z.max 0 (Z.of_nat (length (sourceLines (VStr (framesStack 3)))) + -1).
Proof.
  apply (stackBlock_negative (VStr (framesStack 3)) (-1)); [reflexivity | lia].
Defined.

(** ** Theme and severity names that no object inherits *)

Lemma assoc_In {A : Type} (k : string) (a : A) (l : list (string * A)) :
  assoc k l = Some a -> In a (List.map snd l).
Proof.
  induction l as [|[k' a'] l IH]; [discriminate|].
  simpl. destruct (String.eqb k k').
  - intros [= ->]. now left.
  - intros H. right. now apply IH.
Qed.

(** X8: for every theme name that is not the name of a member of
    [Object.prototype], the theme is resolved to one of the three themes:
    the one of that name, and [github] when there is none. *)
Theorem resolveTheme_not_inherited (name : string) :
  inb name Object_prototype = false ->
  exists t,
    resolveTheme name = Own t
    /\ In t [github; slack; discord]
    /\ (assoc name themes = None -> t = github)
    /\ (forall t', assoc name themes = Some t' -> t = t').
Proof.
  intros Hinh. destruct (assoc name themes) as [t|] eqn:Hown.
  - exists t. split; [now apply tableGetOr_own|].
    split; [exact (assoc_In name t themes Hown)|].
    split; [discriminate | now intros t' [= <-]].
  - exists github. split; [now apply tableGetOr_fallback|].
    split; [now left|]. split; [reflexivity | discriminate].
Qed.

Lemma resolveTheme_not_inherited_witness :
  exists t,
    resolveTheme "Slack" = Own t
    /\ In t [github; slack; discord]
    /\ (assoc "Slack" themes = None -> t = github)
    /\ (forall t', assoc "Slack" themes = Some t' -> t = t').
Proof. apply (resolveTheme_not_inherited "Slack"). reflexivity. Defined.



(** ** The figures of the metrics *)

Lemma roundDiv_nearest (n d : Z) :
  0 < d -> Z.abs (2 * (n - d * roundDiv n d)) <= d.
Proof.
  intros Hd. unfold roundDiv.
  pose proof (Z.div_mod (2 * n + d) (2 * d) ltac:(lia)) as Hdm.
  pose proof (Z.mod_pos_bound (2 * n + d) (2 * d) ltac:(lia)) as Hm.
  lia.
Qed.

(** X10: every figure of the metrics is the nearest whole number of its
    unit: megabytes for the memory counters, milliseconds for the CPU
    times, seconds for the uptime, each at most half a unit away from the
    counter. *)
Theorem getPerformanceMetrics_nearest (env : Env) :
  exists mb_rss mb_used mb_total ms_user ms_system s_up,
    m_rss (getPerformanceMetrics env) = numberToString mb_rss +:+ "MB"
    /\ m_heapUsed (getPerformanceMetrics env) = numberToString mb_used +:+ "MB"
    /\ m_heapTotal (getPerformanceMetrics env) = numberToString mb_total +:+ "MB"
    /\ m_user (getPerformanceMetrics env) = numberToString ms_user +:+ "ms"
    /\ m_system (getPerformanceMetrics env) = numberToString ms_system +:+ "ms"
    /\ m_uptime (getPerformanceMetrics env) = numberToString s_up +:+ "s"
    /\ Z.abs (2 * (rss env - 1048576 * mb_rss)) <= 1048576
    /\ Z.abs (2 * (heapUsed env - 1048576 * mb_used)) <= 1048576
    /\ Z.abs (2 * (heapTotal env - 1048576 * mb_total)) <= 1048576
    /\ Z.abs (2 * (cpu_user env - 1000 * ms_user)) <= 1000
    /\ Z.abs (2 * (cpu_system env - 1000 * ms_system)) <= 1000
    /\ Z.abs (2 * (uptime_ms env - 1000 * s_up)) <= 1000.
Proof.
  exists (roundDiv (rss env) (1024 * 1024)), (roundDiv (heapUsed env) (1024 * 1024)),
         (roundDiv (heapTotal env) (1024 * 1024)), (roundDiv (cpu_user env) 1000),
         (roundDiv (cpu_system env) 1000), (roundDiv (uptime_ms env) 1000).
  repeat (split; [reflexivity|]).
  repeat split;
    first [ apply (roundDiv_nearest _ (1024 * 1024)); lia
          | apply (roundDiv_nearest _ 1000); lia ].
Qed.

(** ** What a report depends on *)

Lemma assoc_updateAssoc_other {A : Type} (k k' : string) (f : A -> A)
    (l : list (string * A)) :
  String.eqb k' k = false -> assoc k' (updateAssoc k f l) = assoc k' l.
Proof.
  intros Hne. induction l as [|[k0 a] l IH]; [reflexivity|].
  simpl. destruct (String.eqb k k0) eqn:Hk; simpl.
  - apply String.eqb_eq in Hk. subst k0. now rewrite Hne.
  - now rewrite IH.
Qed.

Lemma assoc_updateAssoc_same {A : Type} (k : string) (f : A -> A) (l : list (string * A)) :
  assoc k (updateAssoc k f l) = f <$> assoc k l.
Proof.
  induction l as [|[k0 a] l IH]; [reflexivity|].
  simpl. destruct (String.eqb k k0) eqn:Hk; simpl; rewrite Hk; [reflexivity | exact IH].
Qed.

Lemma length_updateAssoc {A : Type} (k : string) (f : A -> A) (l : list (string * A)) :
  length (updateAssoc k f l) = length l.
Proof.
  induction l as [|[k0 a] l IH]; [reflexivity|].
  simpl. destruct (String.eqb k k0); simpl; congruence.
Qed.

Lemma getPropOpt_update_other (s s' : string) (q : list step) (w req : value) :
  String.eqb s' s = false ->
  getPropOpt (updatePath (Key s :: q) w req) s' = getPropOpt req s'.
Proof.
  intros Hne. destruct req; try reflexivity.
  simpl. now rewrite assoc_updateAssoc_other.
Qed.

Lemma getPropOpt_update_same (s : string) (q : list step) (w req : value) :
  updatePath q w VUndef = VUndef ->
  getPropOpt (updatePath (Key s :: q) w req) s = updatePath q w (getPropOpt req s).
Proof.
  intros Hq. destruct req; try (symmetry; exact Hq).
  simpl. rewrite assoc_updateAssoc_same. destruct (assoc s props); [reflexivity|].
  symmetry. exact Hq.
Qed.

Lemma truthy_update (s : string) (q : list step) (w req : value) :
  truthy (updatePath (Key s :: q) w req) = truthy req.
Proof. destruct req; reflexivity. Qed.

Lemma nonEmpty_update (p : list step) (s : step) (w v : value) :
  truthy (updatePath (p ++ [s]) w v) = truthy v
  /\ keysLength (updatePath (p ++ [s]) w v) = keysLength v.
Proof.
  destruct (lookupPath_app_nonempty p s) as (s' & p' & ->).
  destruct s', v; simpl; try (split; reflexivity).
  - now rewrite length_updateAssoc.
  - now rewrite length_alter.
Qed.

Lemma errorData_update (err req : value) (section : string) (q : list step) (w : value) :
  String.eqb "originalUrl" section = false ->
  String.eqb "url" section = false ->
  String.eqb "method" section = false ->
  errorData err (updatePath (Key section :: q) w req) = errorData err req.
Proof.
  intros H1 H2 H3. unfold errorData.
  now rewrite (getPropOpt_update_other section "originalUrl" q w req H1),
              (getPropOpt_update_other section "url" q w req H2),
              (getPropOpt_update_other section "method" q w req H3).
Qed.

(** The [user-agent] of the headers after an update that does not start
    at it. *)
Lemma userAgent_update (p : list step) (k : string) (w headers : value) :
  hd (Key k) p <> Key "user-agent" ->
  getPropOpt (updatePath (p ++ [Key k]) w headers) "user-agent"
    = getPropOpt headers "user-agent".
Proof.
  intros Hfirst.
  assert (Hne : forall k0, Key k0 <> Key "user-agent" -> String.eqb "user-agent" k0 = false).
  { intros k0 Hk0. apply String.eqb_neq. intros <-. now apply Hk0. }
  destruct p as [|[k0|i] p]; simpl in Hfirst.
  - apply (getPropOpt_update_other k "user-agent" [] w headers (Hne k Hfirst)).
  - apply (getPropOpt_update_other k0 "user-agent" (p ++ [Key k]) w headers (Hne k0 Hfirst)).
  - destruct headers; reflexivity.
Qed.

Ltac other_keys section :=
  try rewrite (getPropOpt_update_other section "method" _ _ _ eq_refl);
  try rewrite (getPropOpt_update_other section "originalUrl" _ _ _ eq_refl);
  try rewrite (getPropOpt_update_other section "url" _ _ _ eq_refl);
  try rewrite (getPropOpt_update_other section "ip" _ _ _ eq_refl);
  try rewrite (getPropOpt_update_other section "connection" _ _ _ eq_refl);
  try rewrite (getPropOpt_update_other section "headers" _ _ _ eq_refl);
  try rewrite (getPropOpt_update_other section "body" _ _ _ eq_refl);
  try rewrite (getPropOpt_update_other section "query" _ _ _ eq_refl);
  try rewrite (getPropOpt_update_other section "params" _ _ _ eq_refl).

Lemma requestLines_update (theme : slot Theme) (config : Config.t) (req : value)
    (section : string) (p : list step) (k : string) (w : value) :
  section = "body" \/ section = "query" \/ section = "headers" ->
  (section = "headers" -> hd (Key k) p <> Key "user-agent") ->
  isRedacted (Config.redact config) k = true ->
  requestLines theme config (updatePath (Key section :: p ++ [Key k]) w req)
    = requestLines theme config req.
Proof.
  intros Hsection Hagent Hk.
  pose proof (updatePath_guard p (Key k) w VUndef eq_refl) as Hundef.
  unfold requestLines. rewrite truthy_update.
  destruct (negb (truthy req)); [reflexivity|].
  destruct Hsection as [->|[->| ->]].
  - rewrite (getPropOpt_update_same "body" _ w req Hundef).
    other_keys "body".
    destruct (nonEmpty_update p (Key k) w (getPropOpt req "body")) as [-> ->].
    now rewrite (cleanObject_update _ k w p _ _ Hk).
  - rewrite (getPropOpt_update_same "query" _ w req Hundef).
    other_keys "query".
    destruct (nonEmpty_update p (Key k) w (getPropOpt req "query")) as [-> ->].
    now rewrite (cleanObject_update _ k w p _ _ Hk).
  - rewrite (getPropOpt_update_same "headers" _ w req Hundef).
    other_keys "headers".
    rewrite (userAgent_update p k w _ (Hagent eq_refl)).
    now rewrite (cleanObject_update _ k w p _ _ Hk).
Qed.

(** X11: the report does not depend on what a request holds under a
    redacted key of its body, its query or its headers, at any depth:
    replacing that value by any other leaves every character of the report
    as it was (the fingerprint included).  Under the headers the path must
    not start at [user-agent], which is also printed on a line of its
    own. *)
Theorem errorToMarkdown_secret_independent (env : Env) (err req : value)
    (options : Options.t) (section : string) (p : list step) (k : string) (w : value) :
  section = "body" \/ section = "query" \/ section = "headers" ->
  (section = "headers" -> hd (Key k) p <> Key "user-agent") ->
  isRedacted (Config.redact (mergeOptions defaultOptions options)) k = true ->
  errorToMarkdown env err (updatePath (Key section :: p ++ [Key k]) w req) options
    = errorToMarkdown env err req options.
Proof.
  intros Hsection Hagent Hk. unfold errorToMarkdown, reportLines, generateErrorId.
  rewrite (requestLines_update _ _ req section p k w Hsection Hagent Hk).
  rewrite (errorData_update err req section (p ++ [Key k]) w);
    [reflexivity | | |]; destruct Hsection as [->|[->| ->]]; reflexivity.
Qed.

Lemma errorToMarkdown_secret_independent_witness :
  errorToMarkdown sampleEnv testBasicError
      (updatePath (Key "headers" :: [] ++ [Key "authorization"]) (VStr "Bearer other")
         testMockRequest) Options.empty
    = errorToMarkdown sampleEnv testBasicError testMockRequest Options.empty.
Proof.
  apply (errorToMarkdown_secret_independent sampleEnv testBasicError testMockRequest
           Options.empty "headers" [] "authorization" (VStr "Bearer other")).
  - right. right. reflexivity.
  - intros _. discriminate.
  - reflexivity.
Defined.

(** X12: with the timestamp, the environment section and the generation
    time switched off, the report is a function of the error, the request
    and the options alone: it is the same at every time and in every
    process. *)
Theorem errorToMarkdown_environment_independent (env env' : Env) (err req : value)
    (options : Options.t) :
  Options.includeTimestamp options = Some false ->
  Options.includeEnvironment options = Some false ->
  Options.includePerformance options = Some false ->
  errorToMarkdown env err req options = errorToMarkdown env' err req options.
Proof.
  intros Hts Henv Hperf. unfold errorToMarkdown, reportLines.
  set (config := mergeOptions defaultOptions options).
  assert (Hts' : Config.includeTimestamp config = false)
    by (unfold config, mergeOptions; simpl; now rewrite Hts).
  assert (Henv' : Config.includeEnvironment config = false)
    by (unfold config, mergeOptions; simpl; now rewrite Henv).
  assert (Hperf' : Config.includePerformance config = false)
    by (unfold config, mergeOptions; simpl; now rewrite Hperf).
  unfold environmentLines, performanceLines. rewrite Hts', Henv', Hperf'. reflexivity.
Qed.

Lemma errorToMarkdown_environment_independent_witness :
  errorToMarkdown sampleEnv sampleError sampleRequest
      (Options.Make None (Some false) (Some false) (Some false)
                    None None None None None None None None)
    = errorToMarkdown (MkEnv "1970-01-01T00:00:00.000Z" 0 "v0" "none" "none" None
                             0 0 0 0 0 0 0)
        sampleError sampleRequest
        (Options.Make None (Some false) (Some false) (Some false)
                      None None None None None None None None).
Proof.
  apply (errorToMarkdown_environment_independent sampleEnv
           (MkEnv "1970-01-01T00:00:00.000Z" 0 "v0" "none" "none" None 0 0 0 0 0 0 0)
           sampleError sampleRequest); reflexivity.
Defined.

(** X13: in every report built for a request, the [User Agent] line (the
    fifth of the request section) shows the header as it is, whatever the
    deny-list: a deny-list that covers [user-agent] redacts it in the
    headers block only. *)
Theorem reportLines_user_agent_unredacted (env : Env) (err req : value)
    (options : Options.t) (md : list line) :
  truthy req = true ->
  Config.includeUserAgent (mergeOptions defaultOptions options) = true ->
  truthy (getPropOpt (getPropOpt req "headers") "user-agent") = true ->
  reportLines env err req options = Ok md ->
  exists before section after agent,
    md = before ++ section ++ after
    /\ requestLines (resolveTheme (Config.theme (mergeOptions defaultOptions options)))
         (mergeOptions defaultOptions options) req = Ok section
    /\ toStr (getPropOpt (getPropOpt req "headers") "user-agent") = Ok agent
    /\ section !! 4%nat = Some (Some ("- **User Agent:** `" +:+ agent +:+ BT)).
Proof.
  intros Hreq Hon Hagent Hmd.
  destruct (reportLines_request env err req options md Hmd)
    as (before & section & after & Hsection & Hprint & Heq).
  exists before, section, after,
         (textOf (getPropOpt (getPropOpt req "headers") "user-agent")).
  split; [exact Heq|]. split; [exact Hsection|].
  destruct (requestLines_blocks
              (resolveTheme (Config.theme (mergeOptions defaultOptions options)))
              (mergeOptions defaultOptions options) req Hreq Hprint)
    as (cb & cq & ch & _ & _ & _ & Hlines).
  rewrite Hlines in Hsection. apply Ok_inj in Hsection. subst section. split.
  - apply toStr_printable. unfold requestPrintable in Hprint.
    rewrite Hreq, Hon in Hprint. cbn [negb orb] in Hprint.
    now apply andb_prop in Hprint as [_ Hprint].
  - rewrite Hon, Hagent. reflexivity.
Qed.

Lemma reportLines_user_agent_unredacted_witness :
  isRedacted ["agent"] "user-agent" = true
  /\ exists md before section after,
       reportLines sampleEnv testBasicError testMockRequest agentOptions = Ok md
       /\ md = before ++ section ++ after
       /\ section !! 4%nat = Some (Some "- **User Agent:** `Mozilla/5.0`")
       /\ cleanObject (getPropOpt testMockRequest "headers") ["agent"] 1000
          = Ok (VObj [ ("content-type", VStr "application/json");
                       ("authorization", VStr "Bearer token123");
                       ("user-agent", VStr REDACTED) ]).
Proof.
  split; [reflexivity|].
  destruct (reportLines sampleEnv testBasicError testMockRequest agentOptions)
    as [md|e] eqn:Hmd; [|vm_compute in Hmd; discriminate Hmd].
  destruct (reportLines_user_agent_unredacted sampleEnv testBasicError testMockRequest
              agentOptions md eq_refl eq_refl eq_refl Hmd)
    as (before & section & after & agent & Heq & _ & Hagent & Hline).
  injection Hagent as <-.
  exists md, before, section, after.
  split; [reflexivity|]. split; [exact Heq|]. split; [exact Hline|].
  vm_compute. reflexivity.
Defined.

(** ** The fingerprint reads the first line of the stack only *)

Lemma hd_split_cons (a c : ascii) (s : string) :
  Ascii.eqb a c = false ->
  hd EmptyString (split (String a s) c) = String a (hd EmptyString (split s c)).
Proof.
  intros Hne. simpl. rewrite Hne.
  destruct (split_nonempty s c) as (h & t & ->). reflexivity.
Qed.

Lemma hd_split_app (s rest : string) (c : ascii) :
  hd EmptyString (split (s +:+ String c rest) c) = hd EmptyString (split s c).
Proof.
  induction s as [|a s IH].
  - rewrite app_empty_l. simpl. now rewrite Ascii.eqb_refl.
  - rewrite app_cons. destruct (Ascii.eqb a c) eqn:Hac.
    + simpl. now rewrite Hac.
    + now rewrite !(hd_split_cons a c _ Hac), IH.
Qed.

(** X14: two errors that differ only after the first line of their stacks
    get the same fingerprint: appending lines to the stack changes
    nothing. *)
Theorem generateErrorId_first_line_only (err req : value) (s more : string) :
  getPropOpt err "stack" = VStr s ->
  generateErrorId (updatePath [Key "stack"] (VStr (s +:+ LF +:+ more)) err) req
    = generateErrorId err req.
Proof.
  intros Hstack. unfold generateErrorId. f_equal.
  destruct err; try discriminate Hstack.
  unfold errorData, getProp, getPropOpt in *. cbn [updatePath].
  rewrite (assoc_updateAssoc_other "stack" "message" _ props eq_refl).
  rewrite assoc_updateAssoc_same.
  destruct (assoc "stack" props) as [stack|]; [|discriminate Hstack].
  simpl in Hstack. subst stack. cbn [fmap option_fmap option_map default bind].
  unfold firstStackLine. change LF with (String "010"%char EmptyString).
  rewrite app_cons, app_empty_l. cbv beta iota delta [id]. now rewrite hd_split_app.
Qed.

Lemma generateErrorId_first_line_only_witness :
  generateErrorId
      (updatePath [Key "stack"]
         (VStr (("Error: boom" +:+ LF +:+ "    at x.js:1:1") +:+ LF +:+ "    at y.js:2:2"))
         sampleError) sampleRequest
    = generateErrorId sampleError sampleRequest.
Proof.
  apply (generateErrorId_first_line_only sampleError sampleRequest
           ("Error: boom" +:+ LF +:+ "    at x.js:1:1") "    at y.js:2:2").
  reflexivity.
Defined.

(** ** Errors rebuilt from JSON ([createErrorFromObject]) *)

Lemma createErrorFromObject_eq (captured : string) (errorObj : value) :
  nullish errorObj = false ->
  printable (getPropOpt errorObj "message") = true ->
  createErrorFromObject captured errorObj
    = Ok (VObj [ ("message",
                  VStr (textOf (or_else (getPropOpt errorObj "message")
                                        (VStr "Unknown error"))));
                 ("name", or_else (getPropOpt errorObj "name") (VStr "Error"));
                 ("stack", or_else (getPropOpt errorObj "stack") (VStr captured));
                 ("code", getPropOpt errorObj "code") ]).
Proof.
  intros Hn Hp. unfold createErrorFromObject. rewrite !(getProp_defined _ _ Hn).
  cbn [bind]. rewrite (toStr_printable (or_else _ (VStr "Unknown error")));
    [reflexivity | now rewrite printable_or_else].
Qed.

(** A message that cannot be converted: [new Error] throws. *)
Lemma createErrorFromObject_unprintable (captured : string) (errorObj : value) :
  printable (getPropOpt errorObj "message") = false ->
  createErrorFromObject captured errorObj = Throw TypeError.
Proof.
  intros Hp. unfold createErrorFromObject. destruct (nullish errorObj) eqn:Hn.
  - now rewrite (getProp_nullish _ _ Hn).
  - rewrite !(getProp_defined _ _ Hn). cbn [bind].
    rewrite (toStr_unprintable (or_else _ (VStr "Unknown error")));
      [reflexivity | now rewrite printable_or_else].
Qed.

(** X15: parsed JSON goes through [createErrorFromObject] and
    [errorToMarkdown] to a report exactly when it is neither [null] nor
    [undefined], its [stack] is falsy, absent or a string, and the values
    written as text (its message, name and code; the method, the URL, the
    address and the user agent of the request) can be converted to a
    string; any other input makes the pipeline throw. *)
Theorem createErrorFromObject_reportable (captured : string) (env : Env)
    (errorObj req : value) (options : Options.t) :
  (exists report,
     (let! error := createErrorFromObject captured errorObj in
      errorToMarkdown env error req options) = Ok report)
  <-> nullish errorObj = false
      /\ (truthy (getPropOpt errorObj "stack") = false
          \/ exists s, getPropOpt errorObj "stack" = VStr s)
      /\ errorPrintable errorObj = true
      /\ requestPrintable (mergeOptions defaultOptions options) req = true.
Proof.
  destruct (nullish errorObj) eqn:Hn.
  { split; [|intros [[=] _]].
    intros [report H]. unfold createErrorFromObject in H.
    rewrite (getProp_nullish _ _ Hn) in H. discriminate H. }
  destruct (printable (getPropOpt errorObj "message")) eqn:Hm.
  2: { rewrite (createErrorFromObject_unprintable captured errorObj Hm).
       split; [intros [report [=]]|].
       intros (_ & _ & He & _). unfold errorPrintable in He. rewrite Hm in He.
       discriminate He. }
  rewrite (createErrorFromObject_eq captured errorObj Hn Hm). cbn [bind].
  set (error := VObj _).
  assert (Hstack : getPropOpt error "stack"
                   = or_else (getPropOpt errorObj "stack") (VStr captured))
    by reflexivity.
  assert (Hprint : errorPrintable error = errorPrintable errorObj).
  { unfold errorPrintable. rewrite Hm.
    change (getPropOpt error "message") with (VStr (textOf (or_else
              (getPropOpt errorObj "message") (VStr "Unknown error")))).
    change (getPropOpt error "name")
      with (or_else (getPropOpt errorObj "name") (VStr "Error")).
    change (getPropOpt error "code") with (getPropOpt errorObj "code").
    now rewrite (printable_or_else _ (VStr "Error") eq_refl). }
  rewrite <- Hprint. unfold errorToMarkdown.
  pose proof (reportLines_domain env error req options) as Hdom.
  split.
  - intros [report H].
    destruct (reportLines env error req options) as [md|e] eqn:Hmd; [|discriminate H].
    destruct (proj1 Hdom (ex_intro _ md eq_refl)) as (_ & Hs & He & Hr).
    split; [reflexivity|]. split; [|now split].
    destruct (truthy (getPropOpt errorObj "stack")) eqn:Ht; [|now left].
    right. unfold stackIsText in Hs. rewrite Hstack, (or_else_truthy _ _ Ht) in Hs.
    destruct Hs as [Hs|[Hs _]]; [|congruence].
    destruct (getPropOpt errorObj "stack"); try discriminate; eauto.
  - intros (_ & Hs & He & Hr).
    destruct (proj2 Hdom) as [md ->]; [|cbn [bind]; eauto].
    split; [reflexivity|]. split; [|now split].
    left. unfold stackIsText. rewrite Hstack.
    destruct Hs as [Hf|[s Hs]].
    + now rewrite (or_else_falsy _ _ Hf).
    + rewrite Hs. unfold or_else. destruct (truthy (VStr s)); reflexivity.
Qed.

Lemma typeLines_default (name : value) :
  typeLines (or_else name (VStr "Error")) = typeLines name.
Proof.
  unfold or_else. destruct (truthy name) eqn:Ht; [reflexivity|].
  unfold typeLines. now rewrite Ht.
Qed.

(** X16: an object that has a message (a string that is not empty) and a
    stack gives, through [createErrorFromObject], the report that it gives
    when it is passed to [errorToMarkdown] directly: same text, same
    fingerprint, or the same exception. *)
Theorem createErrorFromObject_transparent (captured : string) (env : Env)
    (errorObj req : value) (options : Options.t) (message : string) :
  nullish errorObj = false ->
  getPropOpt errorObj "message" = VStr message ->
  isEmpty message = false ->
  truthy (getPropOpt errorObj "stack") = true ->
  (let! error := createErrorFromObject captured errorObj in
   errorToMarkdown env error req options)
    = errorToMarkdown env errorObj req options.
Proof.
  intros Hn Hm Hne Hs.
  rewrite (createErrorFromObject_eq captured errorObj Hn); [|now rewrite Hm].
  cbn [bind]. rewrite Hm, (or_else_truthy _ _ Hs).
  assert (Hmt : truthy (VStr message) = true)
    by (unfold truthy; unfold isEmpty in Hne; now rewrite Hne).
  rewrite (or_else_truthy _ _ Hmt).
  change (textOf (VStr message)) with message.
  set (error := VObj _).
  unfold errorToMarkdown, reportLines, generateErrorId, errorData.
  rewrite !(getProp_defined errorObj _ Hn), Hm.
  change (getProp error "message") with (@Ok value (VStr message)).
  change (getProp error "stack") with (@Ok value (getPropOpt errorObj "stack")).
  change (getProp error "code") with (@Ok value (getPropOpt errorObj "code")).
  change (getProp error "name")
    with (@Ok value (or_else (getPropOpt errorObj "name") (VStr "Error"))).
  cbn [bind]. now rewrite typeLines_default.
Qed.

Lemma createErrorFromObject_transparent_witness :
  (let! error := createErrorFromObject "Error: boom" sampleError in
   errorToMarkdown sampleEnv error sampleRequest Options.empty)
    = errorToMarkdown sampleEnv sampleError sampleRequest Options.empty.
Proof.
  apply (createErrorFromObject_transparent "Error: boom" sampleEnv sampleError
           sampleRequest Options.empty "boom"); reflexivity.
Defined.

(** ** The Express middleware *)

Lemma mergeOptions_asOptions (c : Config.t) :
  mergeOptions defaultOptions (asOptions c) = c.
Proof. destruct c as [? ? ? ? ? ? ? ? ? ? ? [v|]]; reflexivity. Qed.

(** Merging the defaults in twice is merging them in once. *)
Lemma errorToMarkdown_merged (env : Env) (err req : value) (options : Options.t) :
  errorToMarkdown env err req (asOptions (mergeOptions defaultOptions options))
    = errorToMarkdown env err req options.
Proof.
  unfold errorToMarkdown, reportLines. now rewrite mergeOptions_asOptions.
Qed.

Lemma errorToMarkdown_not_nullish (env : Env) (err req : value) (options : Options.t)
    (markdown : string) :
  errorToMarkdown env err req options = Ok markdown -> nullish err = false.
Proof.
  intros H. destruct (nullish err) eqn:Hn; [|reflexivity].
  rewrite (errorToMarkdown_nullish env err req options Hn) in H. discriminate H.
Qed.

Lemma errorToMarkdown_fingerprint (env : Env) (err req : value) (options : Options.t)
    (markdown : string) :
  errorToMarkdown env err req options = Ok markdown ->
  Config.generateErrorId (mergeOptions defaultOptions options) = true ->
  exists id md,
    generateErrorId err req = Ok id
    /\ reportLines env err req options = Ok md
    /\ md !! 1%nat = Some (Some ("**Error ID:** `" +:+ id +:+ BT)).
Proof.
  unfold errorToMarkdown. intros H Hon.
  destruct (reportLines env err req options) as [md|e] eqn:Hmd; [|discriminate H].
  destruct (reportLines_inv env err req options md Hmd)
    as (_ & errorId & mp & tp & cp & sp & rp & Herr & _ & _ & _ & _ & _ & ->).
  rewrite Hon in Herr. destruct Herr as (id & Hid & ->).
  destruct (generateErrorId_inv err req id Hid) as (data & text & _ & _ & Hshape).
  exists id. eexists. split; [exact Hid|]. split; [reflexivity|].
  subst id. reflexivity.
Qed.

Lemma jsonBody_returns (env : Env) (err req : value) (options : Options.t)
    (markdown : string) :
  errorToMarkdown env err req options = Ok markdown ->
  exists body, jsonBody env (mergeOptions defaultOptions options) err req = Ok body.
Proof.
  intros H. pose proof (errorToMarkdown_not_nullish _ _ _ _ _ H) as Hn.
  unfold jsonBody. destruct (NODE_ENV env) as [mode|]; [|eauto].
  destruct (String.eqb mode "development"); [|eauto].
  rewrite (getProp_defined _ _ Hn). cbn [bind].
  destruct (Config.generateErrorId (mergeOptions defaultOptions options)) eqn:Hon;
    [|cbn [bind]; eauto].
  destruct (errorToMarkdown_fingerprint _ _ _ _ _ H Hon) as (id & md & -> & _).
  cbn [bind]. eauto.
Qed.

(** The handler, once the report is built. *)
Lemma expressErrorToMd_eq (mw : Middleware.t) (env : Env) (err req : value)
    (headersSent : bool) (markdown : string) :
  errorToMarkdown env err req (Middleware.options mw) = Ok markdown ->
  exists body,
    jsonBody env (mergeOptions defaultOptions (Middleware.options mw)) err req = Ok body
    /\ expressErrorToMd mw env err req headersSent
       = Ok ([ConsoleError (LF +:+ markdown +:+ LF)]
             ++ (if Middleware.logger mw then [LoggerCall markdown err req] else [])
             ++ (if headersSent then []
                 else ResStatus (or_else (or_else (getPropOpt err "status")
                                                  (getPropOpt err "statusCode"))
                                         (VNum 500))
                      :: (if Middleware.sendMarkdown mw
                          then [ResType "text/markdown"; ResSend markdown]
                          else [ResJson body]))).
Proof.
  intros H. destruct (jsonBody_returns _ _ _ _ _ H) as [body Hbody].
  exists body. split; [exact Hbody|].
  pose proof (errorToMarkdown_not_nullish _ _ _ _ _ H) as Hn.
  unfold expressErrorToMd. rewrite errorToMarkdown_merged, H. cbn [bind].
  destruct headersSent; [now rewrite app_nil_r|].
  rewrite !(getProp_defined _ _ Hn). cbn [bind].
  destruct (Middleware.sendMarkdown mw).
  - now rewrite <- app_assoc.
  - rewrite Hbody. cbn [bind]. now rewrite <- app_assoc.
Qed.

Lemma expressErrorToMd_inv (mw : Middleware.t) (env : Env) (err req : value)
    (headersSent : bool) (effects : list effect) :
  expressErrorToMd mw env err req headersSent = Ok effects ->
  exists markdown, errorToMarkdown env err req (Middleware.options mw) = Ok markdown.
Proof.
  unfold expressErrorToMd. rewrite errorToMarkdown_merged.
  destruct (errorToMarkdown env err req (Middleware.options mw)); [eauto | discriminate].
Qed.

(** X17: the handler returns exactly when [errorToMarkdown], called with
    the options given to [expressErrorToMd], returns; what it then writes
    to the console first is that report between two line feeds.  When
    [errorToMarkdown] throws, the handler throws before it has logged or
    sent anything. *)
Theorem expressErrorToMd_logs_report (mw : Middleware.t) (env : Env) (err req : value)
    (headersSent : bool) :
  match errorToMarkdown env err req (Middleware.options mw) with
  | Ok markdown =>
      exists rest,
        expressErrorToMd mw env err req headersSent
          = Ok (ConsoleError (LF +:+ markdown +:+ LF) :: rest)
  | Throw e => expressErrorToMd mw env err req headersSent = Throw e
  end.
Proof.
  destruct (errorToMarkdown env err req (Middleware.options mw)) as [markdown|e] eqn:H.
  - destruct (expressErrorToMd_eq mw env err req headersSent markdown H)
      as (body & _ & ->). eauto.
  - unfold expressErrorToMd. now rewrite errorToMarkdown_merged, H.
Qed.



(** X19: outside development (any [NODE_ENV] but [development], or none)
    the JSON the handler sends holds the constant [error] member and
    nothing else: neither the message of the error, nor its fingerprint,
    nor any part of the report. *)
Theorem expressErrorToMd_production_body (mw : Middleware.t) (env : Env) (err req : value)
    (effects : list effect) :
  expressErrorToMd mw env err req false = Ok effects ->
  Middleware.sendMarkdown mw = false ->
  (forall mode, NODE_ENV env = Some mode -> String.eqb mode "development" = false) ->
  List.filter onResponse effects
    = [ ResStatus (or_else (or_else (getPropOpt err "status") (getPropOpt err "statusCode"))
                           (VNum 500));
        ResJson (VObj [("error", VStr "Internal Server Error")]) ].
Proof.
  intros Hrun Hjson Hmode.
  destruct (expressErrorToMd_inv _ _ _ _ _ _ Hrun) as [markdown H].
  destruct (expressErrorToMd_eq mw env err req false markdown H) as (body & Hbody & Heq).
  rewrite Heq in Hrun. injection Hrun as <-. rewrite Hjson.
  assert (body = VObj [("error", VStr "Internal Server Error")]) as ->.
  { revert Hbody. unfold jsonBody. destruct (NODE_ENV env) as [mode|]; [|congruence].
    rewrite (Hmode mode eq_refl). congruence. }
  destruct (Middleware.logger mw); reflexivity.
Qed.

Lemma expressErrorToMd_production_body_witness :
  List.filter onResponse
    (match expressErrorToMd (Middleware.Make Options.empty false false)
             (MkEnv "2024-01-01T00:00:00.000Z" 1500 "v20.0.0" "linux" "x64"
                    (Some "production") 0 0 0 0 0 0 0)
             sampleError sampleRequest false with
     | Ok effects => effects
     | Throw _ => []
     end)
    = [ ResStatus (VNum 500); ResJson (VObj [("error", VStr "Internal Server Error")]) ].
Proof.
  destruct (expressErrorToMd (Middleware.Make Options.empty false false)
              (MkEnv "2024-01-01T00:00:00.000Z" 1500 "v20.0.0" "linux" "x64"
                     (Some "production") 0 0 0 0 0 0 0)
              sampleError sampleRequest false) as [effects|e] eqn:Hrun;
    [|vm_compute in Hrun; discriminate].
  apply (expressErrorToMd_production_body _ _ _ _ _ Hrun eq_refl).
  intros mode [= <-]. reflexivity.
Defined.

(** X20: in development the fingerprint in the JSON body is the one on
    the [Error ID] line of the report that was logged, and the message is
    [err.message] as it is. *)
Theorem expressErrorToMd_development_body (mw : Middleware.t) (env : Env) (err req : value)
    (effects : list effect) :
  expressErrorToMd mw env err req false = Ok effects ->
  Middleware.sendMarkdown mw = false ->
  NODE_ENV env = Some "development" ->
  Config.generateErrorId (mergeOptions defaultOptions (Middleware.options mw)) = true ->
  exists id md,
    reportLines env err req (Middleware.options mw) = Ok md
    /\ hd_error effects = Some (ConsoleError (LF +:+ joinLines md LF +:+ LF))
    /\ md !! 1%nat = Some (Some ("**Error ID:** `" +:+ id +:+ BT))
    /\ last effects
       = Some (ResJson (VObj [ ("error", VStr "Internal Server Error");
                               ("message", getPropOpt err "message");
                               ("errorId", VStr id) ])).
Proof.
  intros Hrun Hjson Hdev Hon.
  destruct (expressErrorToMd_inv _ _ _ _ _ _ Hrun) as [markdown H].
  destruct (expressErrorToMd_eq mw env err req false markdown H) as (body & Hbody & Heq).
  rewrite Heq in Hrun. injection Hrun as <-. rewrite Hjson.
  destruct (errorToMarkdown_fingerprint _ _ _ _ _ H Hon) as (id & md & Hid & Hmd & Hline).
  exists id, md. split; [exact Hmd|].
  assert (markdown = joinLines md LF) as ->
    by (unfold errorToMarkdown in H; rewrite Hmd in H; now injection H as <-).
  split; [reflexivity|]. split; [exact Hline|].
  assert (body = VObj [ ("error", VStr "Internal Server Error");
                        ("message", getPropOpt err "message");
                        ("errorId", VStr id) ]) as ->.
  { revert Hbody. unfold jsonBody. rewrite Hdev, Hon, Hid.
    rewrite (getProp_defined _ _ (errorToMarkdown_not_nullish _ _ _ _ _ H)).
    cbn. congruence. }
  destruct (Middleware.logger mw); reflexivity.
Qed.

Lemma expressErrorToMd_development_body_witness :
  exists id md,
    reportLines (MkEnv "2024-01-01T00:00:00.000Z" 1500 "v20.0.0" "linux" "x64"
                       (Some "development") 0 0 0 0 0 0 0)
      sampleError sampleRequest Options.empty = Ok md
    /\ md !! 1%nat = Some (Some ("**Error ID:** `" +:+ id +:+ BT))
    /\ id = "ERR-07ACC959".
Proof.
  set (env := MkEnv "2024-01-01T00:00:00.000Z" 1500 "v20.0.0" "linux" "x64"
                    (Some "development") 0 0 0 0 0 0 0).
  destruct (expressErrorToMd (Middleware.Make Options.empty false false) env
              sampleError sampleRequest false) as [effects|e] eqn:Hrun;
    [|vm_compute in Hrun; discriminate].
  destruct (expressErrorToMd_development_body _ _ _ _ _ Hrun eq_refl eq_refl eq_refl)
    as (id & md & Hmd & _ & Hline & Hlast).
  exists id, md. split; [exact Hmd|]. split; [exact Hline|].
  vm_compute in Hrun. injection Hrun as <-. vm_compute in Hlast. now injection Hlast as <-.
Defined.

(** ** The wrapper of asynchronous handlers *)

(** X21: when the wrapped handler rejects with an error that is neither
    [null] nor [undefined], whose stack is absent or a string, and when the
    values written as text (the message, the name and the code of the
    error; the method, the URL, the address and the user agent of the
    request) can be converted to a string, the wrapper logs the report of
    that error and then calls [next] once, with the error itself; when the
    handler is fulfilled the wrapper does nothing. *)
Theorem asyncErrorToMd_forwards (options : Options.t) (env : Env) (req err : value) :
  nullish err = false ->
  stackIsText err = true ->
  errorPrintable err = true ->
  requestPrintable (mergeOptions defaultOptions options) req = true ->
  exists markdown,
    errorToMarkdown env err req options = Ok markdown
    /\ asyncErrorToMd options env req (Rejected err)
       = Ok [ConsoleError (LF +:+ markdown +:+ LF); NextCall err]
    /\ asyncErrorToMd options env req Fulfilled = Ok [].
Proof.
  intros Hn Ht He Hr. unfold asyncErrorToMd, errorToMarkdown.
  destruct (reportLines_total env err req options Hn Ht He Hr) as [md ->].
  cbn [bind]. eauto.
Qed.

Lemma asyncErrorToMd_forwards_witness :
  exists markdown,
    errorToMarkdown sampleEnv (VStr "plain text error") sampleRequest Options.empty
      = Ok markdown
    /\ asyncErrorToMd Options.empty sampleEnv sampleRequest (Rejected (VStr "plain text error"))
       = Ok [ConsoleError (LF +:+ markdown +:+ LF); NextCall (VStr "plain text error")]
    /\ asyncErrorToMd Options.empty sampleEnv sampleRequest Fulfilled = Ok [].
Proof.
  apply (asyncErrorToMd_forwards Options.empty sampleEnv sampleRequest
           (VStr "plain text error")); reflexivity.
Defined.

(** X22: a handler that rejects with [null] or [undefined], or with an
    error whose [stack] is [true], a number other than zero, an array or
    an object, makes the wrapper throw: nothing is logged and the
    rejection never reaches [next]. *)
Theorem asyncErrorToMd_unreported (options : Options.t) (env : Env) (req err : value) :
  nullish err = true
  \/ (truthy (getPropOpt err "stack") = true
      /\ textOrAbsent (getPropOpt err "stack") = false) ->
  exists e, asyncErrorToMd options env req (Rejected err) = Throw e.
Proof.
  intros Hbad. unfold asyncErrorToMd, errorToMarkdown.
  destruct (reportLines env err req options) as [md|e] eqn:Hmd; [|cbn [bind]; eauto].
  exfalso. destruct Hbad as [Hn|[Ht Hs]].
  - pose proof (errorToMarkdown_nullish env err req options Hn) as H.
    unfold errorToMarkdown in H. rewrite Hmd in H. discriminate H.
  - exact (reportLines_stack_not_text env err req options md Ht Hs Hmd).
Qed.

Lemma asyncErrorToMd_unreported_witness :
  exists e, asyncErrorToMd Options.empty sampleEnv sampleRequest (Rejected VNull) = Throw e.
Proof.
  apply (asyncErrorToMd_unreported Options.empty sampleEnv sampleRequest VNull).
  left. reflexivity.
Defined.

(** ** The domain of [errorToMarkdown] *)

(** X23: [errorToMarkdown] returns a report exactly for an error that is
    neither [null] nor [undefined], whose [stack] is absent, [null] or a
    string, or is [false] or zero while no fingerprint is asked for, and
    when the values written as text (the message, the name and the code of
    the error; for a request, its method, the URL and the address shown,
    and the user agent when it is shown) can be converted to a string; on
    every other input it throws. *)
Theorem errorToMarkdown_domain (env : Env) (err req : value) (options : Options.t) :
  (exists report, errorToMarkdown env err req options = Ok report)
  <-> nullish err = false
      /\ (stackIsText err = true
          \/ (truthy (getPropOpt err "stack") = false
              /\ Config.generateErrorId (mergeOptions defaultOptions options) = false))
      /\ errorPrintable err = true
      /\ requestPrintable (mergeOptions defaultOptions options) req = true.
Proof.
  rewrite <- (reportLines_domain env err req options). unfold errorToMarkdown. split.
  - intros [report H].
    destruct (reportLines env err req options) as [md|e]; [eauto | discriminate H].
  - intros [md ->]. cbn [bind]. eauto.
Qed.

(** ** The command line *)

Lemma parseLoop_post_refl (st : Cli.parsed) : parseLoop_post [] st (Cli.Parsed st).
Proof. repeat split; intros; now left. Qed.

(** One more argument in front, read as a flag or as a value. *)
Lemma parseLoop_post_skip (arg : string) (args : list string) (st st' : Cli.parsed)
    (r : Cli.arguments) :
  (Cli.showDemo st' = true -> Cli.showDemo st = true \/ arg = "--demo") ->
  (Cli.includeEnvironment (Cli.opts st') = false ->
   Cli.includeEnvironment (Cli.opts st) = false \/ arg = "--no-env") ->
  (Cli.includeTimestamp (Cli.opts st') = false ->
   Cli.includeTimestamp (Cli.opts st) = false \/ arg = "--no-timestamp") ->
  (forall f, Cli.inputFile st' = Some f ->
   Cli.inputFile st = Some f \/ (arg = f /\ String.prefix "-" f = false)) ->
  parseLoop_post args st' r -> parseLoop_post (arg :: args) st r.
Proof.
  intros Hd He Ht Hf. destruct r as [printed|p]; simpl.
  - intros [[-> [H|H]]|[-> [H|H]]]; [left|left|right|right]; (split; [reflexivity|]);
      tauto.
  - intros (Pd & Pe & Pt & Pf). split; [|split; [|split]].
    + intros H. destruct (Pd H) as [H'|H']; [destruct (Hd H'); auto | auto].
    + intros H. destruct (Pe H) as [H'|H']; [destruct (He H'); auto | auto].
    + intros H. destruct (Pt H) as [H'|H']; [destruct (Ht H'); auto | auto].
    + intros f H. destruct (Pf f H) as [H'|[H' Hp]].
      * destruct (Hf f H') as [?|[? ?]]; auto.
      * auto.
Qed.

Lemma parseLoop_post_value (arg v : string) (args : list string) (st : Cli.parsed)
    (r : Cli.arguments) :
  parseLoop_post args st r -> parseLoop_post (arg :: v :: args) st r.
Proof.
  intros H. apply (parseLoop_post_skip arg (v :: args) st st); try (intros; now left).
  apply (parseLoop_post_skip v args st st); try (intros; now left). exact H.
Qed.

Lemma parseLoop_exits (args : list string) (st : Cli.parsed) (printed : string) :
  (printed = Cli.helpText /\ (In "-h" args \/ In "--help" args))
  \/ (printed = "v1.0.0" /\ (In "-v" args \/ In "--version" args)) ->
  parseLoop_post args st (Cli.Exit0 printed).
Proof. intros H. exact H. Qed.

Lemma parseLoop_spec (n : nat) :
  forall (args : list string) (st : Cli.parsed),
    (length args <= n)%nat -> parseLoop_post args st (Cli.parseLoop args st).
Proof.
  induction n as [|n IH]; intros [|arg rest] st Hlen; simpl in Hlen;
    try apply parseLoop_post_refl; try lia.
  assert (Hrest : forall st', parseLoop_post rest st' (Cli.parseLoop rest st'))
    by (intros st'; apply IH; lia).
  assert (Hrest' : forall v rest' st', rest = v :: rest' ->
            parseLoop_post rest' st' (Cli.parseLoop rest' st')).
  { intros v rest' st' ->. apply IH. simpl in Hlen. lia. }
  cbn [Cli.parseLoop].
  destruct (String.eqb arg "-h") eqn:E1.
  { apply String.eqb_eq in E1. subst arg. left. split; [reflexivity|]. left. now left. }
  destruct (String.eqb arg "--help") eqn:E2.
  { apply String.eqb_eq in E2. subst arg. left. split; [reflexivity|]. right. now left. }
  destruct (String.eqb arg "-v") eqn:E3.
  { apply String.eqb_eq in E3. subst arg. right. split; [reflexivity|]. left. now left. }
  destruct (String.eqb arg "--version") eqn:E4.
  { apply String.eqb_eq in E4. subst arg. right. split; [reflexivity|]. right. now left. }
  cbn [orb].
  destruct (String.eqb arg "--demo") eqn:E5.
  { apply String.eqb_eq in E5.
    apply (parseLoop_post_skip arg rest st (Cli.setShowDemo st)); auto. }
  assert (Hvalue : forall f : option string -> Cli.parsed,
            (forall v, Cli.showDemo (f v) = Cli.showDemo st) ->
            (forall v, Cli.includeEnvironment (Cli.opts (f v))
                       = Cli.includeEnvironment (Cli.opts st)) ->
            (forall v, Cli.includeTimestamp (Cli.opts (f v))
                       = Cli.includeTimestamp (Cli.opts st)) ->
            (forall v, Cli.inputFile (f v) = Cli.inputFile st) ->
            parseLoop_post (arg :: rest) st
              match rest with
              | v :: rest' => Cli.parseLoop rest' (f (Some v))
              | [] => Cli.Parsed (f None)
              end).
  { intros f Hd He Ht Hf. destruct rest as [|v rest'].
    - apply (parseLoop_post_skip arg [] st (f None));
        [rewrite Hd | rewrite He | rewrite Ht | intros g; rewrite Hf | ]; auto;
        apply parseLoop_post_refl.
    - apply (parseLoop_post_skip arg (v :: rest') st (f (Some v)));
        [rewrite Hd | rewrite He | rewrite Ht | intros g; rewrite Hf | ]; auto.
      apply (parseLoop_post_skip v rest' (f (Some v)) (f (Some v))); auto;
        apply (Hrest' v rest' _ eq_refl). }
  destruct (String.eqb arg "-o" || String.eqb arg "--output").
  { apply (Hvalue (fun v => Cli.setOutputFile v st)); reflexivity. }
  destruct (String.eqb arg "-t" || String.eqb arg "--theme").
  { apply (Hvalue (fun v => Cli.setOptions (Cli.setTheme v) st)); reflexivity. }
  destruct (String.eqb arg "--severity").
  { apply (Hvalue (fun v => Cli.setOptions (Cli.setSeverity v) st)); reflexivity. }
  destruct (String.eqb arg "--app-version").
  { apply (Hvalue (fun v => Cli.setOptions (Cli.setAppVersion v) st)); reflexivity. }
  destruct (String.eqb arg "--no-env") eqn:E6.
  { apply String.eqb_eq in E6.
    apply (parseLoop_post_skip arg rest st (Cli.setOptions Cli.noEnvironment st)); auto. }
  destruct (String.eqb arg "--no-timestamp") eqn:E7.
  { apply String.eqb_eq in E7.
    apply (parseLoop_post_skip arg rest st (Cli.setOptions Cli.noTimestamp st)); auto. }
  destruct (String.prefix "-" arg) eqn:E8.
  { apply (parseLoop_post_skip arg rest st st); auto. }
  apply (parseLoop_post_skip arg rest st (Cli.setInputFile arg st)); auto.
  intros f [= <-]. right. now split.
Qed.

(** X24: [parseArgs] ends the process only on a help or version flag
    among the arguments, printing the help or the version; what it returns
    otherwise comes from the arguments: the demo is on only if [--demo] is
    among them, the environment and the timestamp are off only if
    [--no-env] and [--no-timestamp] are, and the input file is one of the
    arguments and does not start with a dash. *)
Theorem parseArgs_sound (argv : list string) :
  match Cli.parseArgs argv with
  | Cli.Exit0 printed =>
      (printed = Cli.helpText /\ (In "-h" (drop 2 argv) \/ In "--help" (drop 2 argv)))
      \/ (printed = "v1.0.0" /\ (In "-v" (drop 2 argv) \/ In "--version" (drop 2 argv)))
  | Cli.Parsed p =>
      (Cli.showDemo p = true -> In "--demo" (drop 2 argv))
      /\ (Cli.includeEnvironment (Cli.opts p) = false -> In "--no-env" (drop 2 argv))
      /\ (Cli.includeTimestamp (Cli.opts p) = false -> In "--no-timestamp" (drop 2 argv))
      /\ (forall f, Cli.inputFile p = Some f ->
          In f (drop 2 argv) /\ String.prefix "-" f = false)
  end.
Proof.
  unfold Cli.parseArgs.
  pose proof (parseLoop_spec (length (drop 2 argv)) (drop 2 argv) Cli.initial
                (Nat.le_refl _)) as H.
  destruct (Cli.parseLoop (drop 2 argv) Cli.initial) as [printed|p]; [exact H|].
  destruct H as (Hd & He & Ht & Hf). split; [|split; [|split]].
  - intros H. destruct (Hd H) as [H'|H']; [discriminate H' | exact H'].
  - intros H. destruct (He H) as [H'|H']; [discriminate H' | exact H'].
  - intros H. destruct (Ht H) as [H'|H']; [discriminate H' | exact H'].
  - intros f H. destruct (Hf f H) as [H'|H']; [discriminate H' | exact H'].
Qed.

Lemma demo_returns (env : Env) (o : Cli.options) :
  exists markdown, Cli.generateDemo env o = Ok markdown.
Proof.
  unfold Cli.generateDemo, errorToMarkdown.
  destruct (reportLines_total env Cli.demoError Cli.demoRequest
              (Cli.toOptions o (Some "2.1.3")) eq_refl eq_refl eq_refl eq_refl)
    as [md ->].
  cbn [bind]. eauto.
Qed.

(** X25: the demo cannot fail in the engine: whatever theme, severity
    and version the arguments give (an unknown name, or none after the
    flag), [--demo] builds a report; it is printed, or written to the
    output file when one is given and can be written, and the exit code
    is 0. *)
Theorem main_demo (w : Cli.World) (p : Cli.parsed) :
  Cli.parseArgs (Cli.argv w) = Cli.Parsed p ->
  Cli.showDemo p = true ->
  (forall path, Cli.given (Cli.outputFile p) = Some path -> Cli.writes w path = None) ->
  exists markdown,
    Cli.generateDemo (Cli.env w) (Cli.opts p) = Ok markdown
    /\ Cli.main w
       = (match Cli.given (Cli.outputFile p) with
          | Some path => [Cli.WriteFile path markdown; Cli.Saved path]
          | None => [Cli.Log markdown]
          end, 0).
Proof.
  intros Hparse Hdemo Hwrite.
  destruct (demo_returns (Cli.env w) (Cli.opts p)) as [markdown Hmd].
  exists markdown. split; [exact Hmd|].
  unfold Cli.main. rewrite Hparse, Hdemo. unfold Cli.finish. rewrite Hmd.
  cbn [Cli.lift Cli.andThen]. unfold Cli.emit.
  destruct (Cli.given (Cli.outputFile p)) as [path|] eqn:Hout; [|reflexivity].
  now rewrite (Hwrite path eq_refl).
Qed.

Lemma main_demo_witness :
  exists markdown,
    Cli.main (Cli.MkWorld ["node"; "cli.js"; "--demo"; "-t"; "constructor"; "--severity"]
                (fun _ => Cli.Garbled) true None (fun _ => None) sampleEnv "Error")
      = ([Cli.Log markdown], 0).
Proof.
  destruct (main_demo
              (Cli.MkWorld ["node"; "cli.js"; "--demo"; "-t"; "constructor"; "--severity"]
                 (fun _ => Cli.Garbled) true None (fun _ => None) sampleEnv "Error")
              (Cli.MkParsed None None
                 (Cli.MkOptions (Some "constructor") true true None None) true)
              eq_refl eq_refl (fun _ _ => eq_refl)) as (markdown & _ & Hmain).
  exists markdown. exact Hmain.
Defined.

Lemma emit_cases (w : Cli.World) (outputFile : option string) (r : Cli.attempt string) :
  match Cli.andThen r (Cli.emit w outputFile) with
  | Cli.Done written =>
      (exists text, written = [Cli.Log text])
      \/ (exists path text,
            written = [Cli.WriteFile path text; Cli.Saved path]
            /\ Cli.writes w path = None)
  | Cli.Caught _ => True
  end.
Proof.
  destruct r as [markdown|e]; [|exact I]. cbn [Cli.andThen]. unfold Cli.emit.
  destruct (Cli.given outputFile) as [path|]; [|left; eauto].
  destruct (Cli.writes w path) eqn:Hw; [exact I|]. right. eauto.
Qed.

Lemma tips_deliver_nothing (e : Cli.exn) : existsb Cli.delivers (Cli.tips e) = false.
Proof. destruct e as [code| |what]; try reflexivity. simpl. now destruct (String.eqb _ _). Qed.

(** X26: every run of [main] ends in one of two ways: with exit code 0
    after one text went to one place (printed, or written to a file whose
    writing succeeded and then announced), or with exit code 1 after
    nothing was printed on the standard output and no file was written. *)
Theorem main_delivers (w : Cli.World) (outs : list Cli.output) (code : Z) :
  Cli.main w = (outs, code) ->
  (code = 0
   /\ ((exists text, outs = [Cli.Log text])
       \/ (exists path text,
             outs = [Cli.WriteFile path text; Cli.Saved path]
             /\ Cli.writes w path = None)))
  \/ (code = 1 /\ existsb Cli.delivers outs = false).
Proof.
  unfold Cli.main.
  assert (Hfinish : forall p r,
            Cli.finish w p r = (outs, code) ->
            (code = 0
             /\ ((exists text, outs = [Cli.Log text])
                 \/ (exists path text,
                       outs = [Cli.WriteFile path text; Cli.Saved path]
                       /\ Cli.writes w path = None)))
            \/ (code = 1 /\ existsb Cli.delivers outs = false)).
  { intros p r. unfold Cli.finish.
    pose proof (emit_cases w (Cli.outputFile p) r) as Hemit.
    destruct (Cli.andThen r (Cli.emit w (Cli.outputFile p))) as [written|e];
      intros [= <- <-]; [left; now split | right; split; [reflexivity|]].
    cbn [existsb Cli.delivers orb]. apply tips_deliver_nothing. }
  destruct (Cli.parseArgs (Cli.argv w)) as [printed|p].
  { intros [= <- <-]. left. split; [reflexivity|]. left. eauto. }
  destruct (Cli.showDemo p); [apply Hfinish|].
  destruct (Cli.given (Cli.inputFile p)) as [path|]; [apply Hfinish|].
  destruct (Cli.isTTY w).
  { intros [= <- <-]. right. now split. }
  unfold Cli.onEnd.
  pose proof (emit_cases w (Cli.outputFile p)
                (match Cli.stdin w with
                 | Some doc => Cli.lift (Cli.convert w (Cli.opts p) doc)
                 | None => Cli.Caught Cli.Syntax
                 end)) as Hemit.
  destruct (Cli.andThen _ (Cli.emit w (Cli.outputFile p))) as [written|e];
    intros [= <- <-]; [left; now split | right; now split].
Qed.

Lemma main_delivers_witness :
  Cli.main (Cli.MkWorld ["node"; "cli.js"; "missing.json"; "-o"; "report.md"]
              (fun _ => Cli.Unreadable "ENOENT") false None (fun _ => None)
              sampleEnv "Error")
    = ([Cli.Failed (Cli.Fs "ENOENT"); Cli.TipMissing], 1)
  /\ existsb Cli.delivers [Cli.Failed (Cli.Fs "ENOENT"); Cli.TipMissing] = false.
Proof.
  split; [reflexivity|].
  destruct (main_delivers
              (Cli.MkWorld ["node"; "cli.js"; "missing.json"; "-o"; "report.md"]
                 (fun _ => Cli.Unreadable "ENOENT") false None (fun _ => None)
                 sampleEnv "Error")
              [Cli.Failed (Cli.Fs "ENOENT"); Cli.TipMissing] 1 eq_refl)
    as [[H _]|[_ H]]; [discriminate H | exact H].
Defined.

(** ** A request body that is a string *)

(** X27: in every report built for a request whose body is a string
    (not an object), that body is printed in full, as a JSON string:
    [cleanObject] returns it as it is, so neither the deny-list nor
    [maxBodySize] applies to it. *)
Theorem reportLines_string_body (env : Env) (err req : value) (options : Options.t)
    (md : list line) (s : string) :
  truthy req = true ->
  getPropOpt req "body" = VStr s ->
  isEmpty s = false ->
  reportLines env err req options = Ok md ->
  exists before after,
    md = before ++ jsonBlock "- **Body:**" (Some (quoteJSONString s)) ++ after.
Proof.
  intros Hreq Hbody Hs Hmd.
  destruct (reportLines_request env err req options md Hmd)
    as (before & section & after & Hsection & Hprint & Heq).
  destruct (requestLines_blocks
              (resolveTheme (Config.theme (mergeOptions defaultOptions options)))
              (mergeOptions defaultOptions options) req Hreq Hprint)
    as (cb & cq & ch & Hb & _ & _ & Hlines).
  rewrite Hlines in Hsection. apply Ok_inj in Hsection. subst section.
  rewrite Hbody in *.
  rewrite (cleanObject_not_object (VStr s) _ _ (andb_false_r _)) in Hb. injection Hb as <-.
  assert (Hne : nonEmpty (VStr s) = true).
  { unfold nonEmpty, truthy, keysLength, strlen. unfold isEmpty in Hs. rewrite Hs.
    destruct s; [discriminate Hs | reflexivity]. }
  rewrite Hne in Heq. cbn [when] in Heq.
  match type of Heq with
  | md = _ ++ (?A ++ ?B ++ _ ++ ?R) ++ _ => exists (before ++ A ++ B), (R ++ after)
  end.
  rewrite Heq. rewrite <- !app_assoc. reflexivity.
Qed.

Lemma reportLines_string_body_witness :
  exists md before after,
    reportLines sampleEnv sampleError textBodyRequest smallCapOptions = Ok md
    /\ md = before
            ++ jsonBlock "- **Body:**"
                 (Some (quoteJSONString "user=alice&password=hunter2"))
            ++ after.
Proof.
  destruct (reportLines sampleEnv sampleError textBodyRequest smallCapOptions)
    as [md|e] eqn:Hmd; [|vm_compute in Hmd; discriminate Hmd].
  destruct (reportLines_string_body sampleEnv sampleError textBodyRequest smallCapOptions md
              "user=alice&password=hunter2" eq_refl eq_refl eq_refl Hmd)
    as (before & after & Heq).
  exists md, before, after. split; [reflexivity | exact Heq].
Defined.

(** ** The report as the response *)

(** X28: with [sendMarkdown], the handler answers with the status, the
    content type [text/markdown] and, as the body, the very report that it
    logged, in development and outside it. *)
Theorem expressErrorToMd_sends_report (mw : Middleware.t) (env : Env) (err req : value)
    (effects : list effect) :
  expressErrorToMd mw env err req false = Ok effects ->
  Middleware.sendMarkdown mw = true ->
  exists markdown,
    errorToMarkdown env err req (Middleware.options mw) = Ok markdown
    /\ hd_error effects = Some (ConsoleError (LF +:+ markdown +:+ LF))
    /\ List.filter onResponse effects
       = [ ResStatus (or_else (or_else (getPropOpt err "status")
                                       (getPropOpt err "statusCode")) (VNum 500));
           ResType "text/markdown";
           ResSend markdown ].
Proof.
  intros Hrun Hsend.
  destruct (expressErrorToMd_inv _ _ _ _ _ _ Hrun) as [markdown H].
  destruct (expressErrorToMd_eq mw env err req false markdown H) as (body & _ & Heq).
  rewrite Heq in Hrun. injection Hrun as <-. rewrite Hsend.
  exists markdown. split; [exact H|]. split; [reflexivity|].
  destruct (Middleware.logger mw); reflexivity.
Qed.

Lemma expressErrorToMd_sends_report_witness :
  exists markdown,
    errorToMarkdown sampleEnv sampleError sampleRequest Options.empty = Ok markdown
    /\ List.filter onResponse
         (match expressErrorToMd (Middleware.Make Options.empty false true) sampleEnv
                  sampleError sampleRequest false with
          | Ok effects => effects
          | Throw _ => []
          end)
       = [ResStatus (VNum 500); ResType "text/markdown"; ResSend markdown].
Proof.
  destruct (expressErrorToMd (Middleware.Make Options.empty false true) sampleEnv
              sampleError sampleRequest false) as [effects|e] eqn:Hrun;
    [|vm_compute in Hrun; discriminate].
  destruct (expressErrorToMd_sends_report _ _ _ _ _ Hrun eq_refl)
    as (markdown & Hmd & _ & Hres).
  exists markdown. split; [exact Hmd | exact Hres].
Defined.
